(** * secret_ingredient: rate limiting, strategy engine, scanner, bots, manager

    A shallow embedding of the Python sources
    - [limiter.py]   (RateLimiter, AdaptiveRateLimiter, BotActionLimiter),
    - [generator.py] (InfluenceBot, EnvironmentalScanner, StrategyEngine),
    - [base_bot.py]  (BaseBot), and
    - [mamager.py]   (BotManager),
    together with the properties the specification states about them.

    Modelling conventions.
    - Python [int] is [Z].  Python [float] values (wall-clock seconds, the
      adaptation factor, strategy weights, ratios) are exact rationals [Q];
      [int(x)] on a float is truncation toward zero.
    - [time.time()] reads an explicit clock; [asyncio.sleep(d)] advances the
      clock by exactly [d].  The asyncio lock serialises callers, so every
      method runs atomically on the object it mutates.
    - A call that may raise returns an [outcome]; the object after the call is
      returned alongside, because Python mutates it before raising.
    - [dict]s used as maps are [gmap]s, [set]s are [gset]s, a [deque] is a
      list with its left end first. *)

From Stdlib Require Import ZArith QArith Qminmax Qabs Qpower Qround Lqa Lia String Ascii List Bool.
From Stdlib Require Import DecimalString Sorted Permutation.
From stdpp Require Import base gmap strings.

Local Open Scope string_scope.
Local Open Scope Z_scope.

(** ** Python prelude *)

Module Py.

(** The exceptions the modelled code can raise. *)
Inductive exn : Type :=
| IndexError
| KeyError
| NotImplementedError
| Exception.            (* any other exception, e.g. one raised by the API client *)

Inductive outcome (A : Type) : Type :=
| Ok (a : A)
| Raise (e : exn).

Arguments Ok {A} a.
Arguments Raise {A} e.

Definition Qlt_bool (x y : Q) : bool := negb (Qle_bool y x).

(** [max(a, b)] and [min(a, b)] on floats: the first argument wins ties. *)
Definition qmax (a b : Q) : Q := if Qlt_bool a b then b else a.
Definition qmin (a b : Q) : Q := if Qlt_bool b a then b else a.

(** [int(x)] for a float [x]: truncation toward zero. *)
Definition int_of_float (x : Q) : Z := Z.quot (Qnum x) (Zpos (Qden x)).

(** [len(xs)] *)
Definition len {A : Type} (xs : list A) : Z := Z.of_nat (length xs).

(** [str.lower()] on ASCII text. *)
Definition lower_ascii (c : ascii) : ascii :=
  let n := nat_of_ascii c in
  if (65 <=? n)%nat && (n <=? 90)%nat then ascii_of_nat (n + 32) else c.

Fixpoint lower (s : string) : string :=
  match s with
  | EmptyString => EmptyString
  | String c s' => String (lower_ascii c) (lower s')
  end.

(** [k in s] for strings: [k] occurs as a contiguous substring of [s]. *)
Fixpoint contains (k s : string) : bool :=
  String.prefix k s ||
  match s with
  | EmptyString => false
  | String _ s' => contains k s'
  end.

(** [sum(1 for x in xs if p x)] *)
Definition count_if {A : Type} (p : A -> bool) (xs : list A) : Z :=
  len (List.filter p xs).

End Py.

Import Py.

(** ** limiter.py *)

Module Limiter.

(** *** class RateLimiter *)

Record RateLimiter : Type := mkRateLimiter {
  max_requests : Z;
  time_window : Z;
  requests : list Q;          (* deque of admission timestamps, oldest first *)
  burst_allowance : Z;
  burst_window : Z
}.

Definition set_requests (rl : RateLimiter) (reqs : list Q) : RateLimiter :=
  mkRateLimiter (max_requests rl) (time_window rl) reqs
                (burst_allowance rl) (burst_window rl).

Definition set_max_requests (rl : RateLimiter) (m : Z) : RateLimiter :=
  mkRateLimiter m (time_window rl) (requests rl)
                (burst_allowance rl) (burst_window rl).

(** [RateLimiter.__init__]: no argument is validated. *)
Definition init (max_requests time_window : Z) : outcome RateLimiter :=
  Ok (mkRateLimiter max_requests time_window []
        (Z.max 1 (max_requests / 3)) (Z.max 1 (time_window / 6))).

(** [while self.requests and (now - self.requests[0]) > self.time_window:
       self.requests.popleft()]
    Clock readings are rationals, and [now - oldest] stands for the age of
    the stamp as the code computes it, the quantity it compares with the
    window. *)
Fixpoint evict (now : Q) (window : Z) (reqs : list Q) : list Q :=
  match reqs with
  | [] => []
  | oldest :: rest =>
      if Qlt_bool (inject_Z window) (now - oldest)
      then evict now window rest
      else reqs
  end.

(** [RateLimiter.can_make_request], called when the clock reads [now]. *)
Definition can_make_request (now : Q) (rl : RateLimiter) : bool * RateLimiter :=
  let reqs := evict now (time_window rl) (requests rl) in
  (len reqs <? max_requests rl, set_requests rl reqs).

(** [RateLimiter.is_rate_limited] *)
Definition is_rate_limited (now : Q) (rl : RateLimiter) : bool * RateLimiter :=
  let '(b, rl') := can_make_request now rl in (negb b, rl').

(** [RateLimiter.requests_remaining] *)
Definition requests_remaining (now : Q) (rl : RateLimiter) : Z * RateLimiter :=
  let reqs := evict now (time_window rl) (requests rl) in
  (Z.max 0 (max_requests rl - len reqs), set_requests rl reqs).

(** [RateLimiter.acquire], entered when the clock reads [clock].  Returns the
    outcome, the limiter afterwards and the clock afterwards. *)
Definition acquire (clock : Q) (rl : RateLimiter)
  : outcome unit * RateLimiter * Q :=
  let now := clock in
  let reqs := evict now (time_window rl) (requests rl) in
  if len reqs >=? max_requests rl then
    match reqs with
    | [] => (Raise IndexError, set_requests rl reqs, clock)  (* self.requests[0] *)
    | oldest_request :: _ =>
        let wait_time := (inject_Z (time_window rl) - (now - oldest_request))%Q in
        if Qlt_bool 0 wait_time then
          let clock' := (clock + (wait_time + (1 # 10)))%Q in
          let now' := clock' in
          let reqs' := evict now' (time_window rl) reqs in
          (Ok tt, set_requests rl (reqs' ++ [now']), clock')
        else
          (Ok tt, set_requests rl (reqs ++ [now]), clock)
    end
  else
    (Ok tt, set_requests rl (reqs ++ [now]), clock).



(** [RateLimiter.reset_time], as seconds since the epoch. *)
Definition reset_time (rl : RateLimiter) : option Q :=
  match requests rl with
  | [] => None
  | oldest_request_time :: _ =>
      Some (oldest_request_time + inject_Z (time_window rl))%Q
  end.

(** The dict [RateLimiter.get_status] returns. *)
Record Status : Type := mkStatus {
  status_max_requests : Z;
  status_time_window : Z;
  status_current_requests : Z;
  status_requests_remaining : Z;
  status_is_rate_limited : bool;
  status_reset_time : option Q;
  status_window_start : option Q
}.

(** [RateLimiter.get_status] *)
Definition get_status (now : Q) (rl : RateLimiter) : Status * RateLimiter :=
  let reqs := evict now (time_window rl) (requests rl) in
  let rl1 := set_requests rl reqs in
  let current := len (requests rl1) in
  let '(remaining, rl2) := requests_remaining now rl1 in
  let '(limited, rl3) := is_rate_limited now rl2 in
  (mkStatus (max_requests rl1) (time_window rl1) current remaining limited
            (reset_time rl3) (hd_error (requests rl3)),
   rl3).

(** A client's use of one limiter over time: any sequence of method calls,
    each at the clock reading of its moment. *)
Inductive call : Type :=
| CallCanMakeRequest (now : Q)
| CallIsRateLimited (now : Q)
| CallRequestsRemaining (now : Q)
| CallAcquire (clock : Q).

Definition after_call (rl : RateLimiter) (c : call) : RateLimiter :=
  match c with
  | CallCanMakeRequest now => snd (can_make_request now rl)
  | CallIsRateLimited now => snd (is_rate_limited now rl)
  | CallRequestsRemaining now => snd (requests_remaining now rl)
  | CallAcquire clock => snd (fst (acquire clock rl))
  end.

Definition after_calls (rl : RateLimiter) (cs : list call) : RateLimiter :=
  fold_left after_call cs rl.

(** *** class AdaptiveRateLimiter(RateLimiter) *)

Record AdaptiveRateLimiter : Type := mkAdaptive {
  base : RateLimiter;                   (* the inherited attributes *)
  original_max_requests : Z;
  adaptation_factor : Q;
  consecutive_successes : Z;
  consecutive_rate_limits : Z;
  recovery_threshold : Z;
  max_recovery_attempts : Z;
  recovery_attempts : Z
}.

Definition set_base (a : AdaptiveRateLimiter) (b : RateLimiter) : AdaptiveRateLimiter :=
  mkAdaptive b (original_max_requests a) (adaptation_factor a)
             (consecutive_successes a) (consecutive_rate_limits a)
             (recovery_threshold a) (max_recovery_attempts a) (recovery_attempts a).

Definition set_counters (a : AdaptiveRateLimiter) (succ lim att : Z) : AdaptiveRateLimiter :=
  mkAdaptive (base a) (original_max_requests a) (adaptation_factor a)
             succ lim (recovery_threshold a) (max_recovery_attempts a) att.

Definition capacity (a : AdaptiveRateLimiter) : Z := max_requests (base a).

(** [AdaptiveRateLimiter.__init__] *)
Definition adaptive_init (max_requests time_window : Z) (factor : Q)
  : outcome AdaptiveRateLimiter :=
  match init max_requests time_window with
  | Raise e => Raise e
  | Ok b =>
      Ok (mkAdaptive b max_requests (qmax (1 # 10) (qmin 1 factor)) 0 0 10 3 0)
  end.

(** The default [adaptation_factor: float = 0.8]. *)
Definition default_factor : Q := 8 # 10.

(** A header value: [int(headers[h])] either yields an integer or raises
    [ValueError]/[TypeError]. *)
Inductive header_value : Type :=
| HInt (z : Z)
| HJunk.

(** [for header in names: if header in headers: try: v = int(headers[header]);
    break; except: continue] *)
Fixpoint first_int (names : list string) (headers : gmap string header_value)
  : option Z :=
  match names with
  | [] => None
  | h :: rest =>
      match headers !! h with
      | Some (HInt z) => Some z
      | _ => first_int rest headers
      end
  end.

Definition limit_headers : list string :=
  ["x-ratelimit-limit"; "x-rate-limit-limit"; "ratelimit-limit"].
Definition remaining_headers : list string :=
  ["x-ratelimit-remaining"; "x-rate-limit-remaining"; "ratelimit-remaining"].
Definition reset_headers : list string :=
  ["x-ratelimit-reset"; "x-rate-limit-reset"; "ratelimit-reset"].

(** Truthiness of an [Optional[int]]: [None] and [0] are false. *)
Definition truthy (o : option Z) : bool :=
  match o with
  | Some z => negb (z =? 0)
  | None => false
  end.

(** [AdaptiveRateLimiter._parse_rate_limit_headers] *)
Definition parse_rate_limit_headers (clock : Q) (headers : gmap string header_value)
    (a : AdaptiveRateLimiter) : AdaptiveRateLimiter * Q :=
  let limit := first_int limit_headers headers in
  let remaining := first_int remaining_headers headers in
  let reset_time := first_int reset_headers headers in
  let a1 :=
    match limit with
    | Some l =>
        if truthy limit && (l <? capacity a)
        then set_base a (set_max_requests (base a) l)
        else a
    | None => a
    end in
  match remaining, reset_time with
  | Some 0, Some r =>
      if truthy reset_time then
        let wait_time := (inject_Z r - clock)%Q in
        if Qlt_bool 0 wait_time && Qle_bool wait_time 3600
        then (a1, (clock + (wait_time + 1))%Q)
        else (a1, clock)
      else (a1, clock)
  | _, _ => (a1, clock)
  end.

(** [if headers:] -- [None] and the empty dict are false. *)
Definition headers_truthy (headers : option (gmap string header_value))
  : option (gmap string header_value) :=
  match headers with
  | Some h => if decide (h = ∅) then None else Some h
  | None => None
  end.

(** [AdaptiveRateLimiter.handle_rate_limit_response] *)
Definition handle_rate_limit_response (clock : Q) (status_code : Z)
    (headers : option (gmap string header_value)) (a : AdaptiveRateLimiter)
  : AdaptiveRateLimiter * Q :=
  if status_code =? 429 then
    let a1 := set_counters a 0 (consecutive_rate_limits a + 1) (recovery_attempts a) in
    let a2 :=
      if consecutive_rate_limits a1 >=? 2 then
        let new_max :=
          Z.max 1 (int_of_float (inject_Z (capacity a1) * adaptation_factor a1)) in
        if new_max <? capacity a1
        then set_base a1 (set_max_requests (base a1) new_max)
        else a1
      else a1 in
    match headers_truthy headers with
    | Some h => parse_rate_limit_headers clock h a2
    | None => (a2, clock)
    end
  else if (200 <=? status_code) && (status_code <? 300) then
    let a1 := set_counters a (consecutive_successes a + 1) 0 (recovery_attempts a) in
    if (consecutive_successes a1 >=? recovery_threshold a1)
       && (capacity a1 <? original_max_requests a1)
       && (recovery_attempts a1 <? max_recovery_attempts a1)
    then
      let grown :=
        Z.min (original_max_requests a1)
              (int_of_float (inject_Z (capacity a1) * (12 # 10))) in
      (set_counters (set_base a1 (set_max_requests (base a1) grown))
                    0 (consecutive_rate_limits a1) (recovery_attempts a1 + 1),
       clock)
    else (a1, clock)
  else (a, clock).

(** A run of responses, each a status code with optional headers. *)
Fixpoint handle_responses (clock : Q)
    (rs : list (Z * option (gmap string header_value)))
    (a : AdaptiveRateLimiter) : AdaptiveRateLimiter * Q :=
  match rs with
  | [] => (a, clock)
  | (code, hdrs) :: rest =>
      let '(a', clock') := handle_rate_limit_response clock code hdrs a in
      handle_responses clock' rest a'
  end.

(** The fields a response never touches. *)
Definition same_settings (a a' : AdaptiveRateLimiter) : Prop :=
  original_max_requests a' = original_max_requests a /\
  adaptation_factor a' = adaptation_factor a /\
  recovery_threshold a' = recovery_threshold a /\
  max_recovery_attempts a' = max_recovery_attempts a.

(** The status codes [handle_rate_limit_response] reacts to: 429 and 2xx. *)
Definition adapts_to (r : Z * option (gmap string header_value)) : bool :=
  (fst r =? 429) || ((200 <=? fst r) && (fst r <? 300)).

(** *** class BotActionLimiter *)

(** A limiter object as Python sees it at run time: [isinstance(l,
    AdaptiveRateLimiter)] distinguishes the two classes. *)
Inductive limiter_obj : Type :=
| Plain (rl : RateLimiter)
| Adaptive (a : AdaptiveRateLimiter).

(** The [RateLimiter] part of a limiter object, and its replacement after a
    method of the base class has mutated it. *)
Definition rate_part (l : limiter_obj) : RateLimiter :=
  match l with
  | Plain rl => rl
  | Adaptive a => base a
  end.

Definition with_rate_part (l : limiter_obj) (rl : RateLimiter) : limiter_obj :=
  match l with
  | Plain _ => Plain rl
  | Adaptive a => Adaptive (set_base a rl)
  end.

Record BotActionLimiter : Type := mkBotActionLimiter {
  limiters : gmap string limiter_obj;
  overall_limiter : AdaptiveRateLimiter
}.

Definition plain_or_raise (o : outcome RateLimiter)
    (k : limiter_obj -> outcome BotActionLimiter) : outcome BotActionLimiter :=
  match o with
  | Ok rl => k (Plain rl)
  | Raise e => Raise e
  end.

(** [BotActionLimiter.__init__] *)
Definition bot_limiter_init : outcome BotActionLimiter :=
  plain_or_raise (init 2 60) (fun post =>
  plain_or_raise (init 5 60) (fun like =>
  plain_or_raise (init 2 60) (fun repost =>
  plain_or_raise (init 2 120) (fun follow =>
  plain_or_raise (init 10 60) (fun search =>
  match adaptive_init 8 60 default_factor with
  | Raise e => Raise e
  | Ok overall =>
      Ok (mkBotActionLimiter
            (<["post" := post]> (<["like" := like]> (<["repost" := repost]>
              (<["follow" := follow]> (<["search" := search]> ∅)))))
            overall)
  end))))).

Definition set_overall_base (b : BotActionLimiter) (rl : RateLimiter) : BotActionLimiter :=
  mkBotActionLimiter (limiters b) (set_base (overall_limiter b) rl).

(** [BotActionLimiter.acquire] *)
Definition bot_acquire (clock : Q) (action_type : string) (b : BotActionLimiter)
  : outcome unit * BotActionLimiter * Q :=
  match acquire clock (base (overall_limiter b)) with
  | (Raise e, rl, clock1) => (Raise e, set_overall_base b rl, clock1)
  | (Ok _, rl, clock1) =>
      let b1 := set_overall_base b rl in
      match limiters b1 !! action_type with
      | Some limiter =>
          let '(r, rl2, clock2) := acquire clock1 (rate_part limiter) in
          (r,
           mkBotActionLimiter
             (<[action_type := with_rate_part limiter rl2]> (limiters b1))
             (overall_limiter b1),
           clock2)
      | None => (Ok tt, b1, clock1)
      end
  end.

(** [BotActionLimiter.__aenter__] *)
Definition bot_aenter (b : BotActionLimiter) : outcome BotActionLimiter :=
  Raise NotImplementedError.

(** [BotActionLimiter.can_perform_action] *)
Definition can_perform_action (now : Q) (action_type : string) (b : BotActionLimiter)
  : bool * BotActionLimiter :=
  let '(ok, rl) := can_make_request now (base (overall_limiter b)) in
  let b1 := set_overall_base b rl in
  if negb ok then (false, b1)
  else
    match limiters b1 !! action_type with
    | Some limiter =>
        let '(ok2, rl2) := can_make_request now (rate_part limiter) in
        (ok2,
         mkBotActionLimiter
           (<[action_type := with_rate_part limiter rl2]> (limiters b1))
           (overall_limiter b1))
    | None => (true, b1)
    end.

(** [BotActionLimiter.handle_response] *)
Definition handle_response (clock : Q) (action_type : string) (status_code : Z)
    (headers : option (gmap string header_value)) (b : BotActionLimiter)
  : BotActionLimiter * Q :=
  let '(overall, clock1) :=
    handle_rate_limit_response clock status_code headers (overall_limiter b) in
  let b1 := mkBotActionLimiter (limiters b) overall in
  match limiters b1 !! action_type with
  | Some (Adaptive a) =>
      let '(a', clock2) := handle_rate_limit_response clock1 status_code headers a in
      (mkBotActionLimiter (<[action_type := Adaptive a']> (limiters b1))
                          (overall_limiter b1),
       clock2)
  | _ => (b1, clock1)
  end.

(** A run of [handle_response] calls for one action type. *)
Fixpoint handle_response_run (clock : Q) (action_type : string)
    (rs : list (Z * option (gmap string header_value))) (b : BotActionLimiter)
  : BotActionLimiter * Q :=
  match rs with
  | [] => (b, clock)
  | (code, hdrs) :: rest =>
      let '(b', clock') := handle_response clock action_type code hdrs b in
      handle_response_run clock' action_type rest b'
  end.

(** Every per-type limiter is a plain [RateLimiter]. *)
Definition all_plain (b : BotActionLimiter) : Prop :=
  forall t l, limiters b !! t = Some l -> exists rl, l = Plain rl.

(** A 2xx status code. *)
Definition is_success (r : Z * option (gmap string header_value)) : Prop :=
  200 <= fst r < 300.

End Limiter.

(** ** generator.py: class EnvironmentalScanner *)

Module Scanner.

(** The attributes [_analyze_post_sentiment] reads. *)
Record EnvironmentalScanner : Type := mkScanner {
  political_keywords : gmap string (list string);
  sentiment_keywords : gmap string (list string)
}.

(** The keyword tables of [EnvironmentalScanner.__init__]. *)
Definition init : EnvironmentalScanner :=
  mkScanner
    (<["victor" := ["victor"; "hawthorne"; "victor hawthorne"; "economic growth";
                    "business friendly"]]>
     (<["marina" := ["marina"; "progressive"; "social justice"; "climate action"]]>
     (<["election" := ["vote"; "election"; "candidate"; "campaign"; "ballot"]]>
     (<["issues" := ["economy"; "healthcare"; "education"; "environment"; "jobs"]]>
      ∅))))
    (<["positive" := ["great"; "excellent"; "amazing"; "support"; "endorse"; "love";
                      "fantastic"]]>
     (<["negative" := ["terrible"; "awful"; "hate"; "disappointed"; "against";
                       "oppose"]]>
     (<["neutral" := ["consider"; "think"; "maybe"; "perhaps"; "discuss"; "analyze"]]>
      ∅))).

(** The [sentiment] dict: keys ['candidate'], ['type'], ['strength']. *)
Record Sentiment : Type := mkSentiment {
  candidate : option string;
  sentiment_type : string;
  strength : Q
}.

(** [sum(1 for keyword in keywords if keyword in content_lower)] *)
Definition keyword_score (keywords : list string) (content_lower : string) : Z :=
  count_if (fun keyword => contains keyword content_lower) keywords.

(** [d[key]] *)
Definition getitem {A : Type} (d : gmap string A) (key : string) : outcome A :=
  match d !! key with
  | Some v => Ok v
  | None => Raise KeyError
  end.

(** [EnvironmentalScanner._analyze_post_sentiment] *)
Definition analyze_post_sentiment (self : EnvironmentalScanner) (content : string)
  : outcome Sentiment :=
  let content_lower := lower content in
  match getitem (political_keywords self) "victor" with
  | Raise e => Raise e
  | Ok victor_keywords =>
  let victor_score := keyword_score victor_keywords content_lower in
  match getitem (political_keywords self) "marina" with
  | Raise e => Raise e
  | Ok marina_keywords =>
  let marina_score := keyword_score marina_keywords content_lower in
  match getitem (sentiment_keywords self) "positive" with
  | Raise e => Raise e
  | Ok positive_keywords =>
  let positive_score := keyword_score positive_keywords content_lower in
  match getitem (sentiment_keywords self) "negative" with
  | Raise e => Raise e
  | Ok negative_keywords =>
  let negative_score := keyword_score negative_keywords content_lower in
  if (marina_score <? victor_score) && (negative_score <? positive_score) then
    Ok (mkSentiment (Some "victor") "positive"
          (qmin 1 (inject_Z (victor_score + positive_score) / 5)))
  else if (victor_score <? marina_score) && (negative_score <? positive_score) then
    Ok (mkSentiment (Some "marina") "positive"
          (qmin 1 (inject_Z (marina_score + positive_score) / 5)))
  else if positive_score <? negative_score then
    Ok (mkSentiment None "negative" (qmin 1 (inject_Z negative_score / 3)))
  else
    Ok (mkSentiment None "neutral" 0)
  end end end end.

(** [EnvironmentalScanner._is_political_content].  [any] does not depend on
    the order in which the dict's values are visited. *)
Definition is_political_content (self : EnvironmentalScanner) (content : string)
  : bool :=
  let content_lower := lower content in
  let all_political_keywords :=
    concat (map snd (map_to_list (political_keywords self))) in
  existsb (fun keyword => contains keyword content_lower) all_political_keywords.

End Scanner.

(** ** generator.py: class StrategyEngine *)

Module Strategy.

(** *** Randomness

    A computation that draws from Python's [random] module reads the
    successive values of [random.random()], each in [[0, 1)], from a tape. *)

Definition R (A : Type) : Type := list Q -> outcome A * list Q.

Global Instance R_ret : MRet R := fun A a rng => (Ok a, rng).

Global Instance R_bind : MBind R := fun A B k c rng =>
  match c rng with
  | (Ok a, rng') => k a rng'
  | (Raise e, rng') => (Raise e, rng')
  end.

Definition raise {A : Type} (e : exn) : R A := fun rng => (Raise e, rng).

(** [random.random()] *)
Definition random : R Q := fun rng =>
  match rng with
  | [] => (Ok 0%Q, [])
  | u :: rest => (Ok u, rest)
  end.

(** [random.uniform(a, b)], that is [a + (b - a) * random()]. *)
Definition uniform (a b : Q) : R Q :=
  u ← random; mret (a + (b - a) * u)%Q.

(** [random.choice(seq)]: raises [IndexError] on an empty sequence. *)
Definition choice {A : Type} (seq : list A) : R A :=
  match seq with
  | [] => raise IndexError
  | _ =>
      u ← random;
      match nth_error seq (Z.to_nat (int_of_float (u * inject_Z (len seq)))) with
      | Some x => mret x
      | None => raise IndexError
      end
  end.

(** *** Data *)

(** One persona of [config/personas.json] as the engine reads it; a field is
    [None] when its key is absent. *)
Record PersonaConfig : Type := mkPersona {
  interests : option (list string);
  tone : option string;
  political_leanings : option (gmap string string)
}.

(** ['npc_activity'] of the scanner's intelligence. *)
Record NpcActivity : Type := mkNpcActivity {
  active_npcs : option (list string)
}.

(** [current_context]: the keys of the intelligence dict the engine reads. *)
Record Context : Type := mkContext {
  trending_topics : option (list string);
  political_sentiment : option (gmap string Q);
  npc_activity : option NpcActivity
}.

(** Values stored under an action's ['context']. *)
Inductive ctx_value : Type :=
| CNone
| CBool (b : bool)
| CStr (s : string)
| CStrs (l : list string)
| CScores (m : gmap string Q).

(** An action dict; a field is [None] when the key is absent. *)
Record Action : Type := mkAction {
  action_type : option string;            (* 'type' *)
  content_type : option string;
  context : option (gmap string ctx_value);
  query : option string;
  limit : option Z;
  engagement_types : option (list string)
}.

(** A coordination objective pushed by the manager. *)
Record Objective : Type := mkObjective {
  objective_type : option string;         (* 'type' *)
  targets : option (list string);
  priority : option string;
  objective : option string
}.

Global Instance Objective_eq_dec : EqDecision Objective.
Proof. solve_decision. Defined.

Record Weights : Type := mkWeights {
  post_creation : Q;
  engagement : Q;
  trending_participation : Q;
  npc_targeting : Q
}.

Record ContentStrategy : Type := mkContentStrategy {
  audience_building_ratio : Q;
  political_ratio : Q;
  preferred_content_types : list string;
  engagement_style : string;
  posting_times : string
}.

(** An entry of [recent_actions]. *)
Record RecentAction : Type := mkRecent {
  recent_action : Action;
  recent_timestamp : Q;
  recent_phase : string;
  recent_context : Context
}.

(** A value of the [action_cooldowns] defaultdict. *)
Inductive cooldown : Type :=
| DatetimeMin
| Until (t : Q).

(** The engine.  [logger] and [performance_metrics] play no part in choosing
    an action and are left out. *)
Record StrategyEngine : Type := mkEngine {
  campaign_objective : string;
  persona_name : string;
  persona_config : PersonaConfig;
  current_context : Context;
  recent_actions : list RecentAction;       (* deque(maxlen=20) *)
  coordination_objectives : list Objective;
  strategy_weights : Weights;
  action_cooldowns : gmap string cooldown;
  content_strategy : ContentStrategy
}.

(** [d.get(key, default)] for an optional field. *)
Definition get {A : Type} (field : option A) (dflt : A) : A :=
  match field with
  | Some v => v
  | None => dflt
  end.

(** *** Construction *)

(** [StrategyEngine._initialize_strategy_weights] *)
Definition initialize_strategy_weights (campaign_objective : string) : Weights :=
  if String.eqb campaign_objective "support_victor" then
    mkWeights (5 # 10) (3 # 10) (2 # 10) (1 # 10)
  else if String.eqb campaign_objective "support_marina" then
    mkWeights (4 # 10) (4 # 10) (2 # 10) (1 # 10)
  else if String.eqb campaign_objective "voter_disillusionment" then
    mkWeights (3 # 10) (5 # 10) (2 # 10) (1 # 10)
  else
    mkWeights (4 # 10) (3 # 10) (2 # 10) (1 # 10).

(** [StrategyEngine._build_content_strategy] *)
Definition build_content_strategy (persona_config : PersonaConfig) : ContentStrategy :=
  let persona_tone := get (tone persona_config) "" in
  mkContentStrategy (8 # 10) (4 # 10)
    (get (interests persona_config) [])
    (if contains "aggressive" (lower persona_tone) then "aggressive"
     else if contains "passive" (lower persona_tone) then "passive"
     else "moderate")
    "varied".

(** [StrategyEngine.__init__]; [persona_config] is what
    [settings.personas.get('personas', {}).get(persona_name, {})] yields. *)
Definition init (campaign_objective persona_name : string)
    (persona_config : PersonaConfig) : StrategyEngine :=
  mkEngine campaign_objective persona_name persona_config
           (mkContext None None None) [] []
           (initialize_strategy_weights campaign_objective)
           ∅
           (build_content_strategy persona_config).

(** *** Weighted choice *)

(** The loop of [_weighted_random_choice]: the first option whose cumulative
    weight reaches [r]. *)
Fixpoint scan_options (r current_weight : Q) (options : list (string * Q))
  : option string :=
  match options with
  | [] => None
  | (opt, weight) :: rest =>
      let current_weight := (current_weight + weight)%Q in
      if Qle_bool r current_weight then Some opt
      else scan_options r current_weight rest
  end.

(** [sum(weight for _, weight in options)], over rationals.  With no
    negative weight the sum is zero exactly when every weight is zero, for
    the code's floating-point sum as for this one; the facts about the
    [total_weight == 0] guard below are stated for such weights. *)
Definition total_weight (options : list (string * Q)) : Q :=
  fold_left (fun acc ow => (acc + snd ow)%Q) options 0%Q.

(** [StrategyEngine._weighted_random_choice] *)
Definition weighted_random_choice (options : list (string * Q)) : R string :=
  let total := total_weight options in
  if Qeq_bool total 0 then
    match options with
    | [] => raise IndexError                    (* options[0] *)
    | (first, _) :: _ => mret first
    end
  else
    r ← uniform 0 total;
    match scan_options r 0 options with
    | Some opt => mret opt
    | None =>
        match List.last (map (fun ow => Some (fst ow)) options) None with
        | Some opt => mret opt                  (* options[-1][0] *)
        | None => raise IndexError
        end
    end.

(** *** Queries *)

(** [StrategyEngine._get_trending_query] *)
Definition get_trending_query (self : StrategyEngine) : R string :=
  match get (trending_topics (current_context self)) [] with
  | first_topic :: more_topics =>
      let persona_interests := get (interests (persona_config self)) [] in
      match List.find
              (fun topic =>
                 existsb (fun interest => contains (lower interest) (lower topic))
                         persona_interests)
              (first_topic :: more_topics) with
      | Some topic => mret topic
      | None => mret first_topic
      end
  | [] => choice (get (interests (persona_config self)) ["community"; "local"])
  end.

(** [StrategyEngine._get_political_query] *)
Definition get_political_query (self : StrategyEngine) : R string :=
  if String.eqb (campaign_objective self) "support_victor" then
    choice ["victor hawthorne"; "economy"; "business"; "jobs"]
  else if String.eqb (campaign_objective self) "support_marina" then
    choice ["marina"; "progressive"; "climate"; "healthcare"]
  else
    choice ["politics"; "election"; "disappointed"; "system"].

(** [StrategyEngine._get_community_query] *)
Definition get_community_query (self : StrategyEngine) : R string :=
  let community_terms := ["kingston"; "local"; "community"; "downtown"] in
  let persona_interests := get (interests (persona_config self)) [] in
  choice (community_terms ++ firstn 3 persona_interests)%list.

(** [StrategyEngine._get_trending_political_query] *)
Definition get_trending_political_query (self : StrategyEngine) : R string :=
  let political_terms := ["vote"; "election"; "candidate"; "policy"] in
  match get (trending_topics (current_context self)) [] with
  | topic :: _ =>
      political_term ← choice political_terms;
      mret (topic ++ " " ++ political_term)%string
  | [] => choice political_terms
  end.

(** [StrategyEngine._get_neutral_context] *)
Definition get_neutral_context (self : StrategyEngine) : gmap string ctx_value :=
  <["focus" := CStr "community"]>
  (<["interests" := CStrs (firstn 2 (get (interests (persona_config self)) []))]>
  (<["tone" := CStr "friendly"]>
  (<["avoid_politics" := CBool true]> ∅))).

(** [StrategyEngine._get_relevant_issues].  The iteration order of a Python
    [set] is unspecified; [elements] fixes one. *)
Definition get_relevant_issues (self : StrategyEngine) : list string :=
  let all_issues :=
    ["economy"; "healthcare"; "education"; "environment"; "jobs"; "housing"] in
  let persona_interests := get (interests (persona_config self)) [] in
  let relevant_issues :=
    List.filter
      (fun issue =>
         existsb (fun interest => contains interest issue || contains issue interest)
                 persona_interests)
      all_issues in
  let relevant_issues :=
    if String.eqb (campaign_objective self) "support_victor" then
      (relevant_issues ++ ["economy"; "jobs"; "business"])%list
    else if String.eqb (campaign_objective self) "support_marina" then
      (relevant_issues ++ ["environment"; "healthcare"; "education"])%list
    else relevant_issues in
  firstn 3 (elements (list_to_set relevant_issues : gset string)).

(** *** Actions *)

(** [StrategyEngine._get_political_content_action] *)
Definition get_political_content_action (self : StrategyEngine) : Action :=
  let political_context : gmap string ctx_value :=
    <["objective" := CStr (campaign_objective self)]>
    (<["persona_approach" :=
         CStr (get (get (political_leanings (persona_config self)) ∅
                      !! campaign_objective self) "")]>
    (<["current_issues" := CStrs (get_relevant_issues self)]> ∅)) in
  let political_context :=
    match political_sentiment (current_context self) with
    | Some sentiment => <["sentiment_context" := CScores sentiment]> political_context
    | None => political_context
    end in
  let political_context :=
    match trending_topics (current_context self) with
    | Some topics => <["trending_topics" := CStrs (firstn 3 topics)]> political_context
    | None => political_context
    end in
  mkAction (Some "post") (Some "political") (Some political_context) None None None.

(** [StrategyEngine._get_npc_targeting_action] *)
Definition get_npc_targeting_action (self : StrategyEngine) : R Action :=
  let npc_activity := get (npc_activity (current_context self)) (mkNpcActivity None) in
  match get (active_npcs npc_activity) [] with
  | [] =>
      q ← get_community_query self;
      mret (mkAction (Some "search_and_engage") None None (Some q) (Some 2)
                     (Some ["like"]))
  | npcs =>
      target_npc ← choice npcs;
      mret (mkAction (Some "search_and_engage") None None
                     (Some ("from:" ++ target_npc)%string) (Some 1)
                     (Some ["reply"; "like"]))
  end.

(** [StrategyEngine._get_audience_building_action] *)
Definition get_audience_building_action (self : StrategyEngine) : R Action :=
  let w := strategy_weights self in
  let action_options :=
    [("post_personal", (post_creation w * (12 # 10))%Q);
     ("engage_trending", (trending_participation w * (15 # 10))%Q);
     ("community_engagement", (engagement w * (11 # 10))%Q)] in
  chosen ← weighted_random_choice action_options;
  if String.eqb chosen "post_personal" then
    mret (mkAction (Some "post") (Some "audience_building")
            (Some (<["focus" := CStr "personal_story"]>
                   (<["interests" :=
                        CStrs (firstn 3 (get (interests (persona_config self)) []))]>
                   (<["tone" := CStr (get (tone (persona_config self)) "casual")]> ∅))))
            None None None)
  else if String.eqb chosen "engage_trending" then
    q ← get_trending_query self;
    mret (mkAction (Some "search_and_engage") None None (Some q) (Some 2)
                   (Some ["like"; "reply"]))
  else
    q ← get_community_query self;
    mret (mkAction (Some "search_and_engage") None None (Some q) (Some 3)
                   (Some ["like"; "reply"])).

(** [action['action'].get(key) == value] *)
Definition field_is (field : option string) (value : string) : bool :=
  match field with
  | Some v => String.eqb v value
  | None => false
  end.

(** [recent_political_posts] and [total_recent_posts] of
    [_get_political_influence_action]. *)
Definition recent_political_posts (self : StrategyEngine) : Z :=
  count_if (fun a => field_is (content_type (recent_action a)) "political")
           (recent_actions self).

Definition total_recent_posts (self : StrategyEngine) : Z :=
  count_if (fun a => field_is (action_type (recent_action a)) "post")
           (recent_actions self).

(** [current_political_ratio = recent_political_posts / max(1, total_recent_posts)] *)
Definition current_political_ratio (self : StrategyEngine) : Q :=
  (inject_Z (recent_political_posts self)
   / inject_Z (Z.max 1 (total_recent_posts self)))%Q.

(** [StrategyEngine._get_political_influence_action] *)
Definition get_political_influence_action (self : StrategyEngine) : R Action :=
  let target_political_ratio := political_ratio (content_strategy self) in
  if Qlt_bool (current_political_ratio self) target_political_ratio then
    mret (get_political_content_action self)
  else
    let action_options :=
      [("post_neutral", 4 # 10); ("political_engagement", 3 # 10);
       ("npc_targeting", 2 # 10); ("trending_political", 1 # 10)] in
    chosen ← weighted_random_choice action_options;
    if String.eqb chosen "post_neutral" then
      mret (mkAction (Some "post") (Some "neutral") (Some (get_neutral_context self))
                     None None None)
    else if String.eqb chosen "political_engagement" then
      q ← get_political_query self;
      mret (mkAction (Some "search_and_engage") None None (Some q) (Some 2)
                     (Some ["reply"; "like"]))
    else if String.eqb chosen "npc_targeting" then
      get_npc_targeting_action self
    else
      q ← get_trending_political_query self;
      mret (mkAction (Some "search_and_engage") None None (Some q) (Some 1)
                     (Some ["reply"])).

(** *** Coordination objectives *)

(** [StrategyEngine._get_priority_score] *)
Definition get_priority_score (priority : string) : Z :=
  let p := lower priority in
  if String.eqb p "low" then 1
  else if String.eqb p "medium" then 2
  else if String.eqb p "high" then 3
  else if String.eqb p "urgent" then 4
  else 1.

(** [max(iterable, key=key)] on a non-empty iterable: the first element of
    greatest key. *)
Fixpoint max_by {A : Type} (key : A -> Z) (best : A) (rest : list A) : A :=
  match rest with
  | [] => best
  | x :: rest' => max_by key (if key best <? key x then x else best) rest'
  end.

(** [list.remove(x)]: drops the first element equal to [x]. *)
Fixpoint remove_first (x : Objective) (l : list Objective) : list Objective :=
  match l with
  | [] => []
  | y :: rest => if decide (y = x) then rest else y :: remove_first x rest
  end.

Definition set_cooldowns (self : StrategyEngine) (c : gmap string cooldown)
  : StrategyEngine :=
  mkEngine (campaign_objective self) (persona_name self) (persona_config self)
           (current_context self) (recent_actions self)
           (coordination_objectives self) (strategy_weights self) c
           (content_strategy self).

Definition set_objectives (self : StrategyEngine) (objs : list Objective)
  : StrategyEngine :=
  mkEngine (campaign_objective self) (persona_name self) (persona_config self)
           (current_context self) (recent_actions self) objs
           (strategy_weights self) (action_cooldowns self) (content_strategy self).

Definition set_weights (self : StrategyEngine) (w : Weights) : StrategyEngine :=
  mkEngine (campaign_objective self) (persona_name self) (persona_config self)
           (current_context self) (recent_actions self)
           (coordination_objectives self) w (action_cooldowns self)
           (content_strategy self).

Definition set_recent_actions (self : StrategyEngine) (ra : list RecentAction)
  : StrategyEngine :=
  mkEngine (campaign_objective self) (persona_name self) (persona_config self)
           (current_context self) ra (coordination_objectives self)
           (strategy_weights self) (action_cooldowns self) (content_strategy self).

(** [cooldown > datetime.now()] *)
Definition cooldown_active (c : cooldown) (now : Q) : bool :=
  match c with
  | DatetimeMin => false
  | Until t => Qlt_bool now t
  end.

(** [StrategyEngine._can_execute_objective].  Reading a missing key of the
    [action_cooldowns] defaultdict stores [datetime.min] under it. *)
Definition can_execute_objective (now : Q) (objective : Objective)
    (self : StrategyEngine) : bool * StrategyEngine :=
  let obj_type := get (objective_type objective) "" in
  let '(c, self1) :=
    match action_cooldowns self !! obj_type with
    | Some c => (c, self)
    | None => (DatetimeMin,
               set_cooldowns self (<[obj_type := DatetimeMin]> (action_cooldowns self)))
    end in
  if cooldown_active c now then (false, self1)
  else if String.eqb obj_type "amplify_trending" then
    (match trending_topics (current_context self1) with
     | Some (_ :: _) => true
     | _ => false
     end, self1)
  else (true, self1).

(** [random.choice(targets) if targets else dflt] *)
Definition choice_or {A : Type} (targets : list string) (some : string -> A)
    (dflt : A) : R A :=
  match targets with
  | [] => mret dflt
  | _ => t ← choice targets; mret (some t)
  end.

(** [StrategyEngine._convert_objective_to_action] *)
Definition convert_objective_to_action (self : StrategyEngine)
    (objective : Objective) : R Action :=
  let obj_type := get (objective_type objective) "" in
  if String.eqb obj_type "amplify_trending" then
    topic ← choice_or (get (targets objective) []) CStr CNone;
    mret (mkAction (Some "post") (Some "trending_engagement")
            (Some (<["trending_topic" := topic]> (<["coordination" := CBool true]> ∅)))
            None None None)
  else if String.eqb obj_type "coordinated_npc_engagement" then
    q ← choice_or (get (targets objective) []) (fun t => t) "community";
    mret (mkAction (Some "search_and_engage") None None (Some q) (Some 2)
                   (Some ["reply"; "like"]))
  else if String.eqb obj_type "campaign_push" then
    mret (mkAction (Some "post") (Some "political")
            (Some (<["objective" :=
                       CStr (get (Strategy.objective objective) (campaign_objective self))]>
                   (<["coordination" := CBool true]>
                   (<["intensity" := CStr "high"]> ∅))))
            None None None)
  else
    mret (mkAction (Some "post") (Some "neutral")
            (Some (<["coordination" := CBool true]> ∅)) None None None).

(** [StrategyEngine._check_coordination_objectives] *)
Definition check_coordination_objectives (now : Q) (self : StrategyEngine)
    (rng : list Q) : outcome (option Action) * StrategyEngine * list Q :=
  match coordination_objectives self with
  | [] => (Ok None, self, rng)
  | o :: rest =>
      let objective :=
        max_by (fun x => get_priority_score (get (priority x) "low")) o rest in
      let '(ok, self1) := can_execute_objective now objective self in
      if ok then
        let self2 :=
          set_objectives self1 (remove_first objective (coordination_objectives self1)) in
        match convert_objective_to_action self2 objective rng with
        | (Ok action, rng') => (Ok (Some action), self2, rng')
        | (Raise e, rng') => (Raise e, self2, rng')
        end
      else (Ok None, self1, rng)
  end.

(** *** Choosing the next action *)

(** [bot_stats.get(key, 0)] *)
Definition stat (bot_stats : gmap string Z) (key : string) : Z :=
  get (bot_stats !! key) 0.

(** [StrategyEngine._update_performance_metrics] *)
Definition update_performance_metrics (bot_stats : gmap string Z)
    (self : StrategyEngine) : StrategyEngine :=
  let total_posts := Z.max 1 (stat bot_stats "posts_created") in
  let political_ratio :=
    (inject_Z (stat bot_stats "political_posts") / inject_Z total_posts)%Q in
  let target_ratio := Strategy.political_ratio (content_strategy self) in
  let w := strategy_weights self in
  if Qlt_bool (2 # 10) (Qabs (political_ratio - target_ratio)) then
    if Qlt_bool political_ratio target_ratio then
      set_weights self
        (mkWeights (post_creation w * (11 # 10)) (engagement w)
                   (trending_participation w) (npc_targeting w))
    else
      set_weights self
        (mkWeights (post_creation w) (engagement w * (11 # 10))
                   (trending_participation w) (npc_targeting w))
  else self.

(** [deque.append] on a [deque(maxlen=maxlen)]. *)
Definition deque_append {A : Type} (maxlen : nat) (d : list A) (x : A) : list A :=
  if (maxlen <=? length d)%nat then (List.tl d ++ [x])%list else (d ++ [x])%list.

(** [StrategyEngine.get_next_action], the clock reading [now]. *)
Definition get_next_action (current_phase : string) (bot_stats : gmap string Z)
    (now : Q) (self : StrategyEngine) (rng : list Q)
  : outcome Action * StrategyEngine * list Q :=
  let self1 := update_performance_metrics bot_stats self in
  match check_coordination_objectives now self1 rng with
  | (Raise e, self2, rng2) => (Raise e, self2, rng2)
  | (Ok (Some coordination_action), self2, rng2) =>
      (Ok coordination_action, self2, rng2)
  | (Ok None, self2, rng2) =>
      let '(r, rng3) :=
        (if String.eqb current_phase "audience_building"
         then get_audience_building_action self2
         else get_political_influence_action self2) rng2 in
      match r with
      | Raise e => (Raise e, self2, rng3)
      | Ok action =>
          (Ok action,
           set_recent_actions self2
             (deque_append 20 (recent_actions self2)
                (mkRecent action now current_phase (current_context self2))),
           rng3)
      end
  end.

(** *** Feedback from the bot and the manager *)

(** [StrategyEngine.add_coordination_objective] *)
Definition add_coordination_objective (objective : Objective) (self : StrategyEngine)
  : StrategyEngine :=
  set_objectives self (coordination_objectives self ++ [objective]).

(** [StrategyEngine.update_from_action_results], the clock reading [now].
    The [performance_metrics] defaultdict, which is no field of the record
    above, is passed in and returned alongside the engine. *)
Definition update_from_action_results (action : Action) (now : Q)
    (self : StrategyEngine) (performance_metrics : gmap string Z)
  : StrategyEngine * gmap string Z :=
  let action_type := get (Strategy.action_type action) "" in
  let content_type := get (Strategy.content_type action) "" in
  let key := (action_type ++ "_" ++ content_type)%string in
  (set_cooldowns self
     (<[action_type := Until (now + 300)]> (action_cooldowns self)),
   <[key := get (performance_metrics !! key) 0 + 1]> performance_metrics).

(** *** Reading the history

    An action is a political post when it is a post whose content type is
    political; the ratio of section 4.5 counts those among the posts. *)
Definition is_political_post (a : RecentAction) : bool :=
  field_is (action_type (recent_action a)) "post"
  && field_is (content_type (recent_action a)) "political".

(** Only posts carry a content type. *)
Definition typed_post (action : Action) : Prop :=
  action_type action = Some "post" \/ content_type action = None.

Definition history_wf (self : StrategyEngine) : Prop :=
  Forall (fun a => typed_post (recent_action a)) (recent_actions self).

End Strategy.

(** ** base_bot.py and generator.py: BaseBot and InfluenceBot *)

Module Bot.

Import Limiter.

(** [BaseBot.stats] *)
Record Stats : Type := mkStats {
  posts_created : Z;
  replies_made : Z;
  likes_given : Z;
  reposts_made : Z;
  followers_gained : Z;
  engagements_received : Z
}.

(** [InfluenceBot.influence_stats] *)
Record InfluenceStats : Type := mkInfluenceStats {
  npc_interactions : Z;
  political_posts : Z;
  neutral_posts : Z;
  trending_engagements : Z;
  strategic_replies : Z
}.

(** The attributes of an [InfluenceBot] that executing an action reads or
    writes.  The API client, the content generator, the scanner and the
    strategy engine are collaborators; their answers are arguments below. *)
Record InfluenceBot : Type := mkBot {
  username : string;
  rate_limiter : RateLimiter;
  action_count : Z;
  last_action_time : Q;
  stats : Stats;
  influence_stats : InfluenceStats;
  engaged_npcs : gset string;
  followed_accounts : gset string
}.

(** [InfluenceBot.__init__], with [settings.api.rate_limit_requests] and
    [settings.api.rate_limit_window] as arguments. *)
Definition init (username : string) (rate_limit_requests rate_limit_window : Z)
  : outcome InfluenceBot :=
  match Limiter.init rate_limit_requests rate_limit_window with
  | Raise e => Raise e
  | Ok rl =>
      Ok (mkBot username rl 0 0 (mkStats 0 0 0 0 0 0) (mkInfluenceStats 0 0 0 0 0)
                ∅ ∅)
  end.

(** What one call of the platform client does: return something true,
    return something false ([None], [False]), or raise. *)
Inductive api_reply : Type :=
| Truthy
| Falsy
| Raises.

Definition set_rate_limiter (b : InfluenceBot) (rl : RateLimiter) : InfluenceBot :=
  mkBot (username b) rl (action_count b) (last_action_time b) (stats b)
        (influence_stats b) (engaged_npcs b) (followed_accounts b).

(** [self.stats[...] += 1; self.action_count += 1;
     self.last_action_time = time.time()] *)
Definition record_action (b : InfluenceBot) (st : Stats) (now : Q) : InfluenceBot :=
  mkBot (username b) (rate_limiter b) (action_count b + 1) now st
        (influence_stats b) (engaged_npcs b) (followed_accounts b).

Definition set_influence (b : InfluenceBot) (i : InfluenceStats)
    (npcs : gset string) : InfluenceBot :=
  mkBot (username b) (rate_limiter b) (action_count b) (last_action_time b) (stats b)
        i npcs (followed_accounts b).

Definition set_followed (b : InfluenceBot) (f : gset string) : InfluenceBot :=
  mkBot (username b) (rate_limiter b) (action_count b) (last_action_time b) (stats b)
        (influence_stats b) (engaged_npcs b) f.

(** Truthiness of an optional string: [None] and [''] are false. *)
Definition str_truthy (o : option string) : bool :=
  match o with
  | Some s => negb (String.eqb s "")
  | None => false
  end.

(** [BaseBot.post_content]; returns whether the response is true. *)
Definition post_content (content : string) (parent_id : option string)
    (reply : api_reply) (clock : Q) (b : InfluenceBot)
  : outcome bool * InfluenceBot * Q :=
  match acquire clock (rate_limiter b) with            (* async with self.rate_limiter *)
  | (Raise e, rl, clock1) => (Raise e, set_rate_limiter b rl, clock1)
  | (Ok _, rl, clock1) =>
      let b1 := set_rate_limiter b rl in
      match reply with
      | Truthy =>
          let st := stats b1 in
          let st' :=
            if str_truthy parent_id then
              mkStats (posts_created st) (replies_made st + 1) (likes_given st)
                      (reposts_made st) (followers_gained st) (engagements_received st)
            else
              mkStats (posts_created st + 1) (replies_made st) (likes_given st)
                      (reposts_made st) (followers_gained st) (engagements_received st) in
          (Ok true, record_action b1 st' clock1, clock1)
      | Falsy => (Ok false, b1, clock1)
      | Raises => (Ok false, b1, clock1)                (* except Exception: return None *)
      end
  end.

(** [BaseBot.like_post] *)
Definition like_post (post_id : option string) (reply : api_reply) (clock : Q)
    (b : InfluenceBot) : outcome bool * InfluenceBot * Q :=
  match acquire clock (rate_limiter b) with
  | (Raise e, rl, clock1) => (Raise e, set_rate_limiter b rl, clock1)
  | (Ok _, rl, clock1) =>
      let b1 := set_rate_limiter b rl in
      match reply with
      | Truthy =>
          let st := stats b1 in
          (Ok true,
           record_action b1
             (mkStats (posts_created st) (replies_made st) (likes_given st + 1)
                      (reposts_made st) (followers_gained st) (engagements_received st))
             clock1,
           clock1)
      | Falsy => (Ok false, b1, clock1)
      | Raises => (Ok false, b1, clock1)
      end
  end.

(** [BaseBot.repost] *)
Definition repost (post_id : option string) (reply : api_reply) (clock : Q)
    (b : InfluenceBot) : outcome bool * InfluenceBot * Q :=
  match acquire clock (rate_limiter b) with
  | (Raise e, rl, clock1) => (Raise e, set_rate_limiter b rl, clock1)
  | (Ok _, rl, clock1) =>
      let b1 := set_rate_limiter b rl in
      match reply with
      | Truthy =>
          let st := stats b1 in
          (Ok true,
           record_action b1
             (mkStats (posts_created st) (replies_made st) (likes_given st)
                      (reposts_made st + 1) (followers_gained st)
                      (engagements_received st))
             clock1,
           clock1)
      | Falsy => (Ok false, b1, clock1)
      | Raises => (Ok false, b1, clock1)
      end
  end.

(** An ['engage'] action: [target_post] is a post dict with string fields,
    [engagement_type] the optional kind. *)
Record EngagementAction : Type := mkEngagement {
  target_post : option (gmap string string);
  engagement_type : option string
}.

(** [InfluenceBot._execute_engagement_action].  [generated] is what
    [content_generator.generate_reply] returns, [reply] what the platform
    call of the chosen branch does. *)
Definition execute_engagement_action (action : EngagementAction)
    (generated : option string) (reply : api_reply) (clock : Q) (b : InfluenceBot)
  : outcome unit * InfluenceBot * Q :=
  match target_post action with
  | None => (Ok tt, b, clock)
  | Some post =>
      if decide (post = ∅) then (Ok tt, b, clock)       (* if not target_post: return *)
      else
        let post_id := post !! "id" in
        let post_author := Strategy.get (post !! "username") "unknown" in
        let kind := Strategy.get (engagement_type action) "like" in
        let '(r, b1, clock1) :=
          if String.eqb kind "like" then like_post post_id reply clock b
          else if String.eqb kind "repost" then repost post_id reply clock b
          else if String.eqb kind "reply" then
            match generated with
            | Some reply_content =>
                if str_truthy generated then
                  match post_content reply_content post_id reply clock b with
                  | (Ok true, b', clock') =>
                      let i := influence_stats b' in
                      (Ok true,
                       set_influence b'
                         (mkInfluenceStats (npc_interactions i) (political_posts i)
                            (neutral_posts i) (trending_engagements i)
                            (strategic_replies i + 1))
                         (engaged_npcs b'),
                       clock')
                  | other => other
                  end
                else (Ok false, b, clock)
            | None => (Ok false, b, clock)
            end
          else (Ok false, b, clock) in
        match r with
        | Raise e => (Raise e, b1, clock1)
        | Ok _ =>
            (* Track NPC interactions *)
            if negb (String.eqb post_author (username b1))
               && negb (contains "@" post_author)
            then
              let i := influence_stats b1 in
              (Ok tt,
               set_influence b1
                 (mkInfluenceStats (npc_interactions i + 1) (political_posts i)
                    (neutral_posts i) (trending_engagements i) (strategic_replies i))
                 ({[post_author]} ∪ engaged_npcs b1),
               clock1)
            else (Ok tt, b1, clock1)
        end
  end.

(** The [if]/[elif] chain of [_execute_engagement_action] on its own: the
    platform call of an engagement action, before the NPC tracking. *)
Definition engagement_call (post_id : option string) (kind : string)
    (generated : option string) (reply : api_reply) (clock : Q) (b : InfluenceBot)
  : outcome bool * InfluenceBot * Q :=
  if String.eqb kind "like" then like_post post_id reply clock b
  else if String.eqb kind "repost" then repost post_id reply clock b
  else if String.eqb kind "reply" then
    match generated with
    | Some reply_content =>
        if str_truthy generated then
          match post_content reply_content post_id reply clock b with
          | (Ok true, b', clock') =>
              let i := influence_stats b' in
              (Ok true,
               set_influence b'
                 (mkInfluenceStats (npc_interactions i) (political_posts i)
                    (neutral_posts i) (trending_engagements i)
                    (strategic_replies i + 1))
                 (engaged_npcs b'),
               clock')
          | other => other
          end
        else (Ok false, b, clock)
    | None => (Ok false, b, clock)
    end
  else (Ok false, b, clock).

(** [InfluenceBot._execute_follow_action]; the platform call is not guarded
    by [try]. *)
Definition execute_follow_action (target_user : option string) (reply : api_reply)
    (b : InfluenceBot) : outcome unit * InfluenceBot :=
  match target_user with
  | Some user =>
      if str_truthy target_user && negb (bool_decide (user ∈ followed_accounts b))
      then
        match reply with
        | Truthy => (Ok tt, set_followed b ({[user]} ∪ followed_accounts b))
        | Falsy => (Ok tt, b)
        | Raises => (Raise Exception, b)
        end
      else (Ok tt, b)
  | None => (Ok tt, b)
  end.

(** [InfluenceBot._execute_post_action].  [content_type] is the action's
    ['content_type'] if present, [generated] what
    [content_generator.generate_content] returns, [reply] what the platform
    does with the post. *)
Definition execute_post_action (content_type : option string)
    (generated : option string) (reply : api_reply) (clock : Q) (b : InfluenceBot)
  : outcome unit * InfluenceBot * Q :=
  let content_type := Strategy.get content_type "neutral" in
  match generated with
  | Some content =>
      if str_truthy generated then
        match post_content content None reply clock b with
        | (Ok true, b', clock') =>
            let i := influence_stats b' in
            let i' :=
              if String.eqb content_type "political" || String.eqb content_type "campaign"
              then mkInfluenceStats (npc_interactions i) (political_posts i + 1)
                     (neutral_posts i) (trending_engagements i) (strategic_replies i)
              else mkInfluenceStats (npc_interactions i) (political_posts i)
                     (neutral_posts i + 1) (trending_engagements i) (strategic_replies i) in
            (Ok tt, set_influence b' i' (engaged_npcs b'), clock')
        | (Ok false, b', clock') => (Ok tt, b', clock')
        | (Raise e, b', clock') => (Raise e, b', clock')
        end
      else (Ok tt, b, clock)
  | None => (Ok tt, b, clock)
  end.

(** [BaseBot.get_current_phase]: [start_time] is the bot's attribute, [now]
    the clock reading, both in seconds, and [audience_building_days] is
    [settings.bot.audience_building_days]; [timedelta.days] is the whole
    number of days, rounded down. *)
Definition get_current_phase (audience_building_days : Z) (start_time now : Q)
  : string :=
  let runtime_days := Qfloor ((now - start_time) / 86400) in
  if runtime_days <? audience_building_days then "audience_building"
  else "political_influence".

(** Every recorded action is one post, reply, like or repost. *)
Definition counters_agree (b : InfluenceBot) : Prop :=
  action_count b
  = posts_created (stats b) + replies_made (stats b)
    + likes_given (stats b) + reposts_made (stats b).

(** The influence counters never run ahead of what was posted. *)
Definition influence_within_posts (b : InfluenceBot) : Prop :=
  political_posts (influence_stats b) + neutral_posts (influence_stats b)
  + strategic_replies (influence_stats b)
  <= posts_created (stats b) + replies_made (stats b).

(** The tracked NPCs are other accounts whose names carry no [@]. *)
Definition npcs_are_foreign (b : InfluenceBot) : Prop :=
  forall name, name ∈ engaged_npcs b ->
               name <> username b /\ contains "@" name = false.

End Bot.

(** ** mamager.py: class BotManager *)

Module Manager.

(** One entry of [data/accounts.json]; a field is [None] when its key is
    absent. *)
Record Credentials : Type := mkCredentials {
  cred_username : option string;
  cred_password : option string
}.

(** The arguments of one [InfluenceBot(...)] construction. *)
Record BotSpec : Type := mkBotSpec {
  bot_username : string;
  bot_password : string;
  bot_persona_name : string;
  bot_campaign_objective : string;
  bot_id : string
}.

Record BotManager : Type := mkManager {
  campaign_objective : string;
  bots : list BotSpec;
  account_credentials : list Credentials;
  accounts_used : Z                        (* team_stats['accounts_used'] *)
}.

(** [f"{i:03d}"] *)
Definition format_03d (i : nat) : string :=
  let digits := NilZero.string_of_uint (Nat.to_uint i) in
  let pad := (3 - String.length digits)%nat in
  (string_of_list_ascii (repeat "0"%char pad) ++ digits)%string.

(** [f"bot_{i:03d}_{persona}"] *)
Definition make_bot_id (i : nat) (persona : string) : string :=
  ("bot_" ++ format_03d i ++ "_" ++ persona)%string.

(** The body of [for i in range(num_bots)] in [create_bot_fleet]. *)
Fixpoint create_loop (available_personas : list string) (indices : list nat)
    (m : BotManager) : BotManager :=
  match indices with
  | [] => m
  | i :: rest =>
      match nth_error (account_credentials m) i with
      | None => m                                       (* break *)
      | Some credentials =>
          match cred_username credentials, cred_password credentials with
          | Some username, Some password =>
              if String.eqb username "" || String.eqb password "" then
                create_loop available_personas rest m   (* continue *)
              else
                let persona :=
                  nth (i mod length available_personas) available_personas "" in
                let bot :=
                  mkBotSpec username password persona (campaign_objective m)
                            (make_bot_id i persona) in
                create_loop available_personas rest
                  (mkManager (campaign_objective m) (bots m ++ [bot])
                             (account_credentials m) (accounts_used m + 1))
          | _, _ => create_loop available_personas rest m  (* continue *)
          end
      end
  end.

(** [BotManager.create_bot_fleet]; [active_bots] is [settings.bot.active_bots]
    and [available_personas] the keys of [settings.personas['personas']]. *)
Definition create_bot_fleet (active_bots : Z) (available_personas : list string)
    (num_bots : option Z) (m : BotManager) : bool * BotManager :=
  let num_bots := Strategy.get num_bots active_bots in
  if len (account_credentials m) <? num_bots then (false, m)
  else
    match available_personas with
    | [] => (false, m)
    | _ =>
        let m' := create_loop available_personas (seq 0 (Z.to_nat num_bots)) m in
        (0 <? len (bots m'), m')
    end.

(** *** Distribution of coordination tasks *)

(** An opportunity dict: the objective the strategy engine will read, and
    the ['bot_count'] the manager distributes by, [None] when the key is
    absent. *)
Record Opportunity : Type := mkOpportunity {
  opportunity : Strategy.Objective;
  bot_count : option Z
}.

(** The index a slice bound [k] denotes in a list of length [n]: negative
    bounds count from the end, and every bound is clamped into [[0, n]]. *)
Definition slice_bound (k : Z) (n : nat) : nat :=
  Z.to_nat (Z.min (Z.of_nat n) (if k <? 0 then Z.max 0 (Z.of_nat n + k) else k)).

(** [l[:k]] and [l[k:]] *)
Definition slice_to {A : Type} (l : list A) (k : Z) : list A :=
  firstn (slice_bound k (length l)) l.
Definition slice_from {A : Type} (l : list A) (k : Z) : list A :=
  skipn (slice_bound k (length l)) l.

(** [BotManager._distribute_coordination_tasks]: how the call ends, and the
    coordination signals sent up to then, in order, each a bot with the
    opportunity handed to its strategy engine.  [available_bots] is
    [list(self.active_bots.values())].  The loop body first reads
    [opportunity['type']] and [opportunity['bot_count']], each a [KeyError]
    when the key is absent; sending a signal never raises. *)
Fixpoint distribute_coordination_tasks {A : Type} (opportunities : list Opportunity)
    (available_bots : list A) : Py.outcome unit * list (A * Opportunity) :=
  match opportunities with
  | [] => (Py.Ok tt, [])
  | opp :: rest =>
      match Strategy.objective_type (opportunity opp), bot_count opp with
      | Some opportunity_type, Some requested =>
          let count := Z.min requested (len available_bots) in
          if count =? 0 then distribute_coordination_tasks rest available_bots
          else
            let selected_bots := slice_to available_bots count in
            let available_bots' :=
              (slice_from available_bots count ++ slice_to available_bots count)%list in
            let '(result, sent) := distribute_coordination_tasks rest available_bots' in
            (result, (map (fun bot => (bot, opp)) selected_bots ++ sent)%list)
      | _, _ => (Py.Raise Py.KeyError, [])
      end
  end.

(** An opportunity as [_identify_coordination_opportunities] builds them:
    with a ['type'] and a ['bot_count'] that is not negative. *)
Definition well_formed (opp : Opportunity) : Prop :=
  Strategy.objective_type (opportunity opp) <> None /\
  exists k, bot_count opp = Some k /\ 0 <= k.

(** An opportunity lacking one of the two keys the loop reads. *)
Definition lacks_key (opp : Opportunity) : Prop :=
  Strategy.objective_type (opportunity opp) = None \/ bot_count opp = None.

(** *** Supervision of one bot *)

(** [BotManager._run_bot_with_error_handling].  [is_running k] is the flag
    as the loop test reads it with [k] failures behind it, [start_raises k]
    whether [bot.start()] then ends in an exception.  Returns the retry count
    the loop ends with and the clock after its sleeps; the loop body runs at
    most [max_retries] times. *)
Fixpoint retry_loop (fuel : nat) (is_running start_raises : Z -> bool)
    (retry_count : Z) (clock : Q) : Z * Q :=
  match fuel with
  | O => (retry_count, clock)
  | S fuel' =>
      if is_running retry_count && (retry_count <? 3) then
        if start_raises retry_count then
          let retry_count := retry_count + 1 in
          if retry_count <? 3
          then retry_loop fuel' is_running start_raises retry_count
                          (clock + inject_Z (60 * retry_count))%Q
          else retry_loop fuel' is_running start_raises retry_count clock
        else (retry_count, clock)                       (* break *)
      else (retry_count, clock)
  end.

(** The manager state the supervision touches: [active_bots] by bot id and
    [team_stats['accounts_banned']]. *)
Definition run_bot_with_error_handling (is_running start_raises : Z -> bool)
    (bot_id : string) (clock : Q) (active_bots : gset string) (accounts_banned : Z)
  : gset string * Z * Q :=
  let '(retry_count, clock') := retry_loop 3 is_running start_raises 0 clock in
  if retry_count >=? 3
  then (active_bots ∖ {[bot_id]}, accounts_banned + 1, clock')
  else (active_bots, accounts_banned, clock').

(** The credentials at index [i] carry a non-empty username and password. *)
Definition usable (m : BotManager) (i : nat) (u p : string) : Prop :=
  nth_error (account_credentials m) i = Some (mkCredentials (Some u) (Some p)) /\
  u <> "" /\ p <> "".

(** The test [usable] as a function: the credentials at index [i] exist and
    pass the loop's [if not username or not password] check. *)
Definition has_usable_credentials (m : BotManager) (i : nat) : bool :=
  match nth_error (account_credentials m) i with
  | Some (mkCredentials (Some u) (Some p)) =>
      negb (String.eqb u "" || String.eqb p "")
  | _ => false
  end.

(** [bot] is the bot the loop builds from the credentials at index [i]:
    persona [i mod numPersonas], id [bot_{i:03d}_{persona}]. *)
Definition created_from (available_personas : list string) (m : BotManager)
    (i : nat) (bot : BotSpec) : Prop :=
  exists u p,
    usable m i u p /\
    bot = mkBotSpec u p
            (nth (i mod length available_personas) available_personas "")
            (campaign_objective m)
            (make_bot_id i
               (nth (i mod length available_personas) available_personas "")).

End Manager.

(** * Properties *)

(** ** Facts about the prelude *)

Module PyFacts.

Lemma Qlt_bool_iff (x y : Q) : Qlt_bool x y = true <-> (x < y)%Q.
Proof.
  unfold Qlt_bool. rewrite negb_true_iff.
  split.
  - intros H. apply Qnot_le_lt. intros Hle.
    apply Qle_bool_iff in Hle. congruence.
  - intros H. destruct (Qle_bool y x) eqn:E; [|reflexivity].
    apply Qle_bool_iff in E. exfalso. apply (Qlt_not_le _ _ H E).
Qed.

Lemma Qlt_bool_false_iff (x y : Q) : Qlt_bool x y = false <-> (y <= x)%Q.
Proof.
  unfold Qlt_bool. rewrite negb_false_iff. apply Qle_bool_iff.
Qed.

(** Truncating a product [m * f] with [f < 1] lands strictly below [m]. *)
Lemma int_of_float_scale_lt (m : Z) (f : Q) :
  (f < 1)%Q -> 1 <= m -> int_of_float (inject_Z m * f) < m.
Proof.
  intros Hf Hm. unfold int_of_float. destruct f as [p d].
  unfold Qlt in Hf. cbn in Hf |- *. rewrite ?Pos.mul_1_l.
  assert (Hpd : p < Z.pos d) by lia.
  destruct (Z_lt_le_dec (m * p) 0) as [Hneg | Hnn].
  - assert (Z.quot (m * p) (Z.pos d) <= 0); [|lia].
    apply Z.quot_le_upper_bound; lia.
  - rewrite Z.quot_div_nonneg by lia.
    apply Z.div_lt_upper_bound; nia.
Qed.

(** Growing by the factor 1.2 and truncating gains at least one from 5 on. *)
Lemma int_of_float_grow_gt (m : Z) :
  5 <= m -> m < int_of_float (inject_Z m * (12 # 10)).
Proof.
  intros Hm. unfold int_of_float. cbn. rewrite ?Pos.mul_1_l.
  rewrite Z.quot_div_nonneg by lia.
  apply Z.lt_le_trans with (m := (m + 1)); [lia|].
  apply Z.div_le_lower_bound; lia.
Qed.

(** Below 5 the truncation swallows the whole gain. *)
Lemma int_of_float_grow_stuck (m : Z) :
  0 <= m < 5 -> int_of_float (inject_Z m * (12 # 10)) = m.
Proof.
  intros Hm. unfold int_of_float. cbn. rewrite ?Pos.mul_1_l.
  assert (m = 0 \/ m = 1 \/ m = 2 \/ m = 3 \/ m = 4) as H by lia.
  destruct H as [-> | [-> | [-> | [-> | ->]]]]; reflexivity.
Qed.

Lemma int_of_float_grow_ge (m : Z) :
  0 <= m -> m <= int_of_float (inject_Z m * (12 # 10)).
Proof.
  intros Hm. unfold int_of_float. cbn. rewrite ?Pos.mul_1_l.
  rewrite Z.quot_div_nonneg by lia.
  apply Z.div_le_lower_bound; lia.
Qed.

End PyFacts.

(** ** limiter.py: the sliding window *)

Module LimiterFacts.

Import Limiter PyFacts.

Lemma set_requests_same (rl : RateLimiter) :
  set_requests rl (requests rl) = rl.
Proof. destruct rl; reflexivity. Qed.






Lemma init_fresh (k w : Z) (rl0 : RateLimiter) :
  init k w = Ok rl0 ->
  max_requests rl0 = k /\ time_window rl0 = w /\ requests rl0 = [].
Proof. unfold init. intros [= <-]. cbn. auto. Qed.

Lemma init_total (k w : Z) : exists rl0, init k w = Ok rl0.
Proof. unfold init. eauto. Qed.




(** *** Non-positive capacity *)

Lemma set_requests_nil (rl : RateLimiter) :
  requests rl = [] -> set_requests rl [] = rl.
Proof. intros <-. apply set_requests_same. Qed.

Lemma empty_can_make_request (now : Q) (rl : RateLimiter) :
  requests rl = [] ->
  can_make_request now rl = (0 <? max_requests rl, rl).
Proof.
  intros H. unfold can_make_request. rewrite H. cbn [evict].
  rewrite set_requests_nil by exact H. reflexivity.
Qed.

Lemma empty_acquire_raises (clock : Q) (rl : RateLimiter) :
  requests rl = [] -> max_requests rl <= 0 ->
  acquire clock rl = (Raise IndexError, rl, clock).
Proof.
  intros H Hk. unfold acquire. rewrite H. cbn [evict].
  replace (len [] >=? max_requests rl) with true.
  - rewrite set_requests_nil by exact H. reflexivity.
  - symmetry. rewrite Z.geb_leb. apply Z.leb_le. exact Hk.
Qed.

Lemma after_call_empty (rl : RateLimiter) (c : call) :
  requests rl = [] -> max_requests rl <= 0 -> after_call rl c = rl.
Proof.
  intros H Hk. destruct c as [now | now | now | clock]; cbn [after_call].
  - rewrite empty_can_make_request by exact H. reflexivity.
  - unfold is_rate_limited. rewrite empty_can_make_request by exact H. reflexivity.
  - unfold requests_remaining. rewrite H. cbn [evict snd].
    apply set_requests_nil. exact H.
  - rewrite empty_acquire_raises by assumption. reflexivity.
Qed.

Lemma after_calls_empty (cs : list call) (rl : RateLimiter) :
  requests rl = [] -> max_requests rl <= 0 -> after_calls rl cs = rl.
Proof.
  revert rl. induction cs as [|c cs IH]; intros rl H Hk; [reflexivity|].
  unfold after_calls. cbn [fold_left]. rewrite after_call_empty by assumption.
  apply IH; assumption.
Qed.

(** C9, as the code has it.  The constructor validates nothing: every
    [time_window], positive or not, yields a limiter.  A limiter constructed
    with [max_requests <= 0] rejects every admission attempt, whatever calls
    came before: [can_make_request] is false at every clock reading, and
    [acquire] raises on the empty queue without recording a stamp. *)
Theorem C9_nonpositive_capacity (k w : Z) :
  exists rl0,
    init k w = Ok rl0 /\ time_window rl0 = w /\
    (k <= 0 ->
     forall (cs : list call),
       let rl := after_calls rl0 cs in
       requests rl = [] /\
       (forall now, fst (can_make_request now rl) = false) /\
       (forall clock, acquire clock rl = (Raise IndexError, rl, clock))).
Proof.
  destruct (init_total k w) as [rl0 Hinit]. exists rl0.
  destruct (init_fresh _ _ _ Hinit) as (Hmax & Hwin & Hreq).
  split; [exact Hinit|]. split; [exact Hwin|].
  intros Hk cs rl. subst rl.
  rewrite after_calls_empty by (try assumption; lia).
  split; [exact Hreq|]. split.
  - intros now. rewrite empty_can_make_request by exact Hreq.
    cbn [fst]. apply Z.ltb_ge. lia.
  - intros clock. apply empty_acquire_raises; [exact Hreq | lia].
Qed.

Lemma C9_nonpositive_capacity_witness :
  exists rl0,
    init 0 60 = Ok rl0 /\
    fst (can_make_request 5 (after_calls rl0 [CallAcquire 1; CallCanMakeRequest 2])) = false /\
    fst (fst (acquire 5 (after_calls rl0 [CallAcquire 1; CallCanMakeRequest 2])))
      = Raise IndexError.
Proof.
  destruct (C9_nonpositive_capacity 0 60) as (rl0 & Hinit & _ & H).
  exists rl0. split; [exact Hinit|].
  destruct (H ltac:(lia) [CallAcquire 1; CallCanMakeRequest 2]) as (_ & Hcan & Hacq).
  split; [apply Hcan|]. rewrite Hacq. reflexivity.
Defined.

(** C9 as stated fails at construction: a window of 0 seconds (or a negative
    one) is accepted, and the limiter so built admits requests. *)
Lemma C9_counterexample :
  exists rl0 rl1,
    init 5 0 = Ok rl0 /\ time_window rl0 = 0 /\
    init 5 (-30) = Ok rl1 /\ time_window rl1 = -30 /\
    fst (can_make_request 0 rl0) = true /\
    fst (fst (acquire 0 rl0)) = Ok tt.
Proof.
  eexists. eexists. repeat split; vm_compute; reflexivity.
Qed.

(** *** BotActionLimiter *)

Lemma bot_limiter_init_eq (b0 : BotActionLimiter) :
  bot_limiter_init = Ok b0 ->
  limiters b0 =
    <["post" := Plain (mkRateLimiter 2 60 [] 1 10)]>
    (<["like" := Plain (mkRateLimiter 5 60 [] 1 10)]>
    (<["repost" := Plain (mkRateLimiter 2 60 [] 1 10)]>
    (<["follow" := Plain (mkRateLimiter 2 120 [] 1 20)]>
    (<["search" := Plain (mkRateLimiter 10 60 [] 3 10)]> ∅)))) /\
  overall_limiter b0 =
    mkAdaptive (mkRateLimiter 8 60 [] 2 10) 8 (8 # 10) 0 0 10 3 0.
Proof.
  unfold bot_limiter_init, plain_or_raise, adaptive_init, init.
  intros [= <-]. cbn [limiters overall_limiter]. split; reflexivity.
Qed.

Lemma bot_limiter_init_unknown (b0 : BotActionLimiter) (t : string) :
  bot_limiter_init = Ok b0 ->
  t ∉ ["post"; "like"; "repost"; "follow"; "search"] ->
  limiters b0 !! t = None.
Proof.
  intros Hinit Ht. destruct (bot_limiter_init_eq _ Hinit) as [-> _].
  rewrite !not_elem_of_cons in Ht. destruct Ht as (? & ? & ? & ? & ? & _).
  rewrite !lookup_insert_ne by congruence. apply lookup_empty.
Qed.

Lemma bot_limiter_init_plain (b0 : BotActionLimiter) (t : string) (l : limiter_obj) :
  bot_limiter_init = Ok b0 ->
  limiters b0 !! t = Some l -> exists rl, l = Plain rl.
Proof.
  intros Hinit. destruct (bot_limiter_init_eq _ Hinit) as [-> _].
  intros H.
  repeat (rewrite lookup_insert in H; case_decide;
          [injection H as <-; eexists; reflexivity|]).
  rewrite lookup_empty in H. discriminate.
Qed.

(** C10.  An action type outside the five configured ones has no per-type
    limiter; for such a type [can_perform_action] answers exactly what the
    overall limiter's [can_make_request] answers, and [acquire] is exactly the
    overall limiter's [acquire]: nothing is rejected and no per-type limiter
    is consulted or changed. *)
Theorem C10_unknown_action_type (b0 : BotActionLimiter) (t : string) :
  bot_limiter_init = Ok b0 ->
  t ∉ ["post"; "like"; "repost"; "follow"; "search"] ->
  limiters b0 !! t = None /\
  forall (b : BotActionLimiter) (now clock : Q),
    limiters b !! t = None ->
    can_perform_action now t b =
      (fst (can_make_request now (base (overall_limiter b))),
       set_overall_base b (snd (can_make_request now (base (overall_limiter b))))) /\
    bot_acquire clock t b =
      (fst (fst (acquire clock (base (overall_limiter b)))),
       set_overall_base b (snd (fst (acquire clock (base (overall_limiter b))))),
       snd (acquire clock (base (overall_limiter b)))) /\
    limiters (snd (can_perform_action now t b)) = limiters b /\
    limiters (snd (fst (bot_acquire clock t b))) = limiters b.
Proof.
  intros Hinit Ht. split; [exact (bot_limiter_init_unknown _ _ Hinit Ht)|].
  intros b now clock Hnone.
  assert (Hcan : can_perform_action now t b =
      (fst (can_make_request now (base (overall_limiter b))),
       set_overall_base b (snd (can_make_request now (base (overall_limiter b)))))).
  { unfold can_perform_action.
    destruct (can_make_request now (base (overall_limiter b))) as [ok rl].
    cbn [fst snd set_overall_base limiters]. rewrite Hnone.
    destruct ok; reflexivity. }
  assert (Hacq : bot_acquire clock t b =
      (fst (fst (acquire clock (base (overall_limiter b)))),
       set_overall_base b (snd (fst (acquire clock (base (overall_limiter b))))),
       snd (acquire clock (base (overall_limiter b))))).
  { unfold bot_acquire.
    destruct (acquire clock (base (overall_limiter b))) as [[r rl] c].
    cbn [fst snd set_overall_base limiters]. rewrite Hnone.
    destruct r as [[]|e]; reflexivity. }
  split; [exact Hcan|]. split; [exact Hacq|].
  rewrite Hcan, Hacq. split; reflexivity.
Qed.

Lemma C10_unknown_action_type_witness :
  exists b0,
    bot_limiter_init = Ok b0 /\
    fst (can_perform_action 0 "reply" b0) = true /\
    fst (fst (bot_acquire 0 "reply" b0)) = Ok tt.
Proof.
  destruct bot_limiter_init as [b0|e] eqn:Hinit; [|discriminate Hinit].
  exists b0. split; [reflexivity|].
  assert (Ht : "reply" ∉ ["post"; "like"; "repost"; "follow"; "search"]).
  { rewrite !not_elem_of_cons. repeat split; try discriminate. apply not_elem_of_nil. }
  destruct (C10_unknown_action_type b0 "reply" Hinit Ht) as [Hnone H].
  destruct (H b0 0%Q 0%Q Hnone) as (Hcan & Hacq & _).
  rewrite Hcan, Hacq.
  destruct (bot_limiter_init_eq _ Hinit) as [_ ->].
  split; reflexivity.
Defined.

Lemma handle_response_plain (clock : Q) (t : string) (code : Z)
    (hdrs : option (gmap string header_value)) (b : BotActionLimiter) :
  all_plain b ->
  handle_response clock t code hdrs b =
    (mkBotActionLimiter (limiters b)
       (fst (handle_rate_limit_response clock code hdrs (overall_limiter b))),
     snd (handle_rate_limit_response clock code hdrs (overall_limiter b))).
Proof.
  intros Hplain. unfold handle_response.
  destruct (handle_rate_limit_response clock code hdrs (overall_limiter b)) as [ov c1].
  cbn [limiters fst snd].
  destruct (limiters b !! t) as [l|] eqn:Hl; [|reflexivity].
  destruct (Hplain _ _ Hl) as [rl ->]. reflexivity.
Qed.

Lemma handle_response_run_plain (rs : list (Z * option (gmap string header_value)))
    (clock : Q) (t : string) (b : BotActionLimiter) :
  all_plain b ->
  handle_response_run clock t rs b =
    (mkBotActionLimiter (limiters b)
       (fst (handle_responses clock rs (overall_limiter b))),
     snd (handle_responses clock rs (overall_limiter b))).
Proof.
  revert clock b. induction rs as [|[code hdrs] rs IH]; intros clock b Hplain.
  - destruct b; reflexivity.
  - cbn [handle_response_run handle_responses].
    rewrite handle_response_plain by exact Hplain.
    destruct (handle_rate_limit_response clock code hdrs (overall_limiter b)) as [ov c1].
    cbn [fst snd]. rewrite IH; [reflexivity|].
    intros t' l Hl. exact (Hplain t' l Hl).
Qed.

(** C4, as the code has it.  [handle_response] always hands the response to
    the overall adaptive limiter.  It hands it to the per-type limiter only
    if that object is an [AdaptiveRateLimiter]; the five limiters the
    constructor installs are plain [RateLimiter]s, so on a constructed
    [BotActionLimiter] no run of responses, for any action type, changes any
    per-type limiter. *)
Theorem C4_response_forwarding (b : BotActionLimiter) (t : string) (clock : Q)
    (code : Z) (hdrs : option (gmap string header_value)) :
  let ov := handle_rate_limit_response clock code hdrs (overall_limiter b) in
  overall_limiter (fst (handle_response clock t code hdrs b)) = fst ov /\
  match limiters b !! t with
  | Some (Adaptive a) =>
      limiters (fst (handle_response clock t code hdrs b)) =
        <[t := Adaptive (fst (handle_rate_limit_response (snd ov) code hdrs a))]>
          (limiters b)
  | _ => limiters (fst (handle_response clock t code hdrs b)) = limiters b
  end /\
  (forall b0 rs,
     bot_limiter_init = Ok b0 ->
     limiters (fst (handle_response_run clock t rs b0)) = limiters b0 /\
     (overall_limiter (fst (handle_response_run clock t rs b0)),
      snd (handle_response_run clock t rs b0))
       = handle_responses clock rs (overall_limiter b0)).
Proof.
  cbn zeta. unfold handle_response.
  destruct (handle_rate_limit_response clock code hdrs (overall_limiter b)) as [ov c1].
  cbn [limiters fst snd]. split; [|split].
  - destruct (limiters b !! t) as [[rl|a]|]; try reflexivity.
    destruct (handle_rate_limit_response c1 code hdrs a); reflexivity.
  - destruct (limiters b !! t) as [[rl|a]|]; try reflexivity.
    destruct (handle_rate_limit_response c1 code hdrs a); reflexivity.
  - intros b0 rs Hinit.
    rewrite handle_response_run_plain.
    + cbn [limiters overall_limiter fst snd]. split; [reflexivity|].
      destruct (handle_responses clock rs (overall_limiter b0)); reflexivity.
    + intros t' l. apply bot_limiter_init_plain. exact Hinit.
Qed.

Lemma C4_response_forwarding_witness :
  exists b0,
    bot_limiter_init = Ok b0 /\
    limiters (fst (handle_response_run 0 "like" [(429, None); (200, None)] b0))
      = limiters b0.
Proof.
  destruct bot_limiter_init as [b0|e] eqn:Hinit; [|discriminate Hinit].
  exists b0. split; [reflexivity|].
  destruct (C4_response_forwarding b0 "like" 0 429 None) as (_ & _ & H).
  destruct (H b0 [(429, None); (200, None)] Hinit) as [Hlim _].
  exact Hlim.
Defined.

(** C4 as stated fails for the configured action types: after two 429
    responses reported for ["post"], the overall limiter has shrunk from 8 to
    6, but the ["post"] limiter is still the plain limiter of capacity 2 it
    was constructed as; an adaptive limiter of that capacity would be at 1. *)
Lemma C4_counterexample :
  exists b0 b' a2,
    bot_limiter_init = Ok b0 /\
    fst (handle_response_run 0 "post" [(429, None); (429, None)] b0) = b' /\
    capacity (overall_limiter b0) = 8 /\
    capacity (overall_limiter b') = 6 /\
    limiters b0 !! "post" = Some (Plain (mkRateLimiter 2 60 [] 1 10)) /\
    limiters b' !! "post" = Some (Plain (mkRateLimiter 2 60 [] 1 10)) /\
    adaptive_init 2 60 default_factor = Ok a2 /\
    capacity (fst (handle_responses 0 [(429, None); (429, None)] a2)) = 1.
Proof.
  destruct bot_limiter_init as [b0|e] eqn:Hinit; [|discriminate Hinit].
  destruct (bot_limiter_init_eq _ Hinit) as [Hlim Hov].
  assert (Hplain : all_plain b0).
  { intros t l. apply bot_limiter_init_plain. exact Hinit. }
  eexists b0, _, _. split; [reflexivity|].
  split; [reflexivity|].
  rewrite handle_response_run_plain by exact Hplain.
  cbn [limiters overall_limiter fst]. rewrite Hov, Hlim.
  split; [reflexivity|]. split; [vm_compute; reflexivity|].
  split; [apply lookup_insert_eq|]. split; [apply lookup_insert_eq|].
  split; [reflexivity|]. vm_compute. reflexivity.
Qed.

(** *** AdaptiveRateLimiter *)

Ltac split_ifs :=
  repeat match goal with
         | |- context [if ?c then _ else _] => destruct c eqn:?
         end.

Ltac bool_to_prop :=
  repeat match goal with
         | H : (_ && _) = true |- _ => apply andb_true_iff in H; destruct H
         | H : (_ >=? _) = _ |- _ => rewrite Z.geb_leb in H
         | H : (_ <=? _) = true |- _ => apply Z.leb_le in H
         | H : (_ <=? _) = false |- _ => apply Z.leb_gt in H
         | H : (_ <? _) = true |- _ => apply Z.ltb_lt in H
         | H : (_ <? _) = false |- _ => apply Z.ltb_ge in H
         | H : (_ =? _) = true |- _ => apply Z.eqb_eq in H
         | H : (_ =? _) = false |- _ => apply Z.eqb_neq in H
         end.

Lemma parse_headers_effect (clock : Q) (h : gmap string header_value)
    (a : AdaptiveRateLimiter) :
  let a' := fst (parse_rate_limit_headers clock h a) in
  capacity a' <= capacity a /\ same_settings a a' /\
  consecutive_successes a' = consecutive_successes a /\
  consecutive_rate_limits a' = consecutive_rate_limits a /\
  recovery_attempts a' = recovery_attempts a.
Proof.
  cbn zeta. unfold parse_rate_limit_headers, same_settings.
  set (a1 := match first_int limit_headers h with
             | Some l => if truthy (first_int limit_headers h) && (l <? capacity a)
                         then set_base a (set_max_requests (base a) l) else a
             | None => a
             end).
  assert (H1 : capacity a1 <= capacity a /\
               (original_max_requests a1 = original_max_requests a /\
                adaptation_factor a1 = adaptation_factor a /\
                recovery_threshold a1 = recovery_threshold a /\
                max_recovery_attempts a1 = max_recovery_attempts a) /\
               consecutive_successes a1 = consecutive_successes a /\
               consecutive_rate_limits a1 = consecutive_rate_limits a /\
               recovery_attempts a1 = recovery_attempts a).
  { subst a1. destruct (first_int limit_headers h) as [l|]; [|repeat split; lia].
    destruct (truthy (Some l) && (l <? capacity a)) eqn:E.
    - bool_to_prop. unfold capacity in *. cbn. repeat split; lia.
    - repeat split; lia. }
  destruct (first_int remaining_headers h) as [[| |]|];
    destruct (first_int reset_headers h) as [r|]; cbn [fst]; try exact H1.
  split_ifs; exact H1.
Qed.

(** One 429 response: the capacity never grows; the failure counter goes up
    by one. *)
Lemma failure_step (clock : Q) (hdrs : option (gmap string header_value))
    (a : AdaptiveRateLimiter) :
  let a' := fst (handle_rate_limit_response clock 429 hdrs a) in
  capacity a' <= capacity a /\ same_settings a a' /\
  consecutive_rate_limits a' = consecutive_rate_limits a + 1 /\
  (hdrs = None -> 1 <= capacity a -> 1 <= capacity a') /\
  ((adaptation_factor a < 1)%Q -> 2 <= capacity a ->
   2 <= consecutive_rate_limits a + 1 -> capacity a' < capacity a).
Proof.
  cbn zeta. unfold handle_rate_limit_response.
  replace (429 =? 429) with true by reflexivity.
  set (a1 := set_counters a 0 (consecutive_rate_limits a + 1) (recovery_attempts a)).
  set (new_max := Z.max 1 (int_of_float (inject_Z (capacity a1) * adaptation_factor a1))).
  set (a2 := if consecutive_rate_limits a1 >=? 2
             then if new_max <? capacity a1
                  then set_base a1 (set_max_requests (base a1) new_max) else a1
             else a1).
  assert (Hcap1 : capacity a1 = capacity a) by reflexivity.
  assert (H2 : capacity a2 <= capacity a /\ same_settings a a2 /\
               consecutive_rate_limits a2 = consecutive_rate_limits a + 1 /\
               consecutive_successes a2 = 0 /\
               recovery_attempts a2 = recovery_attempts a /\
               (1 <= capacity a -> 1 <= capacity a2) /\
               ((adaptation_factor a < 1)%Q -> 2 <= capacity a ->
                2 <= consecutive_rate_limits a + 1 -> capacity a2 < capacity a)).
  { subst a2. unfold same_settings.
    destruct (consecutive_rate_limits a1 >=? 2) eqn:E2.
    - destruct (new_max <? capacity a1) eqn:E3; bool_to_prop.
      + unfold capacity in *. cbn in *. repeat split; try lia.
      + repeat split; try (cbn; lia).
        intros Hf Hc _. exfalso.
        pose proof (int_of_float_scale_lt (capacity a) (adaptation_factor a) Hf) as Hlt.
        subst new_max. rewrite Hcap1 in E3. cbn [adaptation_factor a1 set_counters] in E3.
        lia.
    - bool_to_prop. cbn in E2. repeat split; try (cbn; lia). }
  destruct H2 as (Hle & Hsame & Hcrl & _ & _ & Hfloor & Hstrict).
  destruct (headers_truthy hdrs) as [h|] eqn:Eh.
  - pose proof (parse_headers_effect clock h a2) as Hp. cbn zeta in Hp.
    destruct Hp as (Hple & Hpsame & _ & Hpcrl & _).
    unfold same_settings in *.
    destruct Hpsame as (P1 & P2 & P3 & P4). destruct Hsame as (S1 & S2 & S3 & S4).
    repeat split; try lia; try congruence.
    + intros ->. discriminate Eh.
    + intros Hf Hc Hn. specialize (Hstrict Hf Hc Hn). lia.
  - cbn [fst]. repeat split; try assumption; try apply Hsame.
    intros _. exact Hfloor.
Qed.

(** One 2xx response: either the recovery step fires, or only the success
    counter moves. *)
Lemma success_step (clock : Q) (code : Z) (hdrs : option (gmap string header_value))
    (a : AdaptiveRateLimiter) :
  200 <= code < 300 ->
  let r := handle_rate_limit_response clock code hdrs a in
  snd r = clock /\ same_settings a (fst r) /\
  ((recovery_threshold a <= consecutive_successes a + 1 /\
    capacity a < original_max_requests a /\
    recovery_attempts a < max_recovery_attempts a /\
    capacity (fst r) =
      Z.min (original_max_requests a)
            (int_of_float (inject_Z (capacity a) * (12 # 10))) /\
    consecutive_successes (fst r) = 0 /\
    recovery_attempts (fst r) = recovery_attempts a + 1)
   \/
   (~ (recovery_threshold a <= consecutive_successes a + 1 /\
       capacity a < original_max_requests a /\
       recovery_attempts a < max_recovery_attempts a) /\
    capacity (fst r) = capacity a /\
    consecutive_successes (fst r) = consecutive_successes a + 1 /\
    recovery_attempts (fst r) = recovery_attempts a)).
Proof.
  intros Hcode. cbn zeta. unfold handle_rate_limit_response, same_settings.
  replace (code =? 429) with false by (symmetry; apply Z.eqb_neq; lia).
  replace ((200 <=? code) && (code <? 300)) with true.
  2:{ symmetry. apply andb_true_iff. split; [apply Z.leb_le | apply Z.ltb_lt]; lia. }
  set (a1 := set_counters a (consecutive_successes a + 1) 0 (recovery_attempts a)).
  destruct ((consecutive_successes a1 >=? recovery_threshold a1)
            && (capacity a1 <? original_max_requests a1)
            && (recovery_attempts a1 <? max_recovery_attempts a1)) eqn:E.
  - bool_to_prop. cbn in *. unfold capacity in *. cbn.
    split; [reflexivity|]. split; [auto|]. left. subst a1. cbn in *.
    repeat split; try lia.
  - cbn [fst snd]. split; [reflexivity|]. split; [cbn; auto|]. right.
    split; [|cbn; auto].
    intros (H1 & H2 & H3).
    apply not_true_iff_false in E. apply E.
    rewrite !andb_true_iff. rewrite Z.geb_leb.
    repeat split; [apply Z.leb_le | apply Z.ltb_lt | apply Z.ltb_lt]; cbn; auto.
Qed.

(** Any response keeps the capacity at or below the original. *)
Lemma step_capacity_bound (clock : Q) (code : Z)
    (hdrs : option (gmap string header_value)) (a : AdaptiveRateLimiter) :
  capacity a <= original_max_requests a ->
  let a' := fst (handle_rate_limit_response clock code hdrs a) in
  capacity a' <= original_max_requests a' /\
  original_max_requests a' = original_max_requests a.
Proof.
  intros Hle. cbn zeta.
  destruct (Z.eq_dec code 429) as [-> | Hne].
  - pose proof (failure_step clock hdrs a) as H. cbn zeta in H.
    destruct H as (Hcap & (Ho & _) & _). lia.
  - destruct (Z_le_dec 200 code) as [Hlo|Hlo];
      [destruct (Z_lt_dec code 300) as [Hhi|Hhi]|].
    + pose proof (success_step clock code hdrs a (conj Hlo Hhi)) as H.
      cbn zeta in H. destruct H as (_ & (Ho & _) & [H | H]).
      * destruct H as (_ & _ & _ & Hc & _). lia.
      * destruct H as (_ & Hc & _). lia.
    + unfold handle_rate_limit_response.
      replace (code =? 429) with false by (symmetry; apply Z.eqb_neq; lia).
      replace (code <? 300) with false by (symmetry; apply Z.ltb_ge; lia).
      rewrite andb_false_r. cbn [fst]. lia.
    + unfold handle_rate_limit_response.
      replace (code =? 429) with false by (symmetry; apply Z.eqb_neq; lia).
      replace (200 <=? code) with false by (symmetry; apply Z.leb_gt; lia).
      cbn [andb fst]. lia.
Qed.

Lemma run_capacity_bound (rs : list (Z * option (gmap string header_value)))
    (clock : Q) (a : AdaptiveRateLimiter) :
  capacity a <= original_max_requests a ->
  let a' := fst (handle_responses clock rs a) in
  capacity a' <= original_max_requests a' /\
  original_max_requests a' = original_max_requests a.
Proof.
  revert clock a. induction rs as [|[code hdrs] rs IH]; intros clock a Hle; cbn zeta.
  - cbn. lia.
  - cbn [handle_responses].
    pose proof (step_capacity_bound clock code hdrs a Hle) as H. cbn zeta in H.
    destruct (handle_rate_limit_response clock code hdrs a) as [a1 c1].
    cbn [fst] in H. destruct H as [H1 H2].
    specialize (IH c1 a1 H1). cbn zeta in IH. destruct IH as [IH1 IH2].
    split; [exact IH1 | congruence].
Qed.

(** Once above [m0], a run of successes keeps the capacity above [m0]. *)
Lemma recovered_stays (rs : list (Z * option (gmap string header_value)))
    (clock : Q) (a : AdaptiveRateLimiter) (m0 : Z) :
  Forall is_success rs -> 0 <= m0 ->
  m0 < capacity a <= original_max_requests a ->
  let a' := fst (handle_responses clock rs a) in
  m0 < capacity a' <= original_max_requests a /\ same_settings a a'.
Proof.
  revert clock a. induction rs as [|[code hdrs] rs IH]; intros clock a Hrs Hm Hcap; cbn zeta.
  - cbn. unfold same_settings. auto.
  - apply Forall_cons_1 in Hrs. destruct Hrs as [Hr Hrs]. unfold is_success in Hr.
    cbn [fst] in Hr. cbn [handle_responses].
    pose proof (success_step clock code hdrs a Hr) as H. cbn zeta in H.
    destruct (handle_rate_limit_response clock code hdrs a) as [a1 c1].
    cbn [fst snd] in H. destruct H as (_ & Hsame & Hcase).
    assert (H1 : m0 < capacity a1 <= original_max_requests a1).
    { destruct Hsame as (Ho & _). rewrite Ho.
      destruct Hcase as [(_ & Hlt & _ & Hc & _) | (_ & Hc & _)]; [|lia].
      pose proof (int_of_float_grow_ge (capacity a) ltac:(lia)). lia. }
    specialize (IH c1 a1 Hrs Hm H1). cbn zeta in IH.
    destruct IH as (IH1 & IH2). unfold same_settings in *.
    destruct Hsame as (S1 & S2 & S3 & S4). destruct IH2 as (T1 & T2 & T3 & T4).
    repeat split; try lia; congruence.
Qed.

(** Enough consecutive successes fire the recovery step, which from a
    capacity of at least 5 is a strict gain. *)
Lemma recovery_run (rs : list (Z * option (gmap string header_value)))
    (clock : Q) (a : AdaptiveRateLimiter) :
  Forall is_success rs -> rs <> [] ->
  recovery_threshold a <= consecutive_successes a + Z.of_nat (length rs) ->
  5 <= capacity a ->
  capacity a < original_max_requests a ->
  recovery_attempts a < max_recovery_attempts a ->
  let a' := fst (handle_responses clock rs a) in
  capacity a < capacity a' <= original_max_requests a.
Proof.
  revert clock a. induction rs as [|[code hdrs] rs IH];
    intros clock a Hrs Hne Hlen H5 Hlt Hatt; cbn zeta; [congruence|].
  apply Forall_cons_1 in Hrs. destruct Hrs as [Hr Hrs]. unfold is_success in Hr.
  cbn [fst] in Hr. cbn [handle_responses].
  pose proof (success_step clock code hdrs a Hr) as H. cbn zeta in H.
  destruct (handle_rate_limit_response clock code hdrs a) as [a1 c1].
  cbn [fst snd] in H. destruct H as (_ & Hsame & Hcase).
  destruct Hsame as (S1 & S2 & S3 & S4).
  destruct Hcase as [(_ & _ & _ & Hc & _) | (Hno & Hc & Hcs & Hra)].
  - pose proof (int_of_float_grow_gt (capacity a) H5) as Hg.
    assert (H1 : capacity a < capacity a1 <= original_max_requests a1) by lia.
    pose proof (recovered_stays rs c1 a1 (capacity a) Hrs ltac:(lia) H1) as Hs.
    cbn zeta in Hs. destruct Hs as (Hs & _). lia.
  - assert (Hthr : consecutive_successes a + 1 < recovery_threshold a) by lia.
    cbn [length] in Hlen.
    assert (Hrest : rs <> []).
    { intros ->. cbn [length] in Hlen. lia. }
    specialize (IH c1 a1 Hrs Hrest). cbn zeta in IH.
    rewrite S1, S3, S4, Hc, Hcs, Hra in IH. apply IH; lia.
Qed.

Lemma adaptive_init_fresh (m w : Z) (f : Q) (a0 : AdaptiveRateLimiter) :
  adaptive_init m w f = Ok a0 ->
  capacity a0 = m /\ original_max_requests a0 = m /\
  adaptation_factor a0 = qmax (1 # 10) (qmin 1 f).
Proof. unfold adaptive_init, init. intros [= <-]. cbn. auto. Qed.

(** C1, as the code has it.
    - With an adaptation factor below 1, two consecutive 429 responses
      strictly decrease the capacity whenever it is at least 2, and the shrink
      step itself never takes a capacity of at least 1 below 1.
    - [recovery_threshold] consecutive 2xx responses strictly increase a
      capacity of at least 5 that is below the original, provided a recovery
      attempt is left; the result stays at or below the original.
    - On a constructed limiter the capacity never exceeds the original,
      whatever responses arrive. *)
Theorem C1_adaptive_capacity :
  (forall (a : AdaptiveRateLimiter) (clock : Q)
          (h1 h2 : option (gmap string header_value)),
      (adaptation_factor a < 1)%Q ->
      2 <= capacity a ->
      0 <= consecutive_rate_limits a ->
      capacity (fst (handle_responses clock [(429, h1); (429, h2)] a)) < capacity a) /\
  (forall (a : AdaptiveRateLimiter) (clock : Q),
      1 <= capacity a ->
      1 <= capacity (fst (handle_rate_limit_response clock 429 None a))) /\
  (forall (a : AdaptiveRateLimiter) (clock : Q)
          (rs : list (Z * option (gmap string header_value))),
      Forall is_success rs ->
      length rs = Z.to_nat (recovery_threshold a) ->
      1 <= recovery_threshold a ->
      0 <= consecutive_successes a ->
      5 <= capacity a ->
      capacity a < original_max_requests a ->
      recovery_attempts a < max_recovery_attempts a ->
      capacity a < capacity (fst (handle_responses clock rs a))
        <= original_max_requests a) /\
  (forall (m w : Z) (f : Q) (a0 : AdaptiveRateLimiter)
          (rs : list (Z * option (gmap string header_value))) (clock : Q),
      adaptive_init m w f = Ok a0 ->
      capacity (fst (handle_responses clock rs a0)) <= m).
Proof.
  split; [|split; [|split]].
  - intros a clock h1 h2 Hf Hcap Hcrl. cbn [handle_responses].
    pose proof (failure_step clock h1 a) as H1. cbn zeta in H1.
    destruct (handle_rate_limit_response clock 429 h1 a) as [a1 c1].
    cbn [fst] in H1. destruct H1 as (Hle1 & (_ & Hf1 & _) & Hcrl1 & _ & _).
    pose proof (failure_step c1 h2 a1) as H2. cbn zeta in H2.
    destruct (handle_rate_limit_response c1 429 h2 a1) as [a2 c2].
    cbn [fst] in H2 |- *. destruct H2 as (Hle2 & _ & _ & _ & Hstrict).
    destruct (Z_lt_le_dec (capacity a1) (capacity a)) as [Hdone | Hsame]; [lia|].
    assert (capacity a2 < capacity a1); [|lia].
    apply Hstrict; [rewrite Hf1; exact Hf | lia | lia].
  - intros a clock Hcap.
    pose proof (failure_step clock None a) as H. cbn zeta in H.
    destruct H as (_ & _ & _ & Hfloor & _). apply Hfloor; [reflexivity | exact Hcap].
  - intros a clock rs Hrs Hlen HT Hcs H5 Hlt Hatt.
    apply recovery_run; try assumption.
    + intros ->. cbn [length] in Hlen. lia.
    + rewrite Hlen. lia.
  - intros m w f a0 rs clock Hinit.
    destruct (adaptive_init_fresh _ _ _ _ Hinit) as (Hc & Ho & _).
    pose proof (run_capacity_bound rs clock a0 ltac:(lia)) as H. cbn zeta in H.
    destruct H as [H1 H2]. lia.
Qed.

Lemma C1_adaptive_capacity_witness :
  capacity (fst (handle_responses 0 [(429, None); (429, None)]
                   (mkAdaptive (mkRateLimiter 8 60 [] 2 10) 8 (8 # 10) 0 0 10 3 0))) < 8 /\
  1 <= capacity (fst (handle_rate_limit_response 0 429 None
                   (mkAdaptive (mkRateLimiter 8 60 [] 2 10) 8 (8 # 10) 0 0 10 3 0))) /\
  6 < capacity (fst (handle_responses 0 (repeat (200, None) 10)
                   (mkAdaptive (mkRateLimiter 6 60 [] 2 10) 8 (8 # 10) 0 0 10 3 0))) <= 8 /\
  capacity (fst (handle_responses 0 [(429, None); (200, None)]
                   (mkAdaptive (mkRateLimiter 8 60 [] 2 10) 8 (8 # 10) 0 0 10 3 0))) <= 8.
Proof.
  destruct C1_adaptive_capacity as (Hshrink & Hfloor & Hgrow & Hbound).
  split; [|split; [|split]].
  - apply (Hshrink (mkAdaptive (mkRateLimiter 8 60 [] 2 10) 8 (8 # 10) 0 0 10 3 0)
             0%Q None None); [reflexivity | cbn; lia | cbn; lia].
  - apply (Hfloor (mkAdaptive (mkRateLimiter 8 60 [] 2 10) 8 (8 # 10) 0 0 10 3 0) 0%Q).
    cbn. lia.
  - apply (Hgrow (mkAdaptive (mkRateLimiter 6 60 [] 2 10) 8 (8 # 10) 0 0 10 3 0)
             0%Q (repeat (200, None) 10)); try (cbn; lia); try reflexivity.
    repeat constructor; unfold is_success; cbn; lia.
  - apply (Hbound 8 60 (8 # 10)%Q
             (mkAdaptive (mkRateLimiter 8 60 [] 2 10) 8 (8 # 10) 0 0 10 3 0)).
    reflexivity.
Defined.

(** C1 as stated fails twice over.  With the adaptation factor 1.0, which the
    constructor accepts, two consecutive 429 responses leave a capacity of 8
    at 8.  And a limiter built with the defaults that has dropped from 8 to 4
    stays at 4 after ten consecutive successes although 4 is below the
    original 8 and recovery attempts remain: [int(4 * 1.2)] is 4. *)
Lemma C1_counterexample :
  exists a1 a8 a4 a4',
    adaptive_init 8 60 1 = Ok a1 /\
    capacity (fst (handle_responses 0 [(429, None); (429, None)] a1)) = 8 /\
    adaptive_init 8 60 default_factor = Ok a8 /\
    fst (handle_responses 0 [(429, None); (429, None); (429, None)] a8) = a4 /\
    capacity a4 = 4 /\ original_max_requests a4 = 8 /\
    consecutive_successes a4 = 0 /\
    recovery_attempts a4 = 0 /\ max_recovery_attempts a4 = 3 /\
    recovery_threshold a4 = 10 /\
    fst (handle_responses 0 (repeat (200, None) 10) a4) = a4' /\
    capacity a4' = 4 /\ recovery_attempts a4' = 1.
Proof.
  eexists _, _, _, _.
  split; [reflexivity|]. split; [vm_compute; reflexivity|].
  split; [reflexivity|]. split; [reflexivity|].
  repeat split; vm_compute; reflexivity.
Qed.

End LimiterFacts.

(** ** generator.py: sentiment analysis *)

Module ScannerFacts.

Import Scanner PyFacts.

Ltac bool_to_prop' :=
  repeat match goal with
         | H : (_ && _) = true |- _ => apply andb_true_iff in H; destruct H
         | H : (_ <? _) = true |- _ => apply Z.ltb_lt in H
         | H : (_ <? _) = false |- _ => apply Z.ltb_ge in H
         end.

Lemma qmin_Qmin (a b : Q) : (qmin a b == Qmin a b)%Q.
Proof.
  unfold qmin. destruct (Qlt_bool b a) eqn:E.
  - apply Qlt_bool_iff in E. symmetry. apply Q.min_r. apply Qlt_le_weak. exact E.
  - apply Qlt_bool_false_iff in E. symmetry. apply Q.min_l. exact E.
Qed.

(** C7.  With the four keyword lists in place, the analysis never raises, and
    with [v], [m], [p], [n] the numbers of victor, marina, positive and
    negative keywords occurring in the lower-cased content:
    - [v > m] and [p > n]: candidate victor, positive, strength
      [min(1, (v + p) / 5)];
    - [m > v] and [p > n]: candidate marina, positive, strength
      [min(1, (m + p) / 5)];
    - [n > p]: no candidate, negative, strength [min(1, n / 3)];
    - otherwise: no candidate, neutral, strength 0.
    For the scanner as constructed, the text "Victor Hawthorne's economic
    growth plan is great" is victor, positive, with positive strength. *)
Theorem C7_sentiment (self : EnvironmentalScanner) (content : string)
    (kv km kp kn : list string) :
  political_keywords self !! "victor" = Some kv ->
  political_keywords self !! "marina" = Some km ->
  sentiment_keywords self !! "positive" = Some kp ->
  sentiment_keywords self !! "negative" = Some kn ->
  let v := keyword_score kv (lower content) in
  let m := keyword_score km (lower content) in
  let p := keyword_score kp (lower content) in
  let n := keyword_score kn (lower content) in
  (exists s,
     analyze_post_sentiment self content = Ok s /\
     (v > m /\ p > n ->
      candidate s = Some "victor" /\ sentiment_type s = "positive" /\
      (strength s == Qmin 1 (inject_Z (v + p) / 5))%Q) /\
     (m > v /\ p > n ->
      candidate s = Some "marina" /\ sentiment_type s = "positive" /\
      (strength s == Qmin 1 (inject_Z (m + p) / 5))%Q) /\
     (n > p ->
      candidate s = None /\ sentiment_type s = "negative" /\
      (strength s == Qmin 1 (inject_Z n / 3))%Q) /\
     (~ (v > m /\ p > n) -> ~ (m > v /\ p > n) -> ~ n > p ->
      candidate s = None /\ sentiment_type s = "neutral" /\
      (strength s == 0)%Q)) /\
  (exists s,
     analyze_post_sentiment Scanner.init
       "Victor Hawthorne's economic growth plan is great" = Ok s /\
     candidate s = Some "victor" /\ sentiment_type s = "positive" /\
     (0 < strength s)%Q).
Proof.
  intros Hv Hm Hp Hn v m p n. split.
  - unfold analyze_post_sentiment, getitem. rewrite Hv, Hm, Hp, Hn.
    fold v m p n.
    destruct ((m <? v) && (n <? p)) eqn:E1.
    { bool_to_prop'. eexists. split; [reflexivity|]. cbn [candidate sentiment_type strength].
      repeat split; intros; try lia; try tauto; try apply qmin_Qmin. }
    destruct ((v <? m) && (n <? p)) eqn:E2.
    { bool_to_prop'. eexists. split; [reflexivity|]. cbn [candidate sentiment_type strength].
      apply andb_false_iff in E1.
      repeat split; intros; try lia; try tauto; try apply qmin_Qmin. }
    destruct (p <? n) eqn:E3.
    { bool_to_prop'. eexists. split; [reflexivity|]. cbn [candidate sentiment_type strength].
      repeat split; intros; try lia; try tauto; try apply qmin_Qmin. }
    eexists. split; [reflexivity|]. cbn [candidate sentiment_type strength].
    apply andb_false_iff in E1. apply andb_false_iff in E2. apply Z.ltb_ge in E3.
    rewrite !Z.ltb_ge in E1, E2.
    repeat split; intros; try lia; try reflexivity.
  - eexists. split; [vm_compute; reflexivity|].
    cbn [candidate sentiment_type strength]. repeat split.
Qed.

Lemma C7_sentiment_witness :
  exists s,
    analyze_post_sentiment Scanner.init "I HATE this terrible, awful plan" = Ok s /\
    candidate s = None /\ sentiment_type s = "negative" /\
    (strength s == Qmin 1 (inject_Z 3 / 3))%Q.
Proof.
  destruct (C7_sentiment Scanner.init "I HATE this terrible, awful plan"
              ["victor"; "hawthorne"; "victor hawthorne"; "economic growth";
               "business friendly"]
              ["marina"; "progressive"; "social justice"; "climate action"]
              ["great"; "excellent"; "amazing"; "support"; "endorse"; "love";
               "fantastic"]
              ["terrible"; "awful"; "hate"; "disappointed"; "against"; "oppose"])
    as [(s & Hs & _ & _ & Hneg & _) _];
    try (vm_compute; reflexivity).
  exists s. split; [exact Hs|]. apply Hneg. vm_compute. reflexivity.
Defined.

End ScannerFacts.

(** ** generator.py: the strategy engine *)

Module StrategyFacts.

Import Strategy PyFacts.

Lemma fold_weight_acc (options : list (string * Q)) (acc : Q) :
  (fold_left (fun a ow => a + snd ow) options acc == acc + total_weight options)%Q.
Proof.
  unfold total_weight. revert acc.
  induction options as [|[o w] rest IH]; intros acc; cbn [fold_left snd].
  - lra.
  - rewrite (IH (acc + w)%Q), (IH (0 + w)%Q). lra.
Qed.

Lemma total_weight_cons (o : string) (w : Q) (rest : list (string * Q)) :
  (total_weight ((o, w) :: rest) == w + total_weight rest)%Q.
Proof.
  unfold total_weight at 1. cbn [fold_left snd]. rewrite fold_weight_acc. lra.
Qed.

Lemma total_weight_nonneg (options : list (string * Q)) :
  Forall (fun o => (0 <= snd o)%Q) options -> (0 <= total_weight options)%Q.
Proof.
  induction 1 as [|[o w] rest Hw _ IH]; [discriminate|].
  rewrite total_weight_cons. cbn [snd] in Hw. lra.
Qed.

(** Weights none of which is negative add up to zero only when each is zero. *)
Lemma nonneg_total_zero (options : list (string * Q)) :
  Forall (fun o => (0 <= snd o)%Q) options ->
  (total_weight options == 0)%Q ->
  Forall (fun o => (snd o == 0)%Q) options.
Proof.
  induction 1 as [|[o w] rest Hw Hrest IH]; intros Hz; constructor.
  - rewrite total_weight_cons in Hz. cbn [snd] in Hw |- *.
    pose proof (total_weight_nonneg rest Hrest). lra.
  - apply IH. rewrite total_weight_cons in Hz. cbn [snd] in Hw.
    pose proof (total_weight_nonneg rest Hrest). lra.
Qed.

Lemma scan_options_In (options : list (string * Q)) (r acc : Q) (opt : string) :
  scan_options r acc options = Some opt -> In opt (map fst options).
Proof.
  revert acc. induction options as [|[o w] rest IH]; intros acc H; [discriminate|].
  cbn [scan_options] in H. cbn [map fst In].
  destruct (Qle_bool r (acc + w)).
  - injection H as ->. left. reflexivity.
  - right. exact (IH _ H).
Qed.

Lemma last_option_In (options : list (string * Q)) :
  options <> [] ->
  exists opt, List.last (map (fun ow => Some (fst ow)) options) None = Some opt /\
              In opt (map fst options).
Proof.
  induction options as [|[o w] rest IH]; intros Hne; [congruence|].
  destruct rest as [|ow' rest'].
  - exists o. cbn. auto.
  - destruct IH as (opt & Hl & Hin); [discriminate|].
    exists opt. split; [exact Hl|]. right. exact Hin.
Qed.

(** C8, as the code has it.  On a non-empty option list the weighted choice
    always returns one of the options, whatever the random tape: it never
    raises, its loop is a single pass over the list, and it divides nothing.
    When no weight is negative and the total weight is zero -- which is to
    say that every weight is zero -- it returns the first option, without
    drawing a random number. *)
Theorem C8_weighted_choice (first : string) (w : Q) (rest : list (string * Q))
    (rng : list Q) :
  (exists opt rng',
     weighted_random_choice ((first, w) :: rest) rng = (Ok opt, rng') /\
     In opt (map fst ((first, w) :: rest))) /\
  (Forall (fun o => (0 <= snd o)%Q) ((first, w) :: rest) ->
   (total_weight ((first, w) :: rest) == 0)%Q ->
   Forall (fun o => (snd o == 0)%Q) ((first, w) :: rest) /\
   weighted_random_choice ((first, w) :: rest) rng = (Ok first, rng)).
Proof.
  unfold weighted_random_choice.
  destruct (Qeq_bool (total_weight ((first, w) :: rest)) 0) eqn:E.
  - split.
    + exists first, rng. split; [reflexivity|]. left. reflexivity.
    + intros Hnn Hz. split; [|reflexivity].
      apply (nonneg_total_zero _ Hnn Hz).
  - split.
    + unfold uniform, mbind, R_bind, random, mret, R_ret.
      destruct rng as [|u rng'].
      * destruct (scan_options _ 0 ((first, w) :: rest)) as [opt|] eqn:Es.
        -- exists opt, []. split; [reflexivity|]. exact (scan_options_In _ _ _ _ Es).
        -- destruct (last_option_In ((first, w) :: rest)) as (opt & Hl & Hin);
             [discriminate|].
           exists opt, []. rewrite Hl. split; [reflexivity | exact Hin].
      * destruct (scan_options _ 0 ((first, w) :: rest)) as [opt|] eqn:Es.
        -- exists opt, rng'. split; [reflexivity|]. exact (scan_options_In _ _ _ _ Es).
        -- destruct (last_option_In ((first, w) :: rest)) as (opt & Hl & Hin);
             [discriminate|].
           exists opt, rng'. rewrite Hl. split; [reflexivity | exact Hin].
    + intros _ H. apply Qeq_bool_iff in H. congruence.
Qed.

Lemma C8_weighted_choice_witness :
  weighted_random_choice [("post_neutral", 0%Q); ("npc_targeting", 0%Q)] [1 # 3]
    = (Ok "post_neutral", [1 # 3]).
Proof.
  apply (C8_weighted_choice "post_neutral" 0 [("npc_targeting", 0%Q)] [1 # 3]).
  - repeat constructor; discriminate.
  - reflexivity.
Defined.

(** C8 as stated fails for a negative total: the options [a] with weight -1
    and [b] with weight 0 have total weight -1, and the choice returns [b],
    the last option, for every draw. *)
Lemma C8_counterexample :
  (total_weight [("a", (-1) # 1); ("b", 0%Q)] <= 0)%Q /\
  fst (weighted_random_choice [("a", (-1) # 1); ("b", 0%Q)] [1 # 2]) = Ok "b" /\
  fst (weighted_random_choice [("a", (-1) # 1); ("b", 0%Q)] [0%Q]) = Ok "b" /\
  fst (weighted_random_choice [("a", (-1) # 1); ("b", 0%Q)] [99 # 100]) = Ok "b".
Proof.
  split; [vm_compute; discriminate|]. repeat split; vm_compute; reflexivity.
Qed.

(** *** The political-ratio branch *)

Lemma set_cooldowns_same (self : StrategyEngine) :
  set_cooldowns self (action_cooldowns self) = self.
Proof. destruct self; reflexivity. Qed.

Lemma can_execute_objective_frame (now : Q) (o : Objective) (self : StrategyEngine) :
  exists c, snd (can_execute_objective now o self) = set_cooldowns self c.
Proof.
  unfold can_execute_objective.
  destruct (action_cooldowns self !! get (objective_type o) "") as [c|].
  - exists (action_cooldowns self). rewrite set_cooldowns_same.
    destruct (cooldown_active c now); [reflexivity|].
    destruct (String.eqb _ _); reflexivity.
  - eexists. destruct (cooldown_active DatetimeMin now); [reflexivity|].
    destruct (String.eqb _ _); reflexivity.
Qed.

(** When no objective preempts, the check leaves the random tape alone and
    changes at most the cooldown table. *)
Lemma check_none_frame (now : Q) (self : StrategyEngine) (rng : list Q) :
  fst (fst (check_coordination_objectives now self rng)) = Ok None ->
  exists c, check_coordination_objectives now self rng
            = (Ok None, set_cooldowns self c, rng).
Proof.
  unfold check_coordination_objectives.
  destruct (coordination_objectives self) as [|o rest].
  - intros _. exists (action_cooldowns self). rewrite set_cooldowns_same. reflexivity.
  - set (best := max_by _ o rest).
    destruct (can_execute_objective_frame now best self) as [c Hc].
    destruct (can_execute_objective now best self) as [ok self1]. cbn [snd] in Hc.
    destruct ok.
    + destruct (convert_objective_to_action _ best rng) as [[action|e] rng'];
        cbn [fst]; intros H; discriminate H.
    + intros _. exists c. rewrite Hc. reflexivity.
Qed.

Lemma update_performance_metrics_frame (bot_stats : gmap string Z)
    (self : StrategyEngine) :
  exists w, update_performance_metrics bot_stats self = set_weights self w.
Proof.
  unfold update_performance_metrics.
  destruct (Qlt_bool _ _); [destruct (Qlt_bool _ _)|]; eexists; try reflexivity.
  instantiate (1 := strategy_weights self). destruct self; reflexivity.
Qed.

(** Every action the two phase strategies produce is a post or carries no
    content type; so is every entry of a history the engine itself wrote. *)
Lemma bind_Ok {A B : Type} (c : R A) (k : A -> R B) (rng rng' : list Q) (b : B) :
  (c ≫= k) rng = (Ok b, rng') ->
  exists a rng1, c rng = (Ok a, rng1) /\ k a rng1 = (Ok b, rng').
Proof.
  unfold mbind, R_bind. destruct (c rng) as [[a|e] rng1]; intros H.
  - exists a, rng1. split; [reflexivity | exact H].
  - discriminate H.
Qed.

Ltac invert_run :=
  repeat match goal with
         | H : (_ ≫= _) _ = (Ok _, _) |- _ =>
             apply bind_Ok in H; destruct H as (? & ? & ? & H)
         | H : mret _ _ = (Ok _, _) |- _ =>
             unfold mret, R_ret in H; injection H as <- <-
         | H : (if ?c then _ else _) _ = (Ok _, _) |- _ => destruct c
         end.

Lemma npc_targeting_typed (self : StrategyEngine) (rng rng' : list Q) (a : Action) :
  get_npc_targeting_action self rng = (Ok a, rng') -> typed_post a.
Proof.
  unfold get_npc_targeting_action. intros H.
  destruct (get (active_npcs _) []); invert_run; right; reflexivity.
Qed.

Lemma audience_building_typed (self : StrategyEngine) (rng rng' : list Q) (a : Action) :
  get_audience_building_action self rng = (Ok a, rng') -> typed_post a.
Proof.
  unfold get_audience_building_action. intros H. invert_run;
    first [left; reflexivity | right; reflexivity].
Qed.

Lemma political_influence_typed (self : StrategyEngine) (rng rng' : list Q)
    (a : Action) :
  get_political_influence_action self rng = (Ok a, rng') -> typed_post a.
Proof.
  unfold get_political_influence_action. intros H.
  destruct (Qlt_bool _ _).
  - invert_run. left. reflexivity.
  - apply bind_Ok in H. destruct H as (chosen & rng1 & _ & H).
    destruct (String.eqb chosen "post_neutral"); [invert_run; left; reflexivity|].
    destruct (String.eqb chosen "political_engagement");
      [invert_run; right; reflexivity|].
    destruct (String.eqb chosen "npc_targeting");
      [exact (npc_targeting_typed _ _ _ _ H)|].
    invert_run. right. reflexivity.
Qed.

Lemma Forall_tl {A : Type} (P : A -> Prop) (l : list A) :
  Forall P l -> Forall P (List.tl l).
Proof. intros H. destruct H; [constructor | assumption]. Qed.

Lemma get_next_action_history_wf (phase : string) (bot_stats : gmap string Z)
    (now : Q) (self : StrategyEngine) (rng : list Q) :
  history_wf self ->
  history_wf (snd (fst (get_next_action phase bot_stats now self rng))).
Proof.
  unfold history_wf, get_next_action. intros Hwf.
  destruct (update_performance_metrics_frame bot_stats self) as [w ->].
  assert (Hframe : forall r s2 g,
             check_coordination_objectives now (set_weights self w) rng = (r, s2, g) ->
             recent_actions s2 = recent_actions self).
  { unfold check_coordination_objectives. intros r s2 g.
    destruct (coordination_objectives (set_weights self w)) as [|o rest].
    - intros [= _ <- _]. reflexivity.
    - set (best := max_by _ o rest).
      destruct (can_execute_objective_frame now best (set_weights self w)) as [c Hc].
      destruct (can_execute_objective now best (set_weights self w)) as [ok s1].
      cbn [snd] in Hc. subst s1. destruct ok.
      + destruct (convert_objective_to_action _ best rng) as [[action|e] g'];
          intros [= _ <- _]; reflexivity.
      + intros [= _ <- _]. reflexivity. }
  destruct (check_coordination_objectives now (set_weights self w) rng)
    as [[r s2] g] eqn:Hcheck.
  specialize (Hframe r s2 g eq_refl).
  destruct r as [[action|]|e]; cbn [fst snd]; try (rewrite Hframe; exact Hwf).
  destruct (String.eqb phase "audience_building").
  - destruct (get_audience_building_action s2 g) as [[a|e] g'] eqn:Ha;
      cbn [fst snd]; [|rewrite Hframe; exact Hwf].
    cbn [recent_actions set_recent_actions]. unfold deque_append. rewrite Hframe.
    assert (Hnew : Forall (fun x => typed_post (recent_action x))
                          [mkRecent a now phase (current_context s2)]).
    { constructor; [exact (audience_building_typed _ _ _ _ Ha) | constructor]. }
    destruct (20 <=? length (recent_actions self))%nat; apply Forall_app; split;
      [apply Forall_tl; exact Hwf | exact Hnew | exact Hwf | exact Hnew].
  - destruct (get_political_influence_action s2 g) as [[a|e] g'] eqn:Ha;
      cbn [fst snd]; [|rewrite Hframe; exact Hwf].
    cbn [recent_actions set_recent_actions]. unfold deque_append. rewrite Hframe.
    assert (Hnew : Forall (fun x => typed_post (recent_action x))
                          [mkRecent a now phase (current_context s2)]).
    { constructor; [exact (political_influence_typed _ _ _ _ Ha) | constructor]. }
    destruct (20 <=? length (recent_actions self))%nat; apply Forall_app; split;
      [apply Forall_tl; exact Hwf | exact Hnew | exact Hwf | exact Hnew].
Qed.

(** On such a history the numerator of the code's ratio, which looks at the
    content type alone, is the number of political posts. *)
Lemma recent_political_posts_are_posts (self : StrategyEngine) :
  history_wf self ->
  recent_political_posts self = count_if is_political_post (recent_actions self).
Proof.
  unfold history_wf, recent_political_posts, count_if, len. intros Hwf. f_equal. f_equal.
  induction Hwf as [|a l Ha _ IH]; [reflexivity|]. cbn [List.filter].
  rewrite IH. unfold is_political_post.
  destruct Ha as [Hp | Hn].
  - rewrite Hp. cbn [field_is]. replace (String.eqb "post" "post") with true by reflexivity.
    reflexivity.
  - rewrite Hn. cbn [field_is]. rewrite andb_false_r. reflexivity.
Qed.

(** C3.  In the political-influence phase, when the coordination check
    yields no action and the political ratio of the recent-action history is
    strictly below the target ratio, [get_next_action] returns the
    political-content action: a post with content type political.  The action
    is a function of the engine alone -- the random tape is neither read nor
    consumed, and the clock and the bot statistics do not enter it -- and it
    is appended to the recent-action history.  The ratio is the one the code
    computes, political entries over [max(1, posts)]; on a history the engine
    wrote its numerator is the number of political posts
    ([recent_political_posts_are_posts]). *)
Theorem C3_political_ratio_branch (bot_stats : gmap string Z) (now : Q)
    (self : StrategyEngine) (rng : list Q) :
  fst (fst (check_coordination_objectives now
              (update_performance_metrics bot_stats self) rng)) = Ok None ->
  (current_political_ratio self < political_ratio (content_strategy self))%Q ->
  exists self',
    get_next_action "political_influence" bot_stats now self rng
      = (Ok (get_political_content_action self), self', rng) /\
    action_type (get_political_content_action self) = Some "post" /\
    content_type (get_political_content_action self) = Some "political" /\
    List.last (map recent_action (recent_actions self')) (mkAction None None None None None None)
      = get_political_content_action self.
Proof.
  intros Hnone Hratio. unfold get_next_action.
  destruct (update_performance_metrics_frame bot_stats self) as [w Hw].
  rewrite Hw in *.
  destruct (check_none_frame now (set_weights self w) rng Hnone) as [c Hc].
  rewrite Hc.
  replace (String.eqb "political_influence" "audience_building") with false
    by reflexivity.
  unfold get_political_influence_action.
  replace (Qlt_bool (current_political_ratio (set_cooldowns (set_weights self w) c))
             (political_ratio (content_strategy (set_cooldowns (set_weights self w) c))))
    with true.
  2:{ symmetry. apply Qlt_bool_iff. exact Hratio. }
  eexists. split; [reflexivity|]. split; [reflexivity|]. split; [reflexivity|].
  cbn [recent_actions set_recent_actions]. unfold deque_append.
  destruct (20 <=? length _)%nat; rewrite List.map_app; cbn [map];
    rewrite List.last_last; reflexivity.
Qed.

Lemma C3_political_ratio_branch_witness :
  exists self',
    get_next_action "political_influence" ∅ 1000
      (mkEngine "support_victor" "townie" (mkPersona (Some ["jobs"]) None None)
         (mkContext (Some ["harbour"]) None None)
         [mkRecent (mkAction (Some "post") (Some "neutral") None None None None)
                   10 "political_influence" (mkContext None None None);
          mkRecent (mkAction (Some "post") (Some "political") None None None None)
                   20 "political_influence" (mkContext None None None);
          mkRecent (mkAction (Some "post") (Some "neutral") None None None None)
                   30 "political_influence" (mkContext None None None)]
         [] (mkWeights (5 # 10) (3 # 10) (2 # 10) (1 # 10)) ∅
         (mkContentStrategy (8 # 10) (4 # 10) ["jobs"] "moderate" "varied"))
      [7 # 10]
    = (Ok (mkAction (Some "post") (Some "political")
             (Some (<["trending_topics" := CStrs ["harbour"]]>
                    (<["objective" := CStr "support_victor"]>
                    (<["persona_approach" := CStr ""]>
                    (<["current_issues" :=
                         CStrs (get_relevant_issues
                                  (mkEngine "support_victor" "townie"
                                     (mkPersona (Some ["jobs"]) None None)
                                     (mkContext (Some ["harbour"]) None None) [] []
                                     (mkWeights (5 # 10) (3 # 10) (2 # 10) (1 # 10)) ∅
                                     (mkContentStrategy (8 # 10) (4 # 10) ["jobs"]
                                        "moderate" "varied")))]> ∅)))))
             None None None),
       self', [7 # 10]).
Proof.
  destruct (C3_political_ratio_branch ∅ 1000
      (mkEngine "support_victor" "townie" (mkPersona (Some ["jobs"]) None None)
         (mkContext (Some ["harbour"]) None None)
         [mkRecent (mkAction (Some "post") (Some "neutral") None None None None)
                   10 "political_influence" (mkContext None None None);
          mkRecent (mkAction (Some "post") (Some "political") None None None None)
                   20 "political_influence" (mkContext None None None);
          mkRecent (mkAction (Some "post") (Some "neutral") None None None None)
                   30 "political_influence" (mkContext None None None)]
         [] (mkWeights (5 # 10) (3 # 10) (2 # 10) (1 # 10)) ∅
         (mkContentStrategy (8 # 10) (4 # 10) ["jobs"] "moderate" "varied"))
      [7 # 10]) as (self' & Hrun & _).
  - vm_compute. reflexivity.
  - vm_compute. reflexivity.
  - exists self'. exact Hrun.
Defined.

End StrategyFacts.

(** ** base_bot.py and generator.py: bookkeeping of executed actions *)

Module BotFacts.

Import Limiter Bot.

(** The three platform actions of [BaseBot] touch the counters only when the
    platform call returns something true. *)
Lemma base_actions_gate_on_success (reply : api_reply) (clock : Q)
    (b : InfluenceBot) (content : string) (id : option string) :
  reply <> Truthy ->
  (let b' := snd (fst (like_post id reply clock b)) in
   stats b' = stats b /\ action_count b' = action_count b /\
   influence_stats b' = influence_stats b /\ engaged_npcs b' = engaged_npcs b) /\
  (let b' := snd (fst (repost id reply clock b)) in
   stats b' = stats b /\ action_count b' = action_count b /\
   influence_stats b' = influence_stats b /\ engaged_npcs b' = engaged_npcs b) /\
  (let b' := snd (fst (post_content content id reply clock b)) in
   stats b' = stats b /\ action_count b' = action_count b /\
   influence_stats b' = influence_stats b /\ engaged_npcs b' = engaged_npcs b).
Proof.
  intros Hr. unfold like_post, repost, post_content.
  destruct (acquire clock (rate_limiter b)) as [[[[]|e] rl] c1];
    destruct reply; try congruence; cbn; repeat split.
Qed.

(** C5, the code at the failing input.  An ['engage'] action of kind like on
    a post by another account whose name has no [@]: when the platform call
    returns false or raises, the like counters stay as they were, yet the
    author is added to [engaged_npcs] and [npc_interactions] goes up by one. *)
Theorem C5_npc_tracked_without_success (b : InfluenceBot) (post : gmap string string)
    (author : string) (reply : api_reply) (clock : Q) :
  post !! "username" = Some author ->
  author <> username b ->
  contains "@" author = false ->
  reply <> Truthy ->
  fst (fst (acquire clock (rate_limiter b))) = Ok tt ->
  let res :=
    execute_engagement_action (mkEngagement (Some post) (Some "like")) None
                              reply clock b in
  fst (fst res) = Ok tt /\
  stats (snd (fst res)) = stats b /\
  action_count (snd (fst res)) = action_count b /\
  engaged_npcs (snd (fst res)) = {[author]} ∪ engaged_npcs b /\
  npc_interactions (influence_stats (snd (fst res)))
    = npc_interactions (influence_stats b) + 1.
Proof.
  intros Hauthor Hne Hat Hreply Hacq. cbn zeta.
  unfold execute_engagement_action. cbn [target_post engagement_type].
  destruct (decide (post = ∅)) as [-> | _].
  { rewrite lookup_empty in Hauthor. discriminate. }
  rewrite Hauthor. cbn [Strategy.get].
  replace (String.eqb "like" "like") with true by reflexivity.
  unfold like_post.
  destruct (acquire clock (rate_limiter b)) as [[[[]|e] rl] c1]; cbn [fst] in Hacq;
    [|discriminate Hacq].
  assert (Heqb : String.eqb author (username b) = false).
  { apply String.eqb_neq. exact Hne. }
  destruct reply; [congruence| |];
    cbn [username set_rate_limiter]; rewrite Heqb, Hat; cbn; auto.
Qed.

Lemma C5_npc_tracked_without_success_witness :
  let res :=
    execute_engagement_action
      (mkEngagement (Some (<["id" := "p1"]> (<["username" := "npc_alice"]> ∅)))
                    (Some "like"))
      None Falsy 0
      (mkBot "bot_one" (mkRateLimiter 3 60 [] 1 10) 0 0 (mkStats 0 0 0 0 0 0)
             (mkInfluenceStats 0 0 0 0 0) ∅ ∅) in
  fst (fst res) = Ok tt /\
  stats (snd (fst res)) = mkStats 0 0 0 0 0 0 /\
  action_count (snd (fst res)) = 0 /\
  engaged_npcs (snd (fst res)) = {["npc_alice"]} ∪ ∅ /\
  npc_interactions (influence_stats (snd (fst res))) = 0 + 1.
Proof.
  apply (C5_npc_tracked_without_success
           (mkBot "bot_one" (mkRateLimiter 3 60 [] 1 10) 0 0 (mkStats 0 0 0 0 0 0)
                  (mkInfluenceStats 0 0 0 0 0) ∅ ∅)
           (<["id" := "p1"]> (<["username" := "npc_alice"]> ∅))
           "npc_alice" Falsy 0).
  - vm_compute. reflexivity.
  - discriminate.
  - reflexivity.
  - discriminate.
  - reflexivity.
Defined.

End BotFacts.

(** ** mamager.py: fleet creation *)

Module ManagerFacts.

Import Manager.

Lemma create_loop_spec (personas : list string) (indices : list nat) :
  forall m : BotManager,
    (forall i, In i indices -> (i < length (account_credentials m))%nat) ->
    let m' := create_loop personas indices m in
    campaign_objective m' = campaign_objective m /\
    account_credentials m' = account_credentials m /\
    (forall bot,
        In bot (bots m') <->
        In bot (bots m) \/ exists i, In i indices /\ created_from personas m i bot) /\
    (length (bots m') <= length (bots m) + length indices)%nat /\
    ((forall i, In i indices -> exists u p, usable m i u p) ->
     length (bots m') = (length (bots m) + length indices)%nat).
Proof.
  induction indices as [|i rest IH]; intros m Hrange; cbn zeta.
  - cbn [create_loop]. repeat split; try (cbn; lia).
    + intros H. left. exact H.
    + intros [H | (i & [] & _)]. exact H.
  - cbn [create_loop].
    assert (Hi : (i < length (account_credentials m))%nat) by (apply Hrange; left; reflexivity).
    assert (Hrest : forall j, In j rest -> (j < length (account_credentials m))%nat).
    { intros j Hj. apply Hrange. right. exact Hj. }
    destruct (nth_error (account_credentials m) i) as [c|] eqn:Hc.
    2:{ apply nth_error_None in Hc. lia. }
    assert (Hskip :
      (forall u p, ~ usable m i u p) ->
      let m' := create_loop personas rest m in
      campaign_objective m' = campaign_objective m /\
      account_credentials m' = account_credentials m /\
      (forall bot,
          In bot (bots m') <->
          In bot (bots m) \/
          exists i0, In i0 (i :: rest) /\ created_from personas m i0 bot) /\
      (length (bots m') <= length (bots m) + length (i :: rest))%nat /\
      ((forall i0, In i0 (i :: rest) -> exists u p, usable m i0 u p) ->
       length (bots m') = (length (bots m) + length (i :: rest))%nat)).
    { intros Hbad. cbn zeta.
      destruct (IH m Hrest) as (H1 & H2 & H3 & H4 & H5).
      split; [exact H1|]. split; [exact H2|]. split; [|split].
      - intros bot. rewrite H3. split.
        + intros [H | (j & Hj & Hb)]; [left; exact H|].
          right. exists j. split; [right; exact Hj | exact Hb].
        + intros [H | (j & [<- | Hj] & Hb)]; [left; exact H | |].
          * destruct Hb as (u & p & Hu & _). exfalso. exact (Hbad u p Hu).
          * right. exists j. split; assumption.
      - cbn [length]. lia.
      - intros Hall. destruct (Hall i (or_introl eq_refl)) as (u & p & Hu).
        exfalso. exact (Hbad u p Hu). }
    destruct c as [[u|] [p|]]; cbn [cred_username cred_password].
    + destruct (String.eqb u "" || String.eqb p "") eqn:E.
      * apply Hskip. intros u' p' (Hn & Hu & Hp). rewrite Hc in Hn.
        injection Hn as <- <-.
        apply orb_true_iff in E. destruct E as [E | E]; apply String.eqb_eq in E;
          congruence.
      * apply orb_false_iff in E. destruct E as [Eu Ep].
        apply String.eqb_neq in Eu. apply String.eqb_neq in Ep.
        set (persona := nth (i mod length personas) personas "").
        set (bot0 := mkBotSpec u p persona (campaign_objective m) (make_bot_id i persona)).
        set (m1 := mkManager (campaign_objective m) (bots m ++ [bot0])
                             (account_credentials m) (accounts_used m + 1)).
        destruct (IH m1 Hrest) as (H1 & H2 & H3 & H4 & H5).
        cbn [campaign_objective account_credentials bots m1] in H1, H2, H4, H5.
        assert (Hcf : forall j bot, created_from personas m1 j bot <->
                                    created_from personas m j bot) by reflexivity.
        split; [exact H1|]. split; [exact H2|]. split; [|split].
        -- intros bot. rewrite H3. cbn [bots m1]. rewrite in_app_iff. cbn [In].
           split.
           ++ intros [[H | [<- | []]] | (j & Hj & Hb)].
              ** left. exact H.
              ** right. exists i. split; [left; reflexivity|].
                 exists u, p. split; [|reflexivity]. repeat split; assumption.
              ** right. exists j. split; [right; exact Hj | exact Hb].
           ++ intros [H | (j & [<- | Hj] & Hb)].
              ** left. left. exact H.
              ** left. right. left.
                 destruct Hb as (u' & p' & (Hn & _ & _) & ->).
                 rewrite Hc in Hn. injection Hn as <- <-. reflexivity.
              ** right. exists j. split; assumption.
        -- rewrite length_app in H4. cbn [length] in H4 |- *. lia.
        -- intros Hall. rewrite length_app in H5. cbn [length] in H5 |- *.
           rewrite H5; [lia|]. intros j Hj. apply (Hall j). right. exact Hj.
    + apply Hskip. intros u' p' (Hn & _). rewrite Hc in Hn. discriminate.
    + apply Hskip. intros u' p' (Hn & _). rewrite Hc in Hn. discriminate.
    + apply Hskip. intros u' p' (Hn & _). rewrite Hc in Hn. discriminate.
Qed.

Lemma seq_bound (n i : nat) : In i (seq 0 n) -> (i < n)%nat.
Proof. intros H. apply in_seq in H. lia. Qed.

Lemma has_usable_credentials_iff (m : BotManager) (i : nat) :
  has_usable_credentials m i = true <-> exists u p, usable m i u p.
Proof.
  unfold has_usable_credentials, usable.
  destruct (nth_error (account_credentials m) i) as [[[u|] [p|]]|].
  - rewrite negb_true_iff, orb_false_iff, !String.eqb_neq. split.
    + intros [Hu Hp]. exists u, p. auto.
    + intros (u' & p' & Heq & Hu & Hp). injection Heq as <- <-. auto.
  - split; [discriminate | intros (u' & p' & Heq & _); discriminate].
  - split; [discriminate | intros (u' & p' & Heq & _); discriminate].
  - split; [discriminate | intros (u' & p' & Heq & _); discriminate].
  - split; [discriminate | intros (u' & p' & Heq & _); discriminate].
Qed.

(** The loop appends, in the order of the indices, the bot of each index
    with usable credentials, and nothing else. *)
Lemma create_loop_appends (personas : list string) (indices : list nat) :
  forall m : BotManager,
    (forall i, In i indices -> (i < length (account_credentials m))%nat) ->
    exists new,
      bots (create_loop personas indices m) = (bots m ++ new)%list /\
      Forall2 (created_from personas m)
              (List.filter (has_usable_credentials m) indices) new /\
      accounts_used (create_loop personas indices m) = accounts_used m + len new.
Proof.
  induction indices as [|i rest IH]; intros m Hrange.
  - exists []. cbn [create_loop List.filter]. rewrite List.app_nil_r.
    split; [reflexivity|]. split; [constructor|]. unfold len. cbn. lia.
  - assert (Hi : (i < length (account_credentials m))%nat) by (apply Hrange; left; reflexivity).
    assert (Hrest : forall j, In j rest -> (j < length (account_credentials m))%nat).
    { intros j Hj. apply Hrange. right. exact Hj. }
    cbn [create_loop List.filter]. unfold has_usable_credentials at 1.
    destruct (nth_error (account_credentials m) i) as [c|] eqn:Hc.
    2:{ apply nth_error_None in Hc. lia. }
    destruct c as [[u|] [p|]]; cbn [cred_username cred_password];
      try exact (IH m Hrest).
    destruct (String.eqb u "" || String.eqb p "") eqn:E; cbn [negb];
      [exact (IH m Hrest)|].
    apply orb_false_iff in E. destruct E as [Eu Ep].
    apply String.eqb_neq in Eu. apply String.eqb_neq in Ep.
    set (persona := nth (i mod length personas) personas "").
    set (bot0 := mkBotSpec u p persona (campaign_objective m) (make_bot_id i persona)).
    set (m1 := mkManager (campaign_objective m) (bots m ++ [bot0])
                         (account_credentials m) (accounts_used m + 1)).
    destruct (IH m1 Hrest) as (new & Hbots & Hnew & Hused).
    exists (bot0 :: new). split; [|split].
    + rewrite Hbots. cbn [bots m1]. rewrite <- List.app_assoc. reflexivity.
    + constructor; [|exact Hnew].
      exists u, p. split; [|reflexivity]. repeat split; assumption.
    + rewrite Hused. cbn [accounts_used m1]. unfold len. cbn [length]. lia.
Qed.

Lemma filter_keeps_all {A : Type} (f : A -> bool) (l : list A) :
  length (List.filter f l) = length l -> forall x, In x l -> f x = true.
Proof.
  induction l as [|a l IH]; intros Hlen x Hin; [destruct Hin|].
  cbn [List.filter] in Hlen. pose proof (List.filter_length_le f l) as Hle.
  destruct (f a) eqn:Ea; cbn [length] in Hlen; [|lia].
  destruct Hin as [<- | Hin]; [exact Ea|]. apply IH; [lia | exact Hin].
Qed.

(** C6, as the code has it.  With [n] the requested number of bots:
    - fewer than [n] credentials, or no persona configured: the call returns
      false and creates nothing;
    - otherwise the manager gains exactly one bot for each index [i < n]
      whose credentials carry a non-empty username and password, that bot
      having persona [i mod numPersonas] and id [bot_{i:03d}_{persona}];
      the new bots are appended to the fleet in the order of their indices,
      [accounts_used] grows by their number, and indices with unusable
      credentials are skipped, so at most [n] bots are added, and exactly
      [n] if and only if all [n] credentials are usable;
    - the call then returns true exactly when the manager holds at least one
      bot. *)
Theorem C6_create_bot_fleet (active_bots : Z) (personas : list string)
    (num_bots : option Z) (m : BotManager) :
  let n := Strategy.get num_bots active_bots in
  let res := create_bot_fleet active_bots personas num_bots m in
  (len (account_credentials m) < n -> res = (false, m)) /\
  (personas = [] -> res = (false, m)) /\
  (n <= len (account_credentials m) -> personas <> [] ->
   (fst res = true <-> bots (snd res) <> []) /\
   (forall bot,
       In bot (bots (snd res)) <->
       In bot (bots m) \/
       exists i, (i < Z.to_nat n)%nat /\ created_from personas m i bot) /\
   (length (bots (snd res)) <= length (bots m) + Z.to_nat n)%nat /\
   ((forall i, (i < Z.to_nat n)%nat -> exists u p, usable m i u p) <->
    length (bots (snd res)) = (length (bots m) + Z.to_nat n)%nat) /\
   (forall i, has_usable_credentials m i = true <-> exists u p, usable m i u p) /\
   exists new,
     bots (snd res) = (bots m ++ new)%list /\
     Forall2 (created_from personas m)
             (List.filter (has_usable_credentials m) (seq 0 (Z.to_nat n))) new /\
     accounts_used (snd res) = accounts_used m + len new).
Proof.
  cbn zeta. unfold create_bot_fleet.
  set (n := Strategy.get num_bots active_bots).
  split; [|split].
  - intros Hlt. replace (len (account_credentials m) <? n) with true; [reflexivity|].
    symmetry. apply Z.ltb_lt. exact Hlt.
  - intros ->. destruct (len (account_credentials m) <? n); reflexivity.
  - intros Hle Hne.
    replace (len (account_credentials m) <? n) with false
      by (symmetry; apply Z.ltb_ge; exact Hle).
    destruct personas as [|p0 ps]; [congruence|].
    set (personas := p0 :: ps). cbn [fst snd].
    assert (Hrange : forall i, In i (seq 0 (Z.to_nat n)) ->
                               (i < length (account_credentials m))%nat).
    { intros i Hi. apply seq_bound in Hi. unfold len in Hle. lia. }
    destruct (create_loop_spec personas (seq 0 (Z.to_nat n)) m Hrange)
      as (_ & _ & Hmem & Hlen & Hall).
    rewrite length_seq in Hlen, Hall.
    destruct (create_loop_appends personas (seq 0 (Z.to_nat n)) m Hrange)
      as (new & Hbots & Hnew & Hused).
    split; [|split; [|split; [|split; [|split]]]].
    + rewrite Z.ltb_lt. unfold len.
      destruct (bots (create_loop personas (seq 0 (Z.to_nat n)) m)); cbn [length].
      * split; [lia | congruence].
      * split; [discriminate | lia].
    + intros bot. rewrite Hmem. split.
      * intros [H | (i & Hi & Hb)]; [left; exact H|].
        right. exists i. split; [exact (seq_bound _ _ Hi) | exact Hb].
      * intros [H | (i & Hi & Hb)]; [left; exact H|].
        right. exists i. split; [apply in_seq; lia | exact Hb].
    + exact Hlen.
    + split.
      * intros Hvalid. apply Hall. intros i Hi. apply Hvalid.
        exact (seq_bound _ _ Hi).
      * intros Hfull i Hi. apply has_usable_credentials_iff.
        apply (filter_keeps_all _ (seq 0 (Z.to_nat n))); [|apply in_seq; lia].
        rewrite (Forall2_length _ _ _ Hnew), length_seq.
        rewrite Hbots, List.length_app in Hfull. lia.
    + intros i. apply has_usable_credentials_iff.
    + exists new. split; [exact Hbots|]. split; [exact Hnew | exact Hused].
Qed.

Lemma C6_create_bot_fleet_witness :
  create_bot_fleet 10 ["fan"; "critic"] (Some 3)
    (mkManager "support_victor" []
       [mkCredentials (Some "u0") (Some "p0")] 0)
    = (false,
       mkManager "support_victor" []
         [mkCredentials (Some "u0") (Some "p0")] 0) /\
  length (bots (snd (create_bot_fleet 10 ["fan"; "critic"] (Some 3)
    (mkManager "support_victor" []
       [mkCredentials (Some "u0") (Some "p0");
        mkCredentials (Some "u1") (Some "p1");
        mkCredentials (Some "u2") (Some "p2")] 0)))) = 3%nat /\
  In (mkBotSpec "u2" "p2" "fan" "support_victor" "bot_002_fan")
     (bots (snd (create_bot_fleet 10 ["fan"; "critic"] (Some 3)
    (mkManager "support_victor" []
       [mkCredentials (Some "u0") (Some "p0");
        mkCredentials (Some "u1") (Some "p1");
        mkCredentials (Some "u2") (Some "p2")] 0)))).
Proof.
  split; [|split].
  - destruct (C6_create_bot_fleet 10 ["fan"; "critic"] (Some 3)
                (mkManager "support_victor" []
                   [mkCredentials (Some "u0") (Some "p0")] 0)) as (Hfew & _).
    apply Hfew. vm_compute. reflexivity.
  - destruct (C6_create_bot_fleet 10 ["fan"; "critic"] (Some 3)
                (mkManager "support_victor" []
                   [mkCredentials (Some "u0") (Some "p0");
                    mkCredentials (Some "u1") (Some "p1");
                    mkCredentials (Some "u2") (Some "p2")] 0))
      as (_ & _ & H).
    assert (Hn : Strategy.get (Some 3) 10 <= len
               [mkCredentials (Some "u0") (Some "p0");
                mkCredentials (Some "u1") (Some "p1");
                mkCredentials (Some "u2") (Some "p2")]) by (vm_compute; discriminate).
    assert (Hp : ["fan"; "critic"] <> []) by discriminate.
    destruct (H Hn Hp) as (_ & _ & _ & [Hall _] & _).
    apply Hall. intros i Hi. cbn in Hi.
    destruct i as [|[|[|i]]]; [| | |lia];
      eexists _, _; (split; [reflexivity | split; discriminate]).
  - destruct (C6_create_bot_fleet 10 ["fan"; "critic"] (Some 3)
                (mkManager "support_victor" []
                   [mkCredentials (Some "u0") (Some "p0");
                    mkCredentials (Some "u1") (Some "p1");
                    mkCredentials (Some "u2") (Some "p2")] 0))
      as (_ & _ & H).
    assert (Hn : Strategy.get (Some 3) 10 <= len
               [mkCredentials (Some "u0") (Some "p0");
                mkCredentials (Some "u1") (Some "p1");
                mkCredentials (Some "u2") (Some "p2")]) by (vm_compute; discriminate).
    assert (Hp : ["fan"; "critic"] <> []) by discriminate.
    destruct (H Hn Hp) as (_ & Hmem & _).
    apply Hmem. right. exists 2%nat. split; [cbn; lia|].
    exists "u2", "p2". split; [|reflexivity].
    split; [reflexivity | split; discriminate].
Defined.

(** C6 as stated fails on its last part: asked for two bots with two
    credentials of which the second has an empty username, the call creates
    one bot and returns true. *)
Lemma C6_counterexample :
  exists m',
    create_bot_fleet 10 ["fan"] (Some 2)
      (mkManager "support_victor" []
         [mkCredentials (Some "u0") (Some "p0");
          mkCredentials (Some "") (Some "p1")] 0)
      = (true, m') /\
    length (bots m') = 1%nat /\
    bots m' = [mkBotSpec "u0" "p0" "fan" "support_victor" "bot_000_fan"].
Proof.
  eexists. split; [vm_compute; reflexivity|]. split; reflexivity.
Qed.

End ManagerFacts.

(** ** limiter.py: further properties of the sliding window *)

Module LimiterExtra.

Import Limiter PyFacts LimiterFacts.


Lemma evict_suffix (now : Q) (w : Z) (reqs : list Q) :
  exists dropped, reqs = (dropped ++ evict now w reqs)%list /\
                  Forall (fun r => (inject_Z w < now - r)%Q) dropped.
Proof.
  induction reqs as [|r rest IH].
  - exists []. split; [reflexivity | constructor].
  - cbn [evict]. destruct (Qlt_bool (inject_Z w) (now - r)) eqn:E.
    + destruct IH as (dropped & Heq & Hd). exists (r :: dropped). split.
      * cbn. f_equal. exact Heq.
      * constructor; [apply Qlt_bool_iff; exact E | exact Hd].
    + exists []. split; [reflexivity | constructor].
Qed.

Lemma evict_head_fresh (now : Q) (w : Z) (reqs : list Q) (r : Q) (rest : list Q) :
  evict now w reqs = r :: rest -> (now - r <= inject_Z w)%Q.
Proof.
  induction reqs as [|r0 rest0 IH]; [discriminate|]. cbn [evict].
  destruct (Qlt_bool (inject_Z w) (now - r0)) eqn:E.
  - exact IH.
  - intros [= <- <-]. apply Qlt_bool_false_iff. exact E.
Qed.

Lemma evict_idempotent (now : Q) (w : Z) (reqs : list Q) :
  evict now w (evict now w reqs) = evict now w reqs.
Proof.
  destruct (evict now w reqs) as [|r rest] eqn:E; [reflexivity|].
  cbn [evict]. apply evict_head_fresh in E.
  apply Qlt_bool_false_iff in E. rewrite E. reflexivity.
Qed.




(** X2.  The status report is self-consistent and agrees with the other
    queries at the same clock reading: "rate limited" holds exactly when no
    request remains and exactly when [can_make_request] is false; the
    requests counted and the requests remaining add up to the capacity while
    the queue is within capacity; a reset time is reported exactly when a
    stamp is left; and the limiter afterwards holds the evicted queue. *)
Theorem get_status_consistent (now : Q) (rl : RateLimiter) :
  let st := fst (get_status now rl) in
  status_is_rate_limited st = (status_requests_remaining st =? 0) /\
  status_is_rate_limited st = negb (fst (can_make_request now rl)) /\
  status_requests_remaining st = fst (requests_remaining now rl) /\
  (status_current_requests st <= max_requests rl ->
   status_current_requests st + status_requests_remaining st = max_requests rl) /\
  (status_reset_time st = None <-> status_current_requests st = 0) /\
  requests (snd (get_status now rl)) = evict now (time_window rl) (requests rl).
Proof.
  cbn zeta. unfold get_status, requests_remaining, is_rate_limited, can_make_request.
  cbn [requests time_window max_requests set_requests fst snd].
  rewrite !evict_idempotent.
  cbn [status_is_rate_limited status_requests_remaining status_current_requests
       status_reset_time fst snd requests set_requests].
  set (reqs := evict now (time_window rl) (requests rl)).
  repeat split.
  - destruct (len reqs <? max_requests rl) eqn:E; cbn [negb]; symmetry.
    + apply Z.ltb_lt in E. apply Z.eqb_neq. lia.
    + apply Z.ltb_ge in E. apply Z.eqb_eq. lia.
  - lia.
  - unfold reset_time. cbn [requests]. intros H. destruct reqs; [reflexivity | discriminate].
  - unfold reset_time. cbn [requests]. intros H. destruct reqs; [reflexivity|].
    unfold len in H. cbn [length] in H. lia.
Qed.

(** X3.  [acquire] raises in exactly one situation: the capacity is not
    positive and the queue is empty once stale stamps are evicted.  In every
    other situation it admits the request, recording the clock reading of the
    moment of admission as the newest stamp, and the clock never runs
    backwards. *)
Theorem acquire_raises_iff (clock : Q) (rl : RateLimiter) :
  (fst (fst (acquire clock rl)) = Raise IndexError <->
   max_requests rl <= 0 /\ evict clock (time_window rl) (requests rl) = []) /\
  (fst (fst (acquire clock rl)) <> Raise IndexError ->
   fst (fst (acquire clock rl)) = Ok tt /\
   (clock <= snd (acquire clock rl))%Q /\
   List.last (requests (snd (fst (acquire clock rl)))) 0%Q = snd (acquire clock rl)).
Proof.
  unfold acquire.
  destruct (evict clock (time_window rl) (requests rl)) as [|oldest rest] eqn:E.
  - destruct (len [] >=? max_requests rl) eqn:Ek; rewrite Z.geb_leb in Ek.
    + apply Z.leb_le in Ek. unfold len in Ek. cbn in Ek. cbn [fst snd]. split.
      * split; [intros _; split; [lia | reflexivity] | reflexivity].
      * intros H. congruence.
    + apply Z.leb_gt in Ek. unfold len in Ek. cbn in Ek. cbn [fst snd]. split.
      * split; [discriminate | intros [? _]; lia].
      * intros _. split; [reflexivity|]. split; [lra | reflexivity].
  - assert (Hfresh : (clock - oldest <= inject_Z (time_window rl))%Q)
      by exact (evict_head_fresh _ _ _ _ _ E).
    destruct (len (oldest :: rest) >=? max_requests rl).
    + destruct (Qlt_bool 0 (inject_Z (time_window rl) - (clock - oldest))) eqn:Ew;
        cbn [fst snd requests set_requests].
      * apply Qlt_bool_iff in Ew. split.
        -- split; [discriminate | intros [_ ?]; discriminate].
        -- intros _. split; [reflexivity|]. split; [lra|]. apply last_last.
      * split.
        -- split; [discriminate | intros [_ ?]; discriminate].
        -- intros _. split; [reflexivity|]. split; [lra|]. apply last_last.
    + cbn [fst snd requests set_requests]. split.
      * split; [discriminate | intros [_ ?]; discriminate].
      * intros _. split; [reflexivity|]. split; [lra|]. apply last_last.
Qed.

Lemma acquire_raises_iff_witness :
  fst (fst (acquire 5 (mkRateLimiter 1 60 [0%Q] 1 10))) = Ok tt /\
  (5 <= snd (acquire 5 (mkRateLimiter 1 60 [0%Q] 1 10)))%Q /\
  List.last (requests (snd (fst (acquire 5 (mkRateLimiter 1 60 [0%Q] 1 10))))) 0%Q
    = snd (acquire 5 (mkRateLimiter 1 60 [0%Q] 1 10)).
Proof.
  destruct (acquire_raises_iff 5 (mkRateLimiter 1 60 [0%Q] 1 10)) as [_ H].
  apply H. vm_compute. discriminate.
Defined.



(** X5.  That exception is real: whenever the queue is at or over capacity
    and its oldest stamp is exactly one window old, [acquire] neither waits
    nor evicts; it appends the stamp at once, so the queue then holds more
    stamps than the capacity, all of them still counted by
    [can_make_request] at that instant. *)
Theorem acquire_overshoots_on_boundary (clock : Q) (rl : RateLimiter)
    (oldest : Q) (rest : list Q) :
  evict clock (time_window rl) (requests rl) = oldest :: rest ->
  max_requests rl <= len (oldest :: rest) ->
  (clock - oldest == inject_Z (time_window rl))%Q ->
  acquire clock rl
    = (Ok tt, set_requests rl (oldest :: rest ++ [clock]), clock) /\
  max_requests rl < len (oldest :: rest ++ [clock]) /\
  evict clock (time_window rl) (oldest :: rest ++ [clock]) = oldest :: rest ++ [clock].
Proof.
  intros E Hk Hb. unfold acquire. rewrite E.
  replace (len (oldest :: rest) >=? max_requests rl) with true
    by (symmetry; rewrite Z.geb_leb; apply Z.leb_le; exact Hk).
  replace (Qlt_bool 0 (inject_Z (time_window rl) - (clock - oldest))) with false.
  2:{ symmetry. apply Qlt_bool_false_iff. lra. }
  split; [reflexivity|]. split.
  - unfold len in *. cbn [length] in *. rewrite length_app. cbn [length]. lia.
  - cbn [evict].
    replace (Qlt_bool (inject_Z (time_window rl)) (clock - oldest)) with false;
      [reflexivity|].
    symmetry. apply Qlt_bool_false_iff. lra.
Qed.

Lemma acquire_overshoots_on_boundary_witness :
  acquire 60 (mkRateLimiter 1 60 [0%Q] 1 10)
    = (Ok tt, mkRateLimiter 1 60 [0; 60]%Q 1 10, 60%Q) /\
  fst (can_make_request 60 (mkRateLimiter 1 60 [0; 60]%Q 1 10)) = false.
Proof.
  destruct (acquire_overshoots_on_boundary 60 (mkRateLimiter 1 60 [0%Q] 1 10) 0 [])
    as (H & _ & _).
  - reflexivity.
  - vm_compute. discriminate.
  - reflexivity.
  - split; [exact H | reflexivity].
Defined.

(** An admission appends the final clock reading to a suffix of the queue. *)
Lemma acquire_ok_shape (clock : Q) (rl : RateLimiter) :
  fst (fst (acquire clock rl)) = Ok tt ->
  exists dropped kept,
    requests rl = (dropped ++ kept)%list /\
    requests (snd (fst (acquire clock rl))) = (kept ++ [snd (acquire clock rl)])%list /\
    (clock <= snd (acquire clock rl))%Q.
Proof.
  unfold acquire.
  destruct (evict_suffix clock (time_window rl) (requests rl)) as (d1 & Heq1 & _).
  destruct (len (evict clock (time_window rl) (requests rl)) >=? max_requests rl).
  - destruct (evict clock (time_window rl) (requests rl)) as [|oldest rest] eqn:E;
      [cbn; discriminate|].
    assert (Hfresh : (clock - oldest <= inject_Z (time_window rl))%Q)
      by exact (evict_head_fresh _ _ _ _ _ E).
    destruct (Qlt_bool 0 (inject_Z (time_window rl) - (clock - oldest))) eqn:Ew;
      cbn [fst snd requests set_requests]; intros _.
    + apply Qlt_bool_iff in Ew.
      set (c' := (clock + (inject_Z (time_window rl) - (clock - oldest) + (1 # 10)))%Q).
      destruct (evict_suffix c' (time_window rl) (oldest :: rest)) as (d2 & Heq2 & _).
      exists (d1 ++ d2)%list, (evict c' (time_window rl) (oldest :: rest)).
      split; [|split; [reflexivity | subst c'; lra]].
      rewrite Heq1, <- app_assoc. f_equal. exact Heq2.
    + exists d1, (oldest :: rest). split; [exact Heq1|]. split; [reflexivity | lra].
  - cbn [fst snd requests set_requests]. intros _.
    exists d1, (evict clock (time_window rl) (requests rl)).
    split; [exact Heq1|]. split; [reflexivity | lra].
Qed.

Lemma StronglySorted_app_inv_r (l1 l2 : list Q) :
  StronglySorted Qle (l1 ++ l2) -> StronglySorted Qle l2.
Proof.
  induction l1 as [|x l1 IH]; [auto|]. cbn. intros H.
  apply StronglySorted_inv in H. apply IH. exact (proj1 H).
Qed.

Lemma StronglySorted_snoc (l : list Q) (x : Q) :
  StronglySorted Qle l -> Forall (fun r => (r <= x)%Q) l ->
  StronglySorted Qle (l ++ [x]).
Proof.
  induction 1 as [|r rest Hs IH Hall]; intros Hle; cbn.
  - repeat constructor.
  - apply List.Forall_cons_iff in Hle. destruct Hle as [Hr Hrest].
    constructor; [exact (IH Hrest)|].
    apply List.Forall_app. split; [exact Hall|]. repeat constructor. exact Hr.
Qed.

(** X6.  Under a clock that never runs backwards the queue of stamps stays
    in non-decreasing order and never holds a stamp from the future: if that
    holds before an admission, it holds after it. *)
Theorem acquire_keeps_queue_sorted (clock : Q) (rl : RateLimiter) :
  StronglySorted Qle (requests rl) ->
  Forall (fun r => (r <= clock)%Q) (requests rl) ->
  StronglySorted Qle (requests (snd (fst (acquire clock rl)))) /\
  Forall (fun r => (r <= snd (acquire clock rl))%Q)
         (requests (snd (fst (acquire clock rl)))).
Proof.
  intros Hs Hle.
  destruct (fst (fst (acquire clock rl))) as [[]|e] eqn:Hr.
  - destruct (acquire_ok_shape clock rl Hr) as (dropped & kept & Heq & Hafter & Hclock).
    rewrite Hafter. rewrite Heq in Hs, Hle.
    apply StronglySorted_app_inv_r in Hs.
    apply List.Forall_app in Hle. destruct Hle as [_ Hkept].
    assert (Hkept' : Forall (fun r => (r <= snd (acquire clock rl))%Q) kept).
    { revert Hkept. apply List.Forall_impl. intros r Hrc. lra. }
    split.
    + apply StronglySorted_snoc; assumption.
    + apply List.Forall_app. split; [exact Hkept'|]. repeat constructor. lra.
  - unfold acquire in *.
    destruct (evict_suffix clock (time_window rl) (requests rl)) as (d1 & Heq1 & _).
    destruct (len (evict clock (time_window rl) (requests rl)) >=? max_requests rl).
    + destruct (evict clock (time_window rl) (requests rl)) as [|oldest rest] eqn:E.
      * cbn [fst snd requests set_requests]. split; constructor.
      * destruct (Qlt_bool 0 _); cbn in Hr; discriminate Hr.
    + cbn in Hr. discriminate Hr.
Qed.

Lemma acquire_keeps_queue_sorted_witness :
  StronglySorted Qle
    (requests (snd (fst (acquire 30 (mkRateLimiter 2 60 [0; 10]%Q 1 10))))).
Proof.
  apply (acquire_keeps_queue_sorted 30 (mkRateLimiter 2 60 [0; 10]%Q 1 10)).
  - repeat constructor; discriminate.
  - repeat constructor; discriminate.
Defined.



(** *** AdaptiveRateLimiter *)

Lemma other_code_step (clock : Q) (code : Z)
    (hdrs : option (gmap string header_value)) (a : AdaptiveRateLimiter) :
  adapts_to (code, hdrs) = false ->
  handle_rate_limit_response clock code hdrs a = (a, clock).
Proof.
  unfold adapts_to, handle_rate_limit_response. cbn [fst].
  intros H. apply orb_false_iff in H. destruct H as [-> ->]. reflexivity.
Qed.

(** X8.  Responses that are neither 429 nor 2xx are invisible to the
    limiter: they change no field, cause no sleep and reset no counter.  A
    run of responses therefore has the same effect as the run with those
    responses removed, so two 429s separated by server errors still count as
    consecutive. *)
Theorem other_codes_are_invisible
    (rs : list (Z * option (gmap string header_value))) (clock : Q)
    (a : AdaptiveRateLimiter) :
  handle_responses clock rs a = handle_responses clock (List.filter adapts_to rs) a.
Proof.
  revert clock a. induction rs as [|[code hdrs] rs IH]; intros clock a; [reflexivity|].
  cbn [List.filter]. destruct (adapts_to (code, hdrs)) eqn:E.
  - cbn [handle_responses].
    destruct (handle_rate_limit_response clock code hdrs a) as [a1 c1]. apply IH.
  - cbn [handle_responses]. rewrite other_code_step by exact E. apply IH.
Qed.

Lemma failure_step_attempts (clock : Q) (hdrs : option (gmap string header_value))
    (a : AdaptiveRateLimiter) :
  recovery_attempts (fst (handle_rate_limit_response clock 429 hdrs a))
    = recovery_attempts a.
Proof.
  unfold handle_rate_limit_response.
  replace (429 =? 429) with true by reflexivity.
  set (a1 := set_counters a 0 (consecutive_rate_limits a + 1) (recovery_attempts a)).
  set (a2 := if consecutive_rate_limits a1 >=? 2 then _ else a1).
  assert (H2 : recovery_attempts a2 = recovery_attempts a).
  { subst a2. destruct (consecutive_rate_limits a1 >=? 2); [|reflexivity].
    destruct (_ <? capacity a1); reflexivity. }
  destruct (headers_truthy hdrs) as [h|]; [|exact H2].
  pose proof (parse_headers_effect clock h a2) as Hp. cbn zeta in Hp.
  destruct Hp as (_ & _ & _ & _ & Hp). congruence.
Qed.

(** What one response does to the recovery budget and, once the budget is
    spent, to the capacity. *)
Lemma step_ratchet (clock : Q) (code : Z) (hdrs : option (gmap string header_value))
    (a : AdaptiveRateLimiter) :
  let a' := fst (handle_rate_limit_response clock code hdrs a) in
  max_recovery_attempts a' = max_recovery_attempts a /\
  recovery_attempts a <= recovery_attempts a' /\
  (recovery_attempts a <= max_recovery_attempts a ->
   recovery_attempts a' <= max_recovery_attempts a) /\
  (max_recovery_attempts a <= recovery_attempts a -> capacity a' <= capacity a).
Proof.
  cbn zeta. destruct (Z.eq_dec code 429) as [-> | Hne].
  - pose proof (failure_step clock hdrs a) as H. cbn zeta in H.
    destruct H as (Hcap & (_ & _ & _ & Hmax) & _).
    rewrite failure_step_attempts. repeat split; lia.
  - destruct (adapts_to (code, hdrs)) eqn:E.
    + unfold adapts_to in E. cbn [fst] in E.
      replace (code =? 429) with false in E by (symmetry; apply Z.eqb_neq; exact Hne).
      cbn [orb] in E. apply andb_true_iff in E. destruct E as [Hlo Hhi].
      apply Z.leb_le in Hlo. apply Z.ltb_lt in Hhi.
      pose proof (success_step clock code hdrs a (conj Hlo Hhi)) as H. cbn zeta in H.
      destruct H as (_ & (_ & _ & _ & Hmax) & [H | H]).
      * destruct H as (_ & _ & Hatt & _ & _ & Hra). repeat split; lia.
      * destruct H as (_ & Hc & _ & Hra). repeat split; lia.
    + rewrite other_code_step by exact E. cbn [fst]. repeat split; lia.
Qed.

(** X9.  Recovery is a ratchet with a lifetime budget.  Over any run of
    responses the count of recovery attempts never goes down and never passes
    [max_recovery_attempts]; and once the budget is spent, no run of
    responses, however many successes it holds, ever raises the capacity
    again. *)
Theorem recovery_budget_is_final
    (rs : list (Z * option (gmap string header_value))) (clock : Q)
    (a : AdaptiveRateLimiter) :
  let a' := fst (handle_responses clock rs a) in
  recovery_attempts a <= recovery_attempts a' /\
  (recovery_attempts a <= max_recovery_attempts a ->
   recovery_attempts a' <= max_recovery_attempts a) /\
  (max_recovery_attempts a <= recovery_attempts a -> capacity a' <= capacity a).
Proof.
  revert clock a. induction rs as [|[code hdrs] rs IH]; intros clock a; cbn zeta.
  - cbn. repeat split; lia.
  - cbn [handle_responses].
    pose proof (step_ratchet clock code hdrs a) as H. cbn zeta in H.
    destruct (handle_rate_limit_response clock code hdrs a) as [a1 c1].
    cbn [fst] in H. destruct H as (Hmax & Hmono & Hbound & Hcap).
    specialize (IH c1 a1). cbn zeta in IH. destruct IH as (IH1 & IH2 & IH3).
    rewrite Hmax in IH2, IH3. repeat split.
    + lia.
    + intros Hle. apply IH2. apply Hbound. exact Hle.
    + intros Hge. specialize (Hcap Hge).
      assert (Hle : max_recovery_attempts a <= recovery_attempts a1) by lia.
      specialize (IH3 Hle). lia.
Qed.

Lemma recovery_budget_is_final_witness :
  capacity (fst (handle_responses 0 (repeat (200, None) 40)
                   (mkAdaptive (mkRateLimiter 10 60 [] 6 10) 20 (8 # 10) 0 0 10 3 3)))
    <= 10.
Proof.
  destruct (recovery_budget_is_final (repeat (200, None) 40) 0
              (mkAdaptive (mkRateLimiter 10 60 [] 6 10) 20 (8 # 10) 0 0 10 3 3))
    as (_ & _ & H).
  apply H. cbn. lia.
Defined.

Lemma parse_headers_clock (clock : Q) (h : gmap string header_value)
    (a : AdaptiveRateLimiter) :
  let c' := snd (parse_rate_limit_headers clock h a) in
  c' = clock \/
  exists r, first_int remaining_headers h = Some 0 /\
            first_int reset_headers h = Some r /\
            (clock < inject_Z r)%Q /\ (inject_Z r <= clock + 3600)%Q /\
            (c' == inject_Z r + 1)%Q.
Proof.
  cbn zeta. unfold parse_rate_limit_headers.
  destruct (first_int remaining_headers h) as [[| |]|];
    destruct (first_int reset_headers h) as [r|]; cbn [snd]; try (left; reflexivity).
  destruct (truthy (Some r)); [|left; reflexivity].
  destruct (Qlt_bool 0 (inject_Z r - clock) && Qle_bool (inject_Z r - clock) 3600) eqn:E;
    [|left; reflexivity].
  apply andb_true_iff in E. destruct E as [E1 E2].
  apply Qlt_bool_iff in E1. apply Qle_bool_iff in E2.
  right. exists r. cbn [snd]. repeat split; try reflexivity; lra.
Qed.

(** X10.  Handling a response never turns the clock back and never sleeps
    for more than an hour and a second.  It sleeps only for a 429 response
    whose headers report no requests remaining and a reset time within the
    coming hour, and then it wakes one second after that reset time. *)
Theorem response_sleep_is_bounded (clock : Q) (code : Z)
    (hdrs : option (gmap string header_value)) (a : AdaptiveRateLimiter) :
  let c' := snd (handle_rate_limit_response clock code hdrs a) in
  (clock <= c')%Q /\ (c' <= clock + 3601)%Q /\
  (c' = clock \/
   code = 429 /\
   exists h r, hdrs = Some h /\
               first_int remaining_headers h = Some 0 /\
               first_int reset_headers h = Some r /\
               (c' == inject_Z r + 1)%Q).
Proof.
  cbn zeta. unfold handle_rate_limit_response.
  destruct (code =? 429) eqn:Ec.
  - apply Z.eqb_eq in Ec. subst code.
    set (a2 := if _ >=? 2 then _ else _).
    destruct hdrs as [h|]; cbn [headers_truthy].
    + destruct (decide (h = ∅)); cbn [snd]; [repeat split; try lra; left; reflexivity|].
      pose proof (parse_headers_clock clock h a2) as Hp. cbn zeta in Hp.
      destruct Hp as [-> | (r & Hrem & Hres & Hlo & Hhi & Heq)].
      * repeat split; try lra. left. reflexivity.
      * repeat split; try lra. right. split; [reflexivity|].
        exists h, r. repeat split; assumption.
    + cbn [snd]. repeat split; try lra. left. reflexivity.
  - destruct ((200 <=? code) && (code <? 300)).
    + destruct (_ && _ && _); cbn [snd]; repeat split; try lra; left; reflexivity.
    + cbn [snd]. repeat split; try lra. left. reflexivity.
Qed.

Lemma headers_truthy_some (h : gmap string header_value) :
  h <> ∅ -> headers_truthy (Some h) = Some h.
Proof. intros H. cbn. destruct (decide (h = ∅)); [contradiction | reflexivity]. Qed.

(** X11.  A 429 response with headers is the same response without headers
    followed by a clamp to the server's declared limit: with a non-zero limit
    [l] under the first parseable limit header, the capacity becomes the
    smaller of [l] and what the headerless response leaves -- also when [l]
    is negative; a limit of zero, or none, changes nothing. *)
Theorem server_limit_clamps (clock : Q) (h : gmap string header_value)
    (a : AdaptiveRateLimiter) :
  h <> ∅ ->
  let bare := fst (handle_rate_limit_response clock 429 None a) in
  let a' := fst (handle_rate_limit_response clock 429 (Some h) a) in
  match first_int limit_headers h with
  | Some l => if l =? 0 then capacity a' = capacity bare
              else capacity a' = Z.min l (capacity bare)
  | None => capacity a' = capacity bare
  end.
Proof.
  intros Hne. cbn zeta. unfold handle_rate_limit_response.
  replace (429 =? 429) with true by reflexivity.
  rewrite headers_truthy_some by exact Hne. cbn [headers_truthy fst].
  set (a2 := if _ >=? 2 then _ else _).
  unfold parse_rate_limit_headers.
  set (a1 := match first_int limit_headers h with
             | Some l => if truthy (first_int limit_headers h) && (l <? capacity a2)
                         then set_base a2 (set_max_requests (base a2) l) else a2
             | None => a2
             end).
  assert (Hfst : forall x y : AdaptiveRateLimiter * Q,
             fst (match first_int remaining_headers h, first_int reset_headers h with
                  | Some 0, Some r =>
                      if truthy (first_int reset_headers h)
                      then if Qlt_bool 0 (inject_Z r - clock)
                              && Qle_bool (inject_Z r - clock) 3600
                           then (a1, (clock + (inject_Z r - clock + 1))%Q)
                           else (a1, clock)
                      else (a1, clock)
                  | _, _ => (a1, clock)
                  end) = a1).
  { intros _ _.
    destruct (first_int remaining_headers h) as [[| |]|];
      destruct (first_int reset_headers h) as [r|]; try reflexivity.
    destruct (truthy (Some r)); [|reflexivity].
    destruct (_ && _); reflexivity. }
  rewrite (Hfst (a1, clock) (a1, clock)). subst a1.
  destruct (first_int limit_headers h) as [l|]; [|reflexivity].
  cbn [truthy]. destruct (l =? 0) eqn:E0; cbn [negb andb]; [reflexivity|].
  destruct (l <? capacity a2) eqn:El.
  - apply Z.ltb_lt in El. cbn. lia.
  - apply Z.ltb_ge in El. lia.
Qed.

Lemma server_limit_clamps_witness :
  capacity (fst (handle_rate_limit_response 0 429
                   (Some (<["x-ratelimit-limit" := HInt 3]> ∅))
                   (mkAdaptive (mkRateLimiter 8 60 [] 2 10) 8 (8 # 10) 0 0 10 3 0)))
    = 3.
Proof.
  pose proof (server_limit_clamps 0 (<["x-ratelimit-limit" := HInt 3]> ∅)
                (mkAdaptive (mkRateLimiter 8 60 [] 2 10) 8 (8 # 10) 0 0 10 3 0)) as H.
  cbn zeta in H.
  replace (first_int limit_headers (<["x-ratelimit-limit" := HInt 3]> ∅))
    with (Some 3) in H by (vm_compute; reflexivity).
  cbn [Z.eqb] in H. rewrite H.
  - reflexivity.
  - intros Hempty.
    assert (Hl : (<["x-ratelimit-limit" := HInt 3]> (∅ : gmap string header_value))
                   !! "x-ratelimit-limit" = Some (HInt 3)) by apply lookup_insert_eq.
    rewrite Hempty, lookup_empty in Hl. discriminate.
Defined.

(** X12.  The constructor clamps the adaptation factor into [0.1, 1.0]: a
    factor in that range is stored as given, a smaller one becomes 0.1 and a
    larger one becomes 1.0 (equalities of rational values). *)
Theorem adaptation_factor_clamped (m w : Z) (f : Q) (a0 : AdaptiveRateLimiter) :
  adaptive_init m w f = Ok a0 ->
  ((1 # 10) <= adaptation_factor a0)%Q /\ (adaptation_factor a0 <= 1)%Q /\
  (((1 # 10) <= f)%Q -> (f <= 1)%Q -> (adaptation_factor a0 == f)%Q) /\
  ((f < 1 # 10)%Q -> (adaptation_factor a0 == 1 # 10)%Q) /\
  ((1 < f)%Q -> (adaptation_factor a0 == 1)%Q).
Proof.
  intros Hinit. destruct (adaptive_init_fresh _ _ _ _ Hinit) as (_ & _ & ->).
  unfold qmax, qmin.
  destruct (Qlt_bool f 1) eqn:E1.
  - apply Qlt_bool_iff in E1.
    destruct (Qlt_bool (1 # 10) f) eqn:E2.
    + apply Qlt_bool_iff in E2. repeat split; intros; lra.
    + apply Qlt_bool_false_iff in E2. repeat split; intros; lra.
  - apply Qlt_bool_false_iff in E1.
    replace (Qlt_bool (1 # 10) 1) with true by reflexivity.
    repeat split; intros; lra.
Qed.

Lemma adaptation_factor_clamped_witness :
  (adaptation_factor (mkAdaptive (mkRateLimiter 8 60 [] 2 10) 8 (1 # 10) 0 0 10 3 0)
   == 1 # 10)%Q.
Proof.
  destruct (adaptation_factor_clamped 8 60 (1 # 100)
              (mkAdaptive (mkRateLimiter 8 60 [] 2 10) 8 (1 # 10) 0 0 10 3 0))
    as (_ & _ & _ & H & _); [reflexivity|].
  apply H. reflexivity.
Defined.

(** *** BotActionLimiter *)

(** X13.  [can_perform_action] answers true exactly when the overall
    limiter has headroom and the limiter of the action type, if there is one,
    has headroom too; a saturated overall limiter therefore blocks every
    action type, whatever its own limiter says. *)
Theorem can_perform_action_iff (now : Q) (t : string) (b : BotActionLimiter) :
  fst (can_perform_action now t b) = true <->
  fst (can_make_request now (base (overall_limiter b))) = true /\
  (forall l, limiters b !! t = Some l ->
             fst (can_make_request now (rate_part l)) = true).
Proof.
  unfold can_perform_action.
  destruct (can_make_request now (base (overall_limiter b))) as [ok rl] eqn:Eo.
  cbn [fst]. destruct ok; cbn [negb].
  - cbn [set_overall_base limiters].
    destruct (limiters b !! t) as [l|].
    + destruct (can_make_request now (rate_part l)) as [ok2 rl2] eqn:E2. cbn [fst].
      split.
      * intros ->. split; [reflexivity|]. intros l' [= <-]. rewrite E2. reflexivity.
      * intros [_ H]. specialize (H l eq_refl). rewrite E2 in H. exact H.
    + cbn [fst]. split; [|reflexivity]. intros _. split; [reflexivity|]. discriminate.
  - cbn [fst]. split; [discriminate | intros [H _]; discriminate H].
Qed.

(** X14.  [acquire] charges the overall limiter first and exactly once,
    for every action type: the overall limiter afterwards is the one its own
    [acquire] leaves, also when the per-type limiter then waits or raises, and
    the per-type limiter is entered at the clock reading the overall limiter
    finished with. *)
Theorem bot_acquire_charges_overall_first (clock : Q) (t : string)
    (b : BotActionLimiter) :
  let overall := acquire clock (base (overall_limiter b)) in
  overall_limiter (snd (fst (bot_acquire clock t b)))
    = set_base (overall_limiter b) (snd (fst overall)) /\
  (fst (fst overall) = Raise IndexError ->
   bot_acquire clock t b
     = (Raise IndexError, set_overall_base b (snd (fst overall)), snd overall)) /\
  (fst (fst overall) = Ok tt ->
   forall l, limiters b !! t = Some l ->
     fst (fst (bot_acquire clock t b)) = fst (fst (acquire (snd overall) (rate_part l))) /\
     snd (bot_acquire clock t b) = snd (acquire (snd overall) (rate_part l)) /\
     limiters (snd (fst (bot_acquire clock t b))) !! t
       = Some (with_rate_part l (snd (fst (acquire (snd overall) (rate_part l)))))).
Proof.
  cbn zeta. unfold bot_acquire.
  destruct (acquire clock (base (overall_limiter b))) as [[r rl] c1].
  cbn [fst snd]. destruct r as [[]|e].
  - cbn [set_overall_base limiters overall_limiter].
    split; [|split].
    + destruct (limiters b !! t) as [l|]; [|reflexivity].
      destruct (acquire c1 (rate_part l)) as [[r2 rl2] c2]. reflexivity.
    + discriminate.
    + intros _ l Hl. rewrite Hl.
      destruct (acquire c1 (rate_part l)) as [[r2 rl2] c2]. cbn [fst snd limiters].
      split; [reflexivity|]. split; [reflexivity|]. apply lookup_insert_eq.
  - split; [reflexivity|]. split; [|discriminate].
    intros [= ->]. reflexivity.
Qed.

Lemma bot_acquire_charges_overall_first_witness :
  exists b0,
    bot_limiter_init = Ok b0 /\
    requests (base (overall_limiter (snd (fst (bot_acquire 7 "post" b0))))) = [7%Q] /\
    fst (fst (bot_acquire 7 "post" b0)) = Ok tt.
Proof.
  destruct bot_limiter_init as [b0|e] eqn:Hinit; [|discriminate Hinit].
  exists b0. split; [reflexivity|].
  destruct (bot_limiter_init_eq _ Hinit) as [Hlim Hov].
  destruct (bot_acquire_charges_overall_first 7 "post" b0) as (H1 & _ & H3).
  rewrite H1. rewrite Hov in *. split; [reflexivity|].
  assert (Hok : fst (fst (acquire 7 (base
            (mkAdaptive (mkRateLimiter 8 60 [] 2 10) 8 (8 # 10) 0 0 10 3 0)))) = Ok tt)
    by reflexivity.
  destruct (H3 Hok (Plain (mkRateLimiter 2 60 [] 1 10))) as (H & _).
  - rewrite Hlim. apply lookup_insert_eq.
  - rewrite H. reflexivity.
Defined.

End LimiterExtra.

(** ** generator.py: further properties of the scanner *)

Module ScannerExtra.

Import Scanner PyFacts ScannerFacts.

Lemma keyword_score_nonneg (kws : list string) (c : string) : 0 <= keyword_score kws c.
Proof. unfold keyword_score, count_if, len. lia. Qed.

Lemma qmin_one_bounds (x : Q) : (0 <= x)%Q -> (0 <= qmin 1 x)%Q /\ (qmin 1 x <= 1)%Q.
Proof.
  intros Hx. unfold qmin. destruct (Qlt_bool x 1) eqn:E.
  - apply Qlt_bool_iff in E. lra.
  - lra.
Qed.

Lemma qmin_one_pos (x : Q) : (0 < x)%Q -> (0 < qmin 1 x)%Q.
Proof.
  intros Hx. unfold qmin. destruct (Qlt_bool x 1); lra.
Qed.

Lemma inject_Z_div_nonneg (z : Z) (d : positive) :
  0 <= z -> (0 <= inject_Z z / (Z.pos d # 1))%Q.
Proof.
  intros Hz. unfold Qdiv, Qmult, Qinv, Qle, inject_Z. cbn. nia.
Qed.

Lemma inject_Z_div_pos (z : Z) (d : positive) :
  0 < z -> (0 < inject_Z z / (Z.pos d # 1))%Q.
Proof.
  intros Hz. unfold Qdiv, Qmult, Qinv, Qlt, inject_Z. cbn. nia.
Qed.

(** X15.  Whatever the content and the keyword tables, a sentiment the
    analysis returns has a type among positive, negative and neutral and a
    strength between 0 and 1; it names a candidate -- victor or marina -- only
    when its type is positive; and its strength is 0 exactly when its type is
    neutral. *)
Theorem sentiment_is_well_formed (self : EnvironmentalScanner) (content : string)
    (s : Sentiment) :
  analyze_post_sentiment self content = Ok s ->
  (0 <= strength s)%Q /\ (strength s <= 1)%Q /\
  (sentiment_type s = "positive" \/ sentiment_type s = "negative" \/
   sentiment_type s = "neutral") /\
  (forall c, candidate s = Some c ->
             sentiment_type s = "positive" /\ (c = "victor" \/ c = "marina")) /\
  ((strength s == 0)%Q <-> sentiment_type s = "neutral").
Proof.
  unfold analyze_post_sentiment, getitem.
  destruct (political_keywords self !! "victor") as [kv|]; [|discriminate].
  destruct (political_keywords self !! "marina") as [km|]; [|discriminate].
  destruct (sentiment_keywords self !! "positive") as [kp|]; [|discriminate].
  destruct (sentiment_keywords self !! "negative") as [kn|]; [|discriminate].
  set (v := keyword_score kv (lower content)).
  set (m := keyword_score km (lower content)).
  set (p := keyword_score kp (lower content)).
  set (n := keyword_score kn (lower content)).
  pose proof (keyword_score_nonneg kv (lower content)) as Hv. fold v in Hv.
  pose proof (keyword_score_nonneg km (lower content)) as Hm. fold m in Hm.
  pose proof (keyword_score_nonneg kp (lower content)) as Hp. fold p in Hp.
  pose proof (keyword_score_nonneg kn (lower content)) as Hn. fold n in Hn.
  destruct ((m <? v) && (n <? p)) eqn:E1.
  { bool_to_prop'. intros [= <-]. cbn [strength sentiment_type candidate].
    destruct (qmin_one_bounds (inject_Z (v + p) / 5)) as [Hlo Hhi];
      [apply inject_Z_div_nonneg; lia|].
    pose proof (qmin_one_pos (inject_Z (v + p) / 5)
                  ltac:(apply inject_Z_div_pos; lia)) as Hpos.
    split; [exact Hlo|]. split; [exact Hhi|]. split; [auto|]. split.
    - intros c [= <-]. auto.
    - split; [|discriminate]. intros Hz. rewrite Hz in Hpos. exfalso. lra. }
  destruct ((v <? m) && (n <? p)) eqn:E2.
  { bool_to_prop'. intros [= <-]. cbn [strength sentiment_type candidate].
    destruct (qmin_one_bounds (inject_Z (m + p) / 5)) as [Hlo Hhi];
      [apply inject_Z_div_nonneg; lia|].
    pose proof (qmin_one_pos (inject_Z (m + p) / 5)
                  ltac:(apply inject_Z_div_pos; lia)) as Hpos.
    split; [exact Hlo|]. split; [exact Hhi|]. split; [auto|]. split.
    - intros c [= <-]. auto.
    - split; [|discriminate]. intros Hz. rewrite Hz in Hpos. exfalso. lra. }
  destruct (p <? n) eqn:E3.
  { bool_to_prop'. intros [= <-]. cbn [strength sentiment_type candidate].
    destruct (qmin_one_bounds (inject_Z n / 3)) as [Hlo Hhi];
      [apply inject_Z_div_nonneg; lia|].
    pose proof (qmin_one_pos (inject_Z n / 3)
                  ltac:(apply inject_Z_div_pos; lia)) as Hpos.
    split; [exact Hlo|]. split; [exact Hhi|]. split; [auto|]. split.
    - intros c. discriminate.
    - split; [|discriminate]. intros Hz. rewrite Hz in Hpos. exfalso. lra. }
  intros [= <-]. cbn [strength sentiment_type candidate].
  split; [lra|]. split; [lra|]. split; [auto|]. split.
  - intros c. discriminate.
  - split; reflexivity.
Qed.

Lemma sentiment_is_well_formed_witness :
  exists s,
    analyze_post_sentiment Scanner.init "Marina's climate action is amazing" = Ok s /\
    (0 <= strength s)%Q /\ (strength s <= 1)%Q.
Proof.
  destruct (analyze_post_sentiment Scanner.init "Marina's climate action is amazing")
    as [s|e] eqn:E; [|vm_compute in E; discriminate E].
  exists s. split; [reflexivity|].
  destruct (sentiment_is_well_formed Scanner.init
              "Marina's climate action is amazing" s E) as (H0 & H1 & _).
  split; assumption.
Defined.

(** *** Case *)

Lemma lower_ascii_idempotent (c : ascii) : lower_ascii (lower_ascii c) = lower_ascii c.
Proof.
  destruct c as [[] [] [] [] [] [] [] []]; vm_compute; reflexivity.
Qed.

Lemma lower_idempotent (s : string) : lower (lower s) = lower s.
Proof.
  induction s as [|c s IH]; [reflexivity|]. cbn [lower].
  rewrite lower_ascii_idempotent, IH. reflexivity.
Qed.

Lemma lower_fixed_prefix (k s : string) :
  lower s = s -> String.prefix k s = true -> lower k = k.
Proof.
  revert s. induction k as [|a k IH]; intros s Hs Hp; [reflexivity|].
  destruct s as [|b s]; [discriminate Hp|]. cbn [String.prefix] in Hp.
  destruct (ascii_dec a b) as [-> | Hne]; [|discriminate Hp].
  cbn [lower] in Hs |- *. injection Hs as Hb Hs'.
  rewrite Hb. f_equal. exact (IH s Hs' Hp).
Qed.

Lemma lower_fixed_contains (k s : string) :
  lower s = s -> contains k s = true -> lower k = k.
Proof.
  induction s as [|b s IH]; intros Hs Hc; cbn [contains] in Hc.
  - apply orb_true_iff in Hc. destruct Hc as [Hp | Hf]; [|discriminate Hf].
    exact (lower_fixed_prefix _ _ Hs Hp).
  - apply orb_true_iff in Hc. destruct Hc as [Hp | Hc].
    + exact (lower_fixed_prefix _ _ Hs Hp).
    + cbn [lower] in Hs. injection Hs as _ Hs'. exact (IH Hs' Hc).
Qed.

(** X16.  The analysis sees the content only through its lower-cased form:
    lower-casing the content beforehand changes neither the sentiment nor the
    political classification.  The keywords themselves are compared as they
    stand, so a keyword holding an upper-case ASCII letter matches no content
    at all. *)
Theorem analysis_is_case_insensitive (self : EnvironmentalScanner) (content : string) :
  analyze_post_sentiment self (lower content) = analyze_post_sentiment self content /\
  is_political_content self (lower content) = is_political_content self content /\
  (forall keyword, lower keyword <> keyword ->
                   contains keyword (lower content) = false).
Proof.
  split; [|split].
  - unfold analyze_post_sentiment. rewrite lower_idempotent. reflexivity.
  - unfold is_political_content. rewrite lower_idempotent. reflexivity.
  - intros keyword Hk. apply not_true_iff_false. intros Hc. apply Hk.
    exact (lower_fixed_contains _ _ (lower_idempotent content) Hc).
Qed.

Lemma analysis_is_case_insensitive_witness :
  contains "Victor" (lower "Victor Hawthorne for mayor") = false.
Proof.
  destruct (analysis_is_case_insensitive Scanner.init "Victor Hawthorne for mayor")
    as (_ & _ & H).
  apply H. discriminate.
Defined.

(** *** Agreement of the two classifiers *)

Lemma count_if_pos_exists {A : Type} (f : A -> bool) (l : list A) :
  0 < count_if f l -> exists x, In x l /\ f x = true.
Proof.
  unfold count_if, len. intros H.
  destruct (List.filter f l) as [|x rest] eqn:E; [cbn in H; lia|].
  exists x. apply filter_In. rewrite E. left. reflexivity.
Qed.

Lemma political_keyword_hit (self : EnvironmentalScanner) (content key : string)
    (kws : list string) :
  political_keywords self !! key = Some kws ->
  0 < keyword_score kws (lower content) ->
  is_political_content self content = true.
Proof.
  intros Hk Hscore. unfold keyword_score in Hscore.
  apply count_if_pos_exists in Hscore. destruct Hscore as (kw & Hin & Hhit).
  unfold is_political_content. apply existsb_exists. exists kw. split; [|exact Hhit].
  apply in_concat. exists kws. split; [|exact Hin].
  apply in_map_iff. exists (key, kws). split; [reflexivity|].
  apply list_elem_of_In. apply elem_of_map_to_list. exact Hk.
Qed.

(** X17.  The two classifiers agree where they must: whenever the sentiment
    analysis attributes a post to a candidate, [_is_political_content] calls
    the same post political. *)
Theorem candidate_implies_political (self : EnvironmentalScanner) (content : string)
    (s : Sentiment) (c : string) :
  analyze_post_sentiment self content = Ok s ->
  candidate s = Some c ->
  is_political_content self content = true.
Proof.
  unfold analyze_post_sentiment, getitem.
  destruct (political_keywords self !! "victor") as [kv|] eqn:Hv; [|discriminate].
  destruct (political_keywords self !! "marina") as [km|] eqn:Hm; [|discriminate].
  destruct (sentiment_keywords self !! "positive") as [kp|]; [|discriminate].
  destruct (sentiment_keywords self !! "negative") as [kn|]; [|discriminate].
  set (v := keyword_score kv (lower content)).
  set (m := keyword_score km (lower content)).
  set (p := keyword_score kp (lower content)).
  set (n := keyword_score kn (lower content)).
  pose proof (keyword_score_nonneg kv (lower content)) as Hv0. fold v in Hv0.
  pose proof (keyword_score_nonneg km (lower content)) as Hm0. fold m in Hm0.
  destruct ((m <? v) && (n <? p)) eqn:E1.
  { bool_to_prop'. intros _ _.
    apply (political_keyword_hit self content "victor" kv Hv). fold v. lia. }
  destruct ((v <? m) && (n <? p)) eqn:E2.
  { bool_to_prop'. intros _ _.
    apply (political_keyword_hit self content "marina" km Hm). fold m. lia. }
  destruct (p <? n); intros Heq Hc; injection Heq as <-; discriminate Hc.
Qed.

Lemma candidate_implies_political_witness :
  is_political_content Scanner.init "Victor Hawthorne's economic growth plan is great"
    = true.
Proof.
  apply (candidate_implies_political Scanner.init
           "Victor Hawthorne's economic growth plan is great"
           (mkSentiment (Some "victor") "positive" 1) "victor").
  - vm_compute. reflexivity.
  - reflexivity.
Defined.

End ScannerExtra.

(** ** generator.py: further properties of the strategy engine *)

Module StrategyExtra.

Import Strategy PyFacts StrategyFacts.

(** *** The recent-action history *)

Lemma check_recent_frame (now : Q) (self : StrategyEngine) (rng : list Q) :
  recent_actions (snd (fst (check_coordination_objectives now self rng)))
    = recent_actions self /\
  strategy_weights (snd (fst (check_coordination_objectives now self rng)))
    = strategy_weights self.
Proof.
  unfold check_coordination_objectives.
  destruct (coordination_objectives self) as [|o rest]; [split; reflexivity|].
  set (best := max_by _ o rest).
  destruct (can_execute_objective_frame now best self) as [c Hc].
  destruct (can_execute_objective now best self) as [ok s1].
  cbn [snd] in Hc. subst s1. destruct ok; [|split; reflexivity].
  destruct (convert_objective_to_action _ best rng) as [[action|e] g']; split; reflexivity.
Qed.

Lemma deque_append_length {A : Type} (d : list A) (x : A) :
  (length d <= 20)%nat -> (length (deque_append 20 d x) <= 20)%nat.
Proof.
  intros H. unfold deque_append.
  destruct (Nat.leb_spec 20 (length d)); rewrite length_app; cbn [length].
  - destruct d; cbn [List.tl length] in *; lia.
  - lia.
Qed.

(** X18.  The recent-action history never outgrows its bound of 20 entries.
    An action taken from a coordination objective is returned without being
    recorded, so the history -- and with it the political ratio of the next
    decision -- does not see it. *)
Theorem history_is_bounded (phase : string) (bot_stats : gmap string Z) (now : Q)
    (self : StrategyEngine) (rng : list Q) :
  let res := get_next_action phase bot_stats now self rng in
  ((length (recent_actions self) <= 20)%nat ->
   (length (recent_actions (snd (fst res))) <= 20)%nat) /\
  (forall action,
      fst (fst (check_coordination_objectives now
                  (update_performance_metrics bot_stats self) rng)) = Ok (Some action) ->
      fst (fst res) = Ok action /\
      recent_actions (snd (fst res)) = recent_actions self).
Proof.
  cbn zeta. unfold get_next_action.
  destruct (update_performance_metrics_frame bot_stats self) as [w ->].
  pose proof (check_recent_frame now (set_weights self w) rng) as [Hframe _].
  destruct (check_coordination_objectives now (set_weights self w) rng)
    as [[r s2] g]. cbn [fst snd] in Hframe |- *.
  cbn [recent_actions set_weights] in Hframe.
  split.
  - intros Hlen. destruct r as [[action|]|e]; cbn [fst snd]; try (rewrite Hframe; exact Hlen).
    destruct ((if String.eqb phase "audience_building"
               then get_audience_building_action s2
               else get_political_influence_action s2) g) as [[a|e] g'];
      cbn [fst snd]; [|rewrite Hframe; exact Hlen].
    cbn [recent_actions set_recent_actions]. apply deque_append_length.
    rewrite Hframe. exact Hlen.
  - intros action [= ->]. cbn [fst snd]. split; [reflexivity | exact Hframe].
Qed.

Lemma history_is_bounded_witness :
  (length (recent_actions (snd (fst
     (get_next_action "audience_building" ∅ 0
        (Strategy.init "support_marina" "townie" (mkPersona None None None))
        [1 # 2; 1 # 2])))) <= 20)%nat.
Proof.
  destruct (history_is_bounded "audience_building" ∅ 0
              (Strategy.init "support_marina" "townie" (mkPersona None None None))
              [1 # 2; 1 # 2]) as [H _].
  apply H. cbn. lia.
Defined.

(** *** Weight adaptation *)

Lemma update_metrics_boost (bot_stats : gmap string Z) (self : StrategyEngine) :
  stat bot_stats "political_posts" = 0 ->
  (2 # 10 < political_ratio (content_strategy self))%Q ->
  update_performance_metrics bot_stats self
    = set_weights self
        (mkWeights (post_creation (strategy_weights self) * (11 # 10))
                   (engagement (strategy_weights self))
                   (trending_participation (strategy_weights self))
                   (npc_targeting (strategy_weights self))).
Proof.
  intros Hstat Ht. unfold update_performance_metrics. rewrite Hstat.
  set (total := inject_Z (Z.max 1 (stat bot_stats "posts_created"))).
  assert (Hzero : (inject_Z 0 / total == 0)%Q).
  { unfold Qdiv. apply Qmult_0_l. }
  replace (Qlt_bool (2 # 10)
             (Qabs (inject_Z 0 / total - political_ratio (content_strategy self))))
    with true.
  2:{ symmetry. apply Qlt_bool_iff.
      rewrite Qabs_neg by (rewrite Hzero; lra). rewrite Hzero. lra. }
  replace (Qlt_bool (inject_Z 0 / total) (political_ratio (content_strategy self)))
    with true.
  2:{ symmetry. apply Qlt_bool_iff. rewrite Hzero. lra. }
  reflexivity.
Qed.

(** X19.  When the statistics handed to [get_next_action] report no
    political posts -- as they do when the key is missing -- and the target
    ratio is above 0.2, every call multiplies the [post_creation] weight by
    1.1 and leaves the other three weights alone, whatever the phase, the
    objectives, the random tape and the outcome of the call.  Nothing caps
    it: after [n] rounds of metric updates the weight is its initial value
    times [1.1 ^ n]. *)
Theorem post_creation_weight_drifts (phase : string) (bot_stats : gmap string Z)
    (now : Q) (self : StrategyEngine) (rng : list Q) :
  stat bot_stats "political_posts" = 0 ->
  (2 # 10 < political_ratio (content_strategy self))%Q ->
  strategy_weights (snd (fst (get_next_action phase bot_stats now self rng)))
    = mkWeights (post_creation (strategy_weights self) * (11 # 10))
                (engagement (strategy_weights self))
                (trending_participation (strategy_weights self))
                (npc_targeting (strategy_weights self)) /\
  forall n : nat,
    (post_creation (strategy_weights
                      (Nat.iter n (update_performance_metrics bot_stats) self))
     == post_creation (strategy_weights self) * (11 # 10) ^ Z.of_nat n)%Q.
Proof.
  intros Hstat Ht. split.
  - unfold get_next_action. rewrite update_metrics_boost by assumption.
    set (self1 := set_weights self _).
    pose proof (check_recent_frame now self1 rng) as [_ Hw].
    destruct (check_coordination_objectives now self1 rng) as [[r s2] g].
    cbn [fst snd] in Hw.
    destruct r as [[action|]|e]; cbn [fst snd]; try exact Hw.
    destruct ((if String.eqb phase "audience_building"
               then get_audience_building_action s2
               else get_political_influence_action s2) g) as [[a|e] g'];
      cbn [fst snd]; exact Hw.
  - intros n.
    assert (Hinv : political_ratio (content_strategy
                     (Nat.iter n (update_performance_metrics bot_stats) self))
                   = political_ratio (content_strategy self) /\
                   (post_creation (strategy_weights
                      (Nat.iter n (update_performance_metrics bot_stats) self))
                    == post_creation (strategy_weights self) * (11 # 10) ^ Z.of_nat n)%Q).
    { induction n as [|n [IHr IHw]].
      - change (Nat.iter 0 (update_performance_metrics bot_stats) self) with self.
        split; [reflexivity|].
        change ((11 # 10) ^ Z.of_nat 0)%Q with 1%Q. rewrite Qmult_1_r. reflexivity.
      - rewrite !Nat.iter_succ.
        rewrite update_metrics_boost by (try assumption; rewrite IHr; exact Ht).
        cbn [content_strategy strategy_weights set_weights post_creation].
        split; [exact IHr|]. rewrite IHw.
        rewrite Nat2Z.inj_succ, <- Z.add_1_r.
        rewrite Qpower_plus by discriminate.
        change ((11 # 10) ^ 1)%Q with (11 # 10)%Q. rewrite Qmult_assoc. reflexivity. }
    exact (proj2 Hinv).
Qed.

Lemma post_creation_weight_drifts_witness :
  strategy_weights (snd (fst
    (get_next_action "political_influence" ∅ 0
       (Strategy.init "support_victor" "townie" (mkPersona None None None)) [])))
  = mkWeights ((5 # 10) * (11 # 10)) (3 # 10) (2 # 10) (1 # 10).
Proof.
  destruct (post_creation_weight_drifts "political_influence" ∅ 0
              (Strategy.init "support_victor" "townie" (mkPersona None None None)) [])
    as [H _]; [reflexivity | reflexivity |].
  exact H.
Defined.

(** *** Coordination objectives *)

Lemma max_by_spec {A : Type} (key : A -> Z) (rest : list A) (best : A) :
  In (max_by key best rest) (best :: rest) /\
  forall x, In x (best :: rest) -> key x <= key (max_by key best rest).
Proof.
  revert best. induction rest as [|y rest IH]; intros best; cbn [max_by].
  - split; [left; reflexivity|]. intros x [<- | []]. lia.
  - destruct (IH (if key best <? key y then y else best)) as [Hin Hmax]. split.
    + destruct Hin as [Heq | Hin]; [|right; right; exact Hin].
      rewrite <- Heq. destruct (key best <? key y); [right; left | left]; reflexivity.
    + intros x Hx.
      assert (Hb : key best <= key (if key best <? key y then y else best) /\
                   key y <= key (if key best <? key y then y else best)).
      { destruct (key best <? key y) eqn:E;
          [apply Z.ltb_lt in E | apply Z.ltb_ge in E]; lia. }
      pose proof (Hmax _ (or_introl eq_refl)) as H0.
      destruct Hx as [<- | [<- | Hx]]; [lia | lia |].
      apply Hmax. right. exact Hx.
Qed.

Lemma remove_first_perm (x : Objective) (l : list Objective) :
  In x l -> Permutation l (x :: remove_first x l).
Proof.
  induction l as [|y l IH]; [intros []|]. intros Hin. cbn [remove_first].
  destruct (decide (y = x)) as [-> | Hne]; [reflexivity|].
  destruct Hin as [Heq | Hin]; [congruence|].
  rewrite perm_swap. constructor. exact (IH Hin).
Qed.

(** X20.  A coordination check hands out at most one objective and never
    loses track of the others.  When it returns an action, the objective it
    came from had the greatest priority score among those pending and was
    removed, the remaining objectives being exactly the others; when it
    returns nothing, the pending objectives are untouched -- in particular a
    blocked top-priority objective holds back all executable ones below it. *)
Theorem objective_consumed_once (now : Q) (self : StrategyEngine) (rng : list Q) :
  let res := check_coordination_objectives now self rng in
  (forall action,
      fst (fst res) = Ok (Some action) ->
      exists o,
        Permutation (coordination_objectives self)
                    (o :: coordination_objectives (snd (fst res))) /\
        (forall o', In o' (coordination_objectives self) ->
                    get_priority_score (get (priority o') "low")
                    <= get_priority_score (get (priority o) "low")) /\
        fst (can_execute_objective now o self) = true) /\
  (fst (fst res) = Ok None ->
   coordination_objectives (snd (fst res)) = coordination_objectives self).
Proof.
  cbn zeta. unfold check_coordination_objectives.
  destruct (coordination_objectives self) as [|o rest] eqn:Hobjs.
  - cbn [fst snd]. split; [discriminate|]. intros _. exact Hobjs.
  - set (score := fun x => get_priority_score (get (priority x) "low")).
    set (best := max_by score o rest).
    destruct (max_by_spec score rest o) as [Hin Hmax]. fold best in Hin, Hmax.
    destruct (can_execute_objective_frame now best self) as [c Hc].
    destruct (can_execute_objective now best self) as [ok s1] eqn:Ecan.
    cbn [snd] in Hc. subst s1. destruct ok.
    + cbn [coordination_objectives set_cooldowns set_objectives]. rewrite Hobjs.
      destruct (convert_objective_to_action _ best rng) as [[action|e] g'];
        cbn [fst snd coordination_objectives set_objectives]; split;
        try discriminate.
      intros action' _. exists best. split; [|split].
      * apply remove_first_perm. exact Hin.
      * exact Hmax.
      * rewrite Ecan. reflexivity.
    + cbn [fst snd coordination_objectives set_cooldowns]. split; [discriminate|].
      intros _. exact Hobjs.
Qed.

Lemma objective_consumed_once_witness :
  coordination_objectives (snd (fst
    (check_coordination_objectives 0
       (add_coordination_objective
          (mkObjective (Some "campaign_push") None (Some "high") None)
          (add_coordination_objective
             (mkObjective (Some "amplify_trending") (Some ["harbour"]) (Some "urgent") None)
             (Strategy.init "support_victor" "townie" (mkPersona None None None))))
       [])))
  = [mkObjective (Some "amplify_trending") (Some ["harbour"]) (Some "urgent") None;
     mkObjective (Some "campaign_push") None (Some "high") None].
Proof.
  destruct (objective_consumed_once 0
       (add_coordination_objective
          (mkObjective (Some "campaign_push") None (Some "high") None)
          (add_coordination_objective
             (mkObjective (Some "amplify_trending") (Some ["harbour"]) (Some "urgent") None)
             (Strategy.init "support_victor" "townie" (mkPersona None None None))))
       []) as [_ H].
  rewrite H; reflexivity.
Defined.

(** X21.  Reporting an executed action starts a five-minute cooldown under
    the action's type, and only there: until 300 seconds have passed, an
    objective whose type is that same string cannot execute; from then on the
    cooldown no longer blocks it; and for an objective of any other type the
    answer of [_can_execute_objective] is what it was before the report. *)
Theorem cooldown_blocks_same_type_only (action : Action) (now later : Q)
    (self : StrategyEngine) (metrics : gmap string Z) (o : Objective) :
  let self' := fst (update_from_action_results action now self metrics) in
  let same := get (objective_type o) "" = get (action_type action) "" in
  (same -> (later < now + 300)%Q -> fst (can_execute_objective later o self') = false) /\
  (same -> (now + 300 <= later)%Q ->
   fst (can_execute_objective later o self') =
     (if String.eqb (get (objective_type o) "") "amplify_trending"
      then match trending_topics (current_context self) with
           | Some (_ :: _) => true
           | _ => false
           end
      else true)) /\
  (~ same ->
   fst (can_execute_objective later o self') = fst (can_execute_objective later o self)).
Proof.
  cbn zeta. unfold update_from_action_results, can_execute_objective.
  cbn [fst action_cooldowns set_cooldowns current_context].
  split; [|split].
  - intros -> Hlt. rewrite lookup_insert_eq. cbn [cooldown_active].
    replace (Qlt_bool later (now + 300)) with true
      by (symmetry; apply Qlt_bool_iff; exact Hlt).
    reflexivity.
  - intros Hsame Hge. rewrite Hsame at 1. rewrite lookup_insert_eq. cbn [cooldown_active].
    replace (Qlt_bool later (now + 300)) with false
      by (symmetry; apply Qlt_bool_false_iff; exact Hge).
    destruct (String.eqb _ "amplify_trending"); reflexivity.
  - intros Hne. rewrite lookup_insert_ne by congruence.
    destruct (action_cooldowns self !! get (objective_type o) "") as [c|];
      cbn [fst snd]; destruct (cooldown_active _ later); try reflexivity;
      destruct (String.eqb _ "amplify_trending"); reflexivity.
Qed.

Lemma cooldown_blocks_same_type_only_witness :
  fst (can_execute_objective 100
         (mkObjective (Some "campaign_push") None (Some "high") None)
         (fst (update_from_action_results
                 (mkAction (Some "post") (Some "political") None None None None) 0
                 (Strategy.init "support_victor" "townie" (mkPersona None None None))
                 ∅)))
  = fst (can_execute_objective 100
         (mkObjective (Some "campaign_push") None (Some "high") None)
         (Strategy.init "support_victor" "townie" (mkPersona None None None))).
Proof.
  destruct (cooldown_blocks_same_type_only
              (mkAction (Some "post") (Some "political") None None None None) 0 100
              (Strategy.init "support_victor" "townie" (mkPersona None None None)) ∅
              (mkObjective (Some "campaign_push") None (Some "high") None))
    as (_ & _ & H).
  apply H. discriminate.
Defined.

(** *** Weighted choice as sampling *)





End StrategyExtra.

(** ** base_bot.py and generator.py: further properties of the bots *)

Module BotExtra.

Import Limiter Bot PyFacts.

Ltac case_all :=
  repeat match goal with
         | |- context [match ?x with _ => _ end] =>
             match type of x with
             | sumbool _ _ => destruct x
             | _ => destruct x eqn:?
             end
         end.

(** What one platform action of [BaseBot] does to the bookkeeping: either
    nothing, or one counter and the action count go up by one. *)
Lemma post_content_effect (content : string) (pid : option string)
    (reply : api_reply) (clock : Q) (b : InfluenceBot) :
  let r := fst (fst (post_content content pid reply clock b)) in
  let b' := snd (fst (post_content content pid reply clock b)) in
  username b' = username b /\ influence_stats b' = influence_stats b /\
  engaged_npcs b' = engaged_npcs b /\ followed_accounts b' = followed_accounts b /\
  ((r = Ok true /\ reply = Truthy /\
    action_count b' = action_count b + 1 /\
    likes_given (stats b') = likes_given (stats b) /\
    reposts_made (stats b') = reposts_made (stats b) /\
    posts_created (stats b') + replies_made (stats b')
      = posts_created (stats b) + replies_made (stats b) + 1 /\
    (if str_truthy pid
     then posts_created (stats b') = posts_created (stats b)
     else replies_made (stats b') = replies_made (stats b))) \/
   (r <> Ok true /\ stats b' = stats b /\ action_count b' = action_count b)).
Proof.
  cbn zeta. unfold post_content.
  destruct (acquire clock (rate_limiter b)) as [[[[]|e] rl] c1]; cbn [fst snd].
  - destruct reply; cbn [fst snd].
    + repeat (split; [reflexivity|]). left.
      destruct (str_truthy pid); cbn; repeat split; lia.
    + repeat (split; [reflexivity|]). right. repeat split. discriminate.
    + repeat (split; [reflexivity|]). right. repeat split. discriminate.
  - repeat (split; [reflexivity|]). right. repeat split. discriminate.
Qed.

Lemma like_post_effect (pid : option string) (reply : api_reply) (clock : Q)
    (b : InfluenceBot) :
  let r := fst (fst (like_post pid reply clock b)) in
  let b' := snd (fst (like_post pid reply clock b)) in
  username b' = username b /\ influence_stats b' = influence_stats b /\
  engaged_npcs b' = engaged_npcs b /\ followed_accounts b' = followed_accounts b /\
  ((r = Ok true /\ reply = Truthy /\
    action_count b' = action_count b + 1 /\
    likes_given (stats b') = likes_given (stats b) + 1 /\
    reposts_made (stats b') = reposts_made (stats b) /\
    posts_created (stats b') = posts_created (stats b) /\
    replies_made (stats b') = replies_made (stats b)) \/
   (r <> Ok true /\ stats b' = stats b /\ action_count b' = action_count b)).
Proof.
  cbn zeta. unfold like_post.
  destruct (acquire clock (rate_limiter b)) as [[[[]|e] rl] c1]; cbn [fst snd].
  - destruct reply; cbn [fst snd].
    + repeat (split; [reflexivity|]). left. cbn. repeat split.
    + repeat (split; [reflexivity|]). right. repeat split. discriminate.
    + repeat (split; [reflexivity|]). right. repeat split. discriminate.
  - repeat (split; [reflexivity|]). right. repeat split. discriminate.
Qed.

Lemma repost_effect (pid : option string) (reply : api_reply) (clock : Q)
    (b : InfluenceBot) :
  let r := fst (fst (repost pid reply clock b)) in
  let b' := snd (fst (repost pid reply clock b)) in
  username b' = username b /\ influence_stats b' = influence_stats b /\
  engaged_npcs b' = engaged_npcs b /\ followed_accounts b' = followed_accounts b /\
  ((r = Ok true /\ reply = Truthy /\
    action_count b' = action_count b + 1 /\
    likes_given (stats b') = likes_given (stats b) /\
    reposts_made (stats b') = reposts_made (stats b) + 1 /\
    posts_created (stats b') = posts_created (stats b) /\
    replies_made (stats b') = replies_made (stats b)) \/
   (r <> Ok true /\ stats b' = stats b /\ action_count b' = action_count b)).
Proof.
  cbn zeta. unfold repost.
  destruct (acquire clock (rate_limiter b)) as [[[[]|e] rl] c1]; cbn [fst snd].
  - destruct reply; cbn [fst snd].
    + repeat (split; [reflexivity|]). left. cbn. repeat split.
    + repeat (split; [reflexivity|]). right. repeat split. discriminate.
    + repeat (split; [reflexivity|]). right. repeat split. discriminate.
  - repeat (split; [reflexivity|]). right. repeat split. discriminate.
Qed.

Lemma engagement_call_effect (post_id : option string) (kind : string)
    (generated : option string) (reply : api_reply) (clock : Q) (b : InfluenceBot) :
  let b1 := snd (fst (engagement_call post_id kind generated reply clock b)) in
  username b1 = username b /\ engaged_npcs b1 = engaged_npcs b /\
  followed_accounts b1 = followed_accounts b /\
  npc_interactions (influence_stats b1) = npc_interactions (influence_stats b) /\
  (counters_agree b -> counters_agree b1) /\
  (influence_within_posts b -> influence_within_posts b1).
Proof.
  cbn zeta. unfold engagement_call, counters_agree, influence_within_posts.
  destruct (String.eqb kind "like").
  { pose proof (like_post_effect post_id reply clock b) as H. cbn zeta in H.
    destruct H as (H1 & H2 & H3 & H4 & [H | H]); rewrite ?H2; repeat split; auto;
      intros; destruct H as (? & ? & ?); try lia; try congruence. }
  destruct (String.eqb kind "repost").
  { pose proof (repost_effect post_id reply clock b) as H. cbn zeta in H.
    destruct H as (H1 & H2 & H3 & H4 & [H | H]); rewrite ?H2; repeat split; auto;
      intros; destruct H as (? & ? & ?); try lia; try congruence. }
  destruct (String.eqb kind "reply"); [|cbn; repeat split; auto].
  destruct generated as [content|]; [|cbn; repeat split; auto].
  destruct (str_truthy (Some content)); [|cbn; repeat split; auto].
  pose proof (post_content_effect content post_id reply clock b) as H. cbn zeta in H.
  destruct (post_content content post_id reply clock b) as [[r b'] c'].
  cbn [fst snd] in H. destruct H as (H1 & H2 & H3 & H4 & [H | H]).
  - destruct H as (-> & _ & Hac & Hl & Hr & Hsum & _). cbn [fst snd].
    cbn [username set_influence engaged_npcs followed_accounts influence_stats
         npc_interactions stats action_count political_posts neutral_posts
         strategic_replies].
    rewrite H2. repeat split; auto; intros; lia.
  - destruct H as (Hne & Hs & Hac).
    destruct r as [[|]|e]; [congruence | |]; cbn [fst snd]; rewrite H2, Hs, Hac;
      repeat split; auto.
Qed.

Lemma execute_engagement_action_unfold (action : EngagementAction)
    (generated : option string) (reply : api_reply) (clock : Q) (b : InfluenceBot)
    (post : gmap string string) :
  target_post action = Some post -> post <> ∅ ->
  execute_engagement_action action generated reply clock b =
    let post_author := Strategy.get (post !! "username") "unknown" in
    let '(r, b1, clock1) :=
      engagement_call (post !! "id") (Strategy.get (engagement_type action) "like")
                      generated reply clock b in
    match r with
    | Raise e => (Raise e, b1, clock1)
    | Ok _ =>
        if negb (String.eqb post_author (username b1)) && negb (contains "@" post_author)
        then
          let i := influence_stats b1 in
          (Ok tt,
           set_influence b1
             (mkInfluenceStats (npc_interactions i + 1) (political_posts i)
                (neutral_posts i) (trending_engagements i) (strategic_replies i))
             ({[post_author]} ∪ engaged_npcs b1),
           clock1)
        else (Ok tt, b1, clock1)
    end.
Proof.
  intros Hp Hne. unfold execute_engagement_action, engagement_call. rewrite Hp.
  destruct (decide (post = ∅)); [contradiction|]. reflexivity.
Qed.

Lemma engagement_effect (action : EngagementAction) (generated : option string)
    (reply : api_reply) (clock : Q) (b : InfluenceBot) :
  let b' := snd (fst (execute_engagement_action action generated reply clock b)) in
  username b' = username b /\
  followed_accounts b' = followed_accounts b /\
  (counters_agree b -> counters_agree b') /\
  (influence_within_posts b -> influence_within_posts b') /\
  engaged_npcs b ⊆ engaged_npcs b' /\
  (npcs_are_foreign b -> npcs_are_foreign b') /\
  (Z.of_nat (size (engaged_npcs b)) <= npc_interactions (influence_stats b) ->
   Z.of_nat (size (engaged_npcs b')) <= npc_interactions (influence_stats b')).
Proof.
  cbn zeta.
  assert (Hsame : username b = username b /\
                  followed_accounts b = followed_accounts b /\
                  (counters_agree b -> counters_agree b) /\
                  (influence_within_posts b -> influence_within_posts b) /\
                  engaged_npcs b ⊆ engaged_npcs b /\
                  (npcs_are_foreign b -> npcs_are_foreign b) /\
                  (Z.of_nat (size (engaged_npcs b)) <= npc_interactions (influence_stats b) ->
                   Z.of_nat (size (engaged_npcs b)) <= npc_interactions (influence_stats b))).
  { split; [reflexivity|]. split; [reflexivity|]. split; [auto|]. split; [auto|].
    split; [reflexivity|]. split; auto. }
  destruct (target_post action) as [post|] eqn:Hp.
  2:{ unfold execute_engagement_action. rewrite Hp. exact Hsame. }
  destruct (decide (post = ∅)) as [He | Hne].
  { unfold execute_engagement_action. rewrite Hp.
    destruct (decide (post = ∅)); [|contradiction]. exact Hsame. }
  clear Hsame.
  rewrite (execute_engagement_action_unfold _ _ _ _ _ post Hp Hne). cbn zeta.
  pose proof (engagement_call_effect (post !! "id")
                (Strategy.get (engagement_type action) "like")
                generated reply clock b) as H. cbn zeta in H.
  destruct (engagement_call _ _ generated reply clock b) as [[r b1] c1].
  cbn [fst snd] in H. destruct H as (Hu & Hn & Hf & Hi & Hc & Hw).
  assert (Hkeep : username b1 = username b /\
                  followed_accounts b1 = followed_accounts b /\
                  (counters_agree b -> counters_agree b1) /\
                  (influence_within_posts b -> influence_within_posts b1) /\
                  engaged_npcs b ⊆ engaged_npcs b1 /\
                  (npcs_are_foreign b -> npcs_are_foreign b1) /\
                  (Z.of_nat (size (engaged_npcs b)) <= npc_interactions (influence_stats b) ->
                   Z.of_nat (size (engaged_npcs b1)) <= npc_interactions (influence_stats b1))).
  { split; [exact Hu|]. split; [exact Hf|]. split; [exact Hc|]. split; [exact Hw|].
    split; [rewrite Hn; reflexivity|]. split.
    - unfold npcs_are_foreign. rewrite Hn, Hu. auto.
    - rewrite Hn, Hi. auto. }
  destruct r as [ok|e]; [|exact Hkeep].
  set (author := Strategy.get (post !! "username") "unknown").
  destruct (negb (String.eqb author (username b1)) && negb (contains "@" author)) eqn:E;
    [|exact Hkeep].
  clear Hkeep.
  apply andb_true_iff in E. destruct E as [E1 E2].
  apply negb_true_iff in E1, E2. apply String.eqb_neq in E1.
  cbn [fst snd]. unfold counters_agree, influence_within_posts, npcs_are_foreign in *.
  cbn [username set_influence engaged_npcs followed_accounts influence_stats
       npc_interactions stats action_count political_posts neutral_posts
       strategic_replies].
  rewrite Hn, Hi.
  split; [exact Hu|]. split; [exact Hf|]. split; [exact Hc|]. split; [exact Hw|].
  split; [apply union_subseteq_r|]. split.
  - intros Hfor name Hin. apply elem_of_union in Hin. destruct Hin as [Hin | Hin].
    + apply elem_of_singleton in Hin. subst name. split; assumption.
    + rewrite Hu. apply Hfor. exact Hin.
  - intros Hsz.
    pose proof (size_union_alt ({[author]} : gset string) (engaged_npcs b)) as Hs.
    pose proof (subseteq_size (engaged_npcs b ∖ {[author]}) (engaged_npcs b)
                  (subseteq_difference_l _ _ _ (reflexivity _))) as Hs2.
    rewrite size_singleton in Hs. lia.
Qed.

Lemma post_action_effect (content_type generated : option string)
    (reply : api_reply) (clock : Q) (b : InfluenceBot) :
  let b' := snd (fst (execute_post_action content_type generated reply clock b)) in
  (counters_agree b -> counters_agree b') /\
  (influence_within_posts b -> influence_within_posts b') /\
  engaged_npcs b' = engaged_npcs b.
Proof.
  cbn zeta. unfold execute_post_action.
  destruct generated as [content|]; [|cbn; auto].
  destruct (str_truthy (Some content)); [|cbn; auto].
  pose proof (post_content_effect content None reply clock b) as H. cbn zeta in H.
  destruct (post_content content None reply clock b) as [[r b'] c'].
  cbn [fst snd] in H. destruct H as (H1 & H2 & H3 & H4 & [H | H]).
  - destruct H as (-> & _ & Hac & Hl & Hr & Hsum & Hrep). cbn [str_truthy] in Hrep.
    cbn [fst snd]. unfold counters_agree, influence_within_posts.
    cbn [set_influence engaged_npcs influence_stats stats action_count].
    rewrite H2. split; [intros; lia|]. split; [|exact H3].
    destruct (_ || _); cbn; intros; lia.
  - destruct H as (Hne & Hs & Hac).
    destruct r as [[|]|e]; [congruence | |]; cbn [fst snd];
      unfold counters_agree, influence_within_posts; rewrite H2, Hs, Hac; auto.
Qed.

(** X23.  The bookkeeping of a bot is consistent and stays so: starting
    from construction, after any engagement action, post action or direct
    post, like or repost -- successful, refused or failed -- the action count
    equals the posts, replies, likes and reposts counted together, and the
    political, neutral and strategic-reply counters together never exceed the
    posts and replies made. *)
Theorem bookkeeping_is_consistent (b : InfluenceBot) :
  (forall name k w b0, Bot.init name k w = Ok b0 ->
                       counters_agree b0 /\ influence_within_posts b0) /\
  (counters_agree b -> influence_within_posts b ->
   (forall action generated reply clock,
       let b' := snd (fst (execute_engagement_action action generated reply clock b)) in
       counters_agree b' /\ influence_within_posts b') /\
   (forall content_type generated reply clock,
       let b' := snd (fst (execute_post_action content_type generated reply clock b)) in
       counters_agree b' /\ influence_within_posts b') /\
   (forall content pid reply clock,
       counters_agree (snd (fst (post_content content pid reply clock b)))) /\
   (forall pid reply clock,
       counters_agree (snd (fst (like_post pid reply clock b))) /\
       counters_agree (snd (fst (repost pid reply clock b))))).
Proof.
  split.
  - intros name k w b0. unfold Bot.init, Limiter.init. intros [= <-].
    unfold counters_agree, influence_within_posts. cbn. lia.
  - intros Hc Hw. split; [|split; [|split]].
    + intros action generated reply clock.
      destruct (engagement_effect action generated reply clock b)
        as (_ & _ & H1 & H2 & _). auto.
    + intros ct generated reply clock.
      destruct (post_action_effect ct generated reply clock b) as (H1 & H2 & _). auto.
    + intros content pid reply clock.
      pose proof (post_content_effect content pid reply clock b) as H. cbn zeta in H.
      destruct H as (_ & _ & _ & _ & [H | H]); unfold counters_agree in *.
      * destruct H as (_ & _ & Hac & Hl & Hr & Hsum & _). lia.
      * destruct H as (_ & Hs & Hac). rewrite Hs, Hac. exact Hc.
    + intros pid reply clock. split.
      * pose proof (like_post_effect pid reply clock b) as H. cbn zeta in H.
        destruct H as (_ & _ & _ & _ & [H | H]); unfold counters_agree in *.
        -- destruct H as (_ & _ & ? & ? & ? & ? & ?). lia.
        -- destruct H as (_ & Hs & Hac). rewrite Hs, Hac. exact Hc.
      * pose proof (repost_effect pid reply clock b) as H. cbn zeta in H.
        destruct H as (_ & _ & _ & _ & [H | H]); unfold counters_agree in *.
        -- destruct H as (_ & _ & ? & ? & ? & ? & ?). lia.
        -- destruct H as (_ & Hs & Hac). rewrite Hs, Hac. exact Hc.
Qed.

Lemma bookkeeping_is_consistent_witness :
  counters_agree
    (snd (fst (execute_engagement_action
                 (mkEngagement (Some (<["id" := "p1"]> (<["username" := "npc_bo"]> ∅)))
                               (Some "repost"))
                 None Truthy 0
                 (mkBot "bot_one" (mkRateLimiter 3 60 [] 1 10) 0 0 (mkStats 0 0 0 0 0 0)
                        (mkInfluenceStats 0 0 0 0 0) ∅ ∅)))).
Proof.
  destruct (bookkeeping_is_consistent
              (mkBot "bot_one" (mkRateLimiter 3 60 [] 1 10) 0 0 (mkStats 0 0 0 0 0 0)
                     (mkInfluenceStats 0 0 0 0 0) ∅ ∅)) as [_ H].
  destruct H as (H & _); [reflexivity | cbn; unfold influence_within_posts; cbn; lia |].
  apply H.
Defined.

(** X24.  The set of engaged NPCs only ever grows; it never takes in the
    bot's own name or a name containing [@]; and it never holds more names
    than [npc_interactions] counts.  Each of the three holds after an
    engagement action if it held before. *)
Theorem engaged_npcs_invariants (action : EngagementAction)
    (generated : option string) (reply : api_reply) (clock : Q) (b : InfluenceBot) :
  let b' := snd (fst (execute_engagement_action action generated reply clock b)) in
  engaged_npcs b ⊆ engaged_npcs b' /\
  (npcs_are_foreign b -> npcs_are_foreign b') /\
  (Z.of_nat (size (engaged_npcs b)) <= npc_interactions (influence_stats b) ->
   Z.of_nat (size (engaged_npcs b')) <= npc_interactions (influence_stats b')).
Proof.
  cbn zeta.
  destruct (engagement_effect action generated reply clock b)
    as (_ & _ & _ & _ & H1 & H2 & H3). auto.
Qed.

Lemma engaged_npcs_invariants_witness :
  npcs_are_foreign
    (snd (fst (execute_engagement_action
                 (mkEngagement (Some (<["id" := "p1"]> (<["username" := "bot_one"]> ∅)))
                               (Some "like"))
                 None Truthy 0
                 (mkBot "bot_one" (mkRateLimiter 3 60 [] 1 10) 0 0 (mkStats 0 0 0 0 0 0)
                        (mkInfluenceStats 0 0 0 0 0) ∅ ∅)))).
Proof.
  destruct (engaged_npcs_invariants
              (mkEngagement (Some (<["id" := "p1"]> (<["username" := "bot_one"]> ∅)))
                            (Some "like"))
              None Truthy 0
              (mkBot "bot_one" (mkRateLimiter 3 60 [] 1 10) 0 0 (mkStats 0 0 0 0 0 0)
                     (mkInfluenceStats 0 0 0 0 0) ∅ ∅)) as (_ & H & _).
  apply H. intros name Hin. cbn in Hin. exfalso. exact (not_elem_of_empty name Hin).
Defined.

(** X25.  A strategic reply to a post whose dict has no (or an empty)
    ['id'] is sent without a parent: when the platform accepts it, the bot
    counts it as a post created, not as a reply made, while still counting a
    strategic reply. *)
Theorem reply_without_id_counts_as_post (b : InfluenceBot) (post : gmap string string)
    (content : string) (clock : Q) :
  post <> ∅ ->
  str_truthy (post !! "id") = false ->
  content <> "" ->
  fst (fst (acquire clock (rate_limiter b))) = Ok tt ->
  let b' := snd (fst (execute_engagement_action
                        (mkEngagement (Some post) (Some "reply"))
                        (Some content) Truthy clock b)) in
  posts_created (stats b') = posts_created (stats b) + 1 /\
  replies_made (stats b') = replies_made (stats b) /\
  strategic_replies (influence_stats b') = strategic_replies (influence_stats b) + 1.
Proof.
  intros Hne Hid Hcontent Hacq. cbn zeta.
  rewrite (execute_engagement_action_unfold
             (mkEngagement (Some post) (Some "reply")) _ _ _ _ post eq_refl Hne).
  cbn zeta. unfold engagement_call. cbn [engagement_type Strategy.get].
  replace (String.eqb "reply" "like") with false by reflexivity.
  replace (String.eqb "reply" "repost") with false by reflexivity.
  replace (String.eqb "reply" "reply") with true by reflexivity.
  assert (Ht : str_truthy (Some content) = true).
  { cbn. apply negb_true_iff. apply String.eqb_neq. exact Hcontent. }
  rewrite Ht. unfold post_content. rewrite Hid.
  destruct (acquire clock (rate_limiter b)) as [[[[]|e] rl] c1]; cbn [fst] in Hacq;
    [|discriminate Hacq].
  destruct (negb _ && negb _); cbn; repeat split.
Qed.

Lemma reply_without_id_counts_as_post_witness :
  posts_created (stats (snd (fst (execute_engagement_action
      (mkEngagement (Some (<["username" := "npc_cy"]> ∅)) (Some "reply"))
      (Some "well said") Truthy 0
      (mkBot "bot_one" (mkRateLimiter 3 60 [] 1 10) 0 0 (mkStats 0 0 0 0 0 0)
             (mkInfluenceStats 0 0 0 0 0) ∅ ∅))))) = 0 + 1.
Proof.
  destruct (reply_without_id_counts_as_post
              (mkBot "bot_one" (mkRateLimiter 3 60 [] 1 10) 0 0 (mkStats 0 0 0 0 0 0)
                     (mkInfluenceStats 0 0 0 0 0) ∅ ∅)
              (<["username" := "npc_cy"]> ∅) "well said" 0) as (H & _).
  - intros Hempty.
    assert (Hl : (<["username" := "npc_cy"]> (∅ : gmap string string))
                   !! "username" = Some "npc_cy") by apply lookup_insert_eq.
    rewrite Hempty, lookup_empty in Hl. discriminate.
  - vm_compute. reflexivity.
  - discriminate.
  - reflexivity.
  - exact H.
Defined.

(** X26.  Following is idempotent and, unlike liking and posting, not
    shielded from the platform client: for a user already followed (or no
    user at all) nothing happens and the client is not even called; for a new
    user a true answer adds exactly that user, a false answer changes
    nothing, and an exception escapes with the bot unchanged.  The set of
    followed accounts never shrinks. *)
Theorem follow_action_behaviour (user : string) (reply : api_reply) (b : InfluenceBot) :
  (user ∈ followed_accounts b ->
   execute_follow_action (Some user) reply b = (Ok tt, b)) /\
  execute_follow_action None reply b = (Ok tt, b) /\
  execute_follow_action (Some "") reply b = (Ok tt, b) /\
  (user <> "" -> user ∉ followed_accounts b ->
   execute_follow_action (Some user) Truthy b
     = (Ok tt, set_followed b ({[user]} ∪ followed_accounts b)) /\
   execute_follow_action (Some user) Falsy b = (Ok tt, b) /\
   execute_follow_action (Some user) Raises b = (Raise Exception, b)) /\
  followed_accounts b ⊆ followed_accounts (snd (execute_follow_action (Some user) reply b)).
Proof.
  unfold execute_follow_action. split; [|split; [|split; [|split]]].
  - intros Hin. rewrite bool_decide_eq_true_2 by exact Hin.
    rewrite andb_false_r. reflexivity.
  - reflexivity.
  - reflexivity.
  - intros Hne Hnot.
    assert (Ht : str_truthy (Some user) = true).
    { cbn. apply negb_true_iff. apply String.eqb_neq. exact Hne. }
    rewrite Ht, bool_decide_eq_false_2 by exact Hnot. cbn [negb andb].
    repeat split.
  - destruct (str_truthy (Some user) && negb (bool_decide (user ∈ followed_accounts b)));
      [|reflexivity].
    destruct reply; cbn [snd followed_accounts set_followed];
      [apply union_subseteq_r | reflexivity | reflexivity].
Qed.

Lemma follow_action_behaviour_witness :
  execute_follow_action (Some "npc_di") Raises
    (mkBot "bot_one" (mkRateLimiter 3 60 [] 1 10) 0 0 (mkStats 0 0 0 0 0 0)
           (mkInfluenceStats 0 0 0 0 0) ∅ {["npc_di"]})
  = (Ok tt,
     mkBot "bot_one" (mkRateLimiter 3 60 [] 1 10) 0 0 (mkStats 0 0 0 0 0 0)
           (mkInfluenceStats 0 0 0 0 0) ∅ {["npc_di"]}).
Proof.
  destruct (follow_action_behaviour "npc_di" Raises
              (mkBot "bot_one" (mkRateLimiter 3 60 [] 1 10) 0 0 (mkStats 0 0 0 0 0 0)
                     (mkInfluenceStats 0 0 0 0 0) ∅ {["npc_di"]})) as (H & _).
  apply H. cbn. apply elem_of_singleton. reflexivity.
Defined.

(** X27.  The campaign phase is a threshold on elapsed time: the bot is in
    the audience-building phase exactly while fewer than
    [audience_building_days] times 86400 seconds have passed since its start,
    and in the political-influence phase from that instant on; so once the
    political phase is reached it is never left as the clock advances. *)
Theorem phase_is_a_time_threshold (days : Z) (start now : Q) :
  (get_current_phase days start now = "audience_building" <->
   (now < start + inject_Z days * 86400)%Q) /\
  (get_current_phase days start now = "political_influence" <->
   (start + inject_Z days * 86400 <= now)%Q) /\
  (forall later, (now <= later)%Q ->
                 get_current_phase days start now = "political_influence" ->
                 get_current_phase days start later = "political_influence").
Proof.
  assert (Hiff : forall t, Qfloor ((t - start) / 86400) < days <->
                           (t < start + inject_Z days * 86400)%Q).
  { intros t. set (x := ((t - start) / 86400)%Q).
    assert (Hx : (t == start + x * 86400)%Q) by (subst x; field).
    pose proof (Qfloor_le x) as Hlo. pose proof (Qlt_floor x) as Hhi.
    split.
    - intros Hlt.
      assert (Hd : (inject_Z (Qfloor x + 1) <= inject_Z days)%Q).
      { rewrite <- Zle_Qle. lia. }
      rewrite Hx. nra.
    - intros Hlt. rewrite Hx in Hlt.
      assert (Hxd : (x < inject_Z days)%Q) by nra.
      assert (Hfd : (inject_Z (Qfloor x) < inject_Z days)%Q) by lra.
      rewrite <- Zlt_Qlt in Hfd. exact Hfd. }
  assert (Ha : forall t, get_current_phase days start t = "audience_building" <->
                         (t < start + inject_Z days * 86400)%Q).
  { intros t. unfold get_current_phase. rewrite <- Hiff.
    destruct (Z.ltb_spec (Qfloor ((t - start) / 86400)) days); split;
      try reflexivity; try discriminate; intros; lia. }
  assert (Hp : forall t, get_current_phase days start t = "political_influence" <->
                         (start + inject_Z days * 86400 <= t)%Q).
  { intros t. unfold get_current_phase.
    destruct (Z.ltb_spec (Qfloor ((t - start) / 86400)) days) as [Hlt | Hge].
    - apply Hiff in Hlt. split; [discriminate | intros; lra].
    - split; [|reflexivity]. intros _.
      apply Qnot_lt_le. intros Hc. apply Hiff in Hc. lia. }
  split; [apply Ha|]. split; [apply Hp|].
  intros later Hle Hnow. apply Hp. apply Hp in Hnow. lra.
Qed.

Lemma phase_is_a_time_threshold_witness :
  get_current_phase 2 0 200000 = "political_influence".
Proof.
  destruct (phase_is_a_time_threshold 2 0 172800) as (_ & Hp & Hmono).
  apply (Hmono 200000%Q); [discriminate|]. apply Hp. discriminate.
Defined.

(** X28.  A post action touches the bot only through a generated post: with
    no content (or empty content) generated, nothing changes, not even the
    rate limiter; when the platform accepts the post, exactly one influence
    counter goes up by one -- [political_posts] for the content types
    political and campaign, [neutral_posts] for every other type, including a
    missing one -- together with [posts_created]; when the platform refuses
    or fails, the influence counters stay as they were. *)
Theorem post_action_classifies (content_type generated : option string)
    (reply : api_reply) (clock : Q) (b : InfluenceBot) :
  let b' := snd (fst (execute_post_action content_type generated reply clock b)) in
  let political :=
    String.eqb (Strategy.get content_type "neutral") "political"
    || String.eqb (Strategy.get content_type "neutral") "campaign" in
  (str_truthy generated = false ->
   execute_post_action content_type generated reply clock b = (Ok tt, b, clock)) /\
  (str_truthy generated = true ->
   fst (fst (acquire clock (rate_limiter b))) = Ok tt ->
   (reply = Truthy ->
    posts_created (stats b') = posts_created (stats b) + 1 /\
    political_posts (influence_stats b')
      = political_posts (influence_stats b) + (if political then 1 else 0) /\
    neutral_posts (influence_stats b')
      = neutral_posts (influence_stats b) + (if political then 0 else 1)) /\
   (reply <> Truthy -> influence_stats b' = influence_stats b /\ stats b' = stats b)).
Proof.
  cbn zeta. unfold execute_post_action. split.
  - intros Hf. destruct generated as [content|]; [|reflexivity]. rewrite Hf. reflexivity.
  - intros Ht Hacq. destruct generated as [content|]; [|discriminate Ht]. rewrite Ht.
    unfold post_content.
    destruct (acquire clock (rate_limiter b)) as [[[[]|e] rl] c1]; cbn [fst] in Hacq;
      [|discriminate Hacq].
    split.
    + intros ->. cbn [str_truthy fst snd].
      destruct (_ || _); cbn; repeat split; lia.
    + intros Hr. destruct reply; [congruence| |]; cbn; split; reflexivity.
Qed.

Lemma post_action_classifies_witness :
  political_posts (influence_stats (snd (fst
    (execute_post_action (Some "campaign") (Some "Vote!") Truthy 0
       (mkBot "bot_one" (mkRateLimiter 3 60 [] 1 10) 0 0 (mkStats 0 0 0 0 0 0)
              (mkInfluenceStats 0 0 0 0 0) ∅ ∅))))) = 0 + 1.
Proof.
  destruct (post_action_classifies (Some "campaign") (Some "Vote!") Truthy 0
              (mkBot "bot_one" (mkRateLimiter 3 60 [] 1 10) 0 0 (mkStats 0 0 0 0 0 0)
                     (mkInfluenceStats 0 0 0 0 0) ∅ ∅)) as [_ H].
  destruct (H ltac:(reflexivity) ltac:(reflexivity)) as [Hok _].
  destruct (Hok eq_refl) as (_ & Hp & _). exact Hp.
Defined.

End BotExtra.

(** ** Further facts about the bot manager *)

Module ManagerExtra.
Import Manager.

Lemma slice_bound_count (k : Z) (n : nat) :
  0 <= k -> slice_bound (Z.min k (Z.of_nat n)) n = Z.to_nat (Z.min k (Z.of_nat n)).
Proof.
  intros Hk. unfold slice_bound.
  destruct (Z.ltb_spec (Z.min k (Z.of_nat n)) 0) as [Hneg | _]; [lia |].
  f_equal. lia.
Qed.

Lemma rotate_length {A : Type} (l : list A) (c : nat) :
  length (skipn c l ++ firstn c l) = length l.
Proof.
  rewrite List.length_app, List.length_skipn, List.length_firstn. lia.
Qed.

(** Rotating a list by [c] places moves index [i] to [(i + c) mod n]. *)
Lemma rotate_nth_error {A : Type} (l : list A) (c i : nat) :
  (c <= length l)%nat -> (i < length l)%nat ->
  nth_error (skipn c l ++ firstn c l) i = nth_error l ((i + c) mod length l).
Proof.
  intros Hc Hi.
  destruct (Nat.lt_ge_cases i (length l - c)) as [Hlt | Hge].
  - rewrite nth_error_app1 by (rewrite List.length_skipn; lia).
    rewrite nth_error_skipn, Nat.mod_small by lia. f_equal. lia.
  - rewrite nth_error_app2 by (rewrite List.length_skipn; lia).
    rewrite List.length_skipn, nth_error_firstn.
    destruct (Nat.ltb_spec (i - (length l - c)) c) as [_ | Habs]; [| lia].
    f_equal. apply (Nat.mod_unique _ _ 1%nat); lia.
Qed.

(** Without bots no signal is sent, whatever the opportunities ask for. *)
Lemma distribute_no_bots {A : Type} (opps : list Opportunity) :
  snd (distribute_coordination_tasks opps (@nil A)) = [].
Proof.
  induction opps as [| o rest IH]; [reflexivity |].
  cbn [distribute_coordination_tasks].
  destruct (Strategy.objective_type (opportunity o)); [| reflexivity].
  destruct (bot_count o); [| reflexivity].
  destruct (_ =? 0); [exact IH |].
  unfold slice_to, slice_from. rewrite firstn_nil, skipn_nil. cbn [map app].
  destruct (distribute_coordination_tasks rest []) as [r sent]. exact IH.
Qed.

Lemma distribute_cons {A : Type} (opp : Opportunity) (rest : list Opportunity)
    (bots : list A) (k : Z) :
  Strategy.objective_type (opportunity opp) <> None ->
  bot_count opp = Some k -> 0 <= k ->
  let c := Z.to_nat (Z.min k (len bots)) in
  let tail := distribute_coordination_tasks rest (skipn c bots ++ firstn c bots) in
  distribute_coordination_tasks (opp :: rest) bots =
  (fst tail, (map (fun bot => (bot, opp)) (firstn c bots) ++ snd tail)%list).
Proof.
  intros Hty Hcount Hk c tail. subst tail. cbn [distribute_coordination_tasks].
  destruct (Strategy.objective_type (opportunity opp)) as [ty|]; [| congruence].
  rewrite Hcount. unfold slice_to, slice_from, Py.len in *.
  destruct (Z.eqb_spec (Z.min k (Z.of_nat (length bots))) 0) as [Hz | Hnz].
  - assert (Hc : c = 0%nat) by (unfold c; rewrite Hz; reflexivity).
    clearbody c. subst c. change (firstn 0 bots) with (@nil A).
    change (skipn 0 bots) with bots. cbn [map app]. rewrite List.app_nil_r.
    destruct (distribute_coordination_tasks rest bots); reflexivity.
  - rewrite slice_bound_count by exact Hk. fold c.
    destruct (distribute_coordination_tasks rest (skipn c bots ++ firstn c bots));
      reflexivity.
Qed.

(** The call ends in a [KeyError] or normally, and in a [KeyError] exactly
    when some opportunity lacks a key. *)
Lemma distribute_outcome {A : Type} (opps : list Opportunity) :
  forall bots : list A,
    (Exists lacks_key opps ->
     fst (distribute_coordination_tasks opps bots) = Py.Raise Py.KeyError) /\
    (~ Exists lacks_key opps ->
     fst (distribute_coordination_tasks opps bots) = Py.Ok tt).
Proof.
  induction opps as [| opp rest IH]; intros bots.
  - split; [intros H; inversion H | reflexivity].
  - cbn [distribute_coordination_tasks].
    destruct (Strategy.objective_type (opportunity opp)) as [ty|] eqn:Ety.
    2:{ split; [reflexivity |]. intros Hno. exfalso. apply Hno. left. left. exact Ety. }
    destruct (bot_count opp) as [k|] eqn:Ek.
    2:{ split; [reflexivity |]. intros Hno. exfalso. apply Hno. left. right. exact Ek. }
    assert (Hhere : ~ lacks_key opp).
    { intros [H | H]; congruence. }
    assert (Hrest : Exists lacks_key (opp :: rest) <-> Exists lacks_key rest).
    { split; [| intros H; right; exact H].
      intros H. inversion H; subst; [contradiction | assumption]. }
    rewrite Hrest.
    destruct (_ =? 0); [apply IH |].
    destruct (distribute_coordination_tasks rest _) as [r sent] eqn:Etail.
    cbn [fst]. replace r with (fst (distribute_coordination_tasks rest
      (slice_from bots (Z.min k (len bots)) ++ slice_to bots (Z.min k (len bots)))))
      by (rewrite Etail; reflexivity).
    apply IH.
Qed.

Lemma distribute_opportunities {A : Type} (opps : list Opportunity) :
  Forall well_formed opps ->
  forall bots : list A,
    map snd (snd (distribute_coordination_tasks opps bots)) =
    flat_map (fun o => repeat o (Z.to_nat (Z.min (Strategy.get (bot_count o) 0)
                                                 (len bots)))) opps.
Proof.
  induction 1 as [| opp rest (Hty & k & Hcount & Hk) _ IH]; intros bots; [reflexivity |].
  rewrite (distribute_cons opp rest bots k Hty Hcount Hk). cbn [flat_map snd].
  rewrite Hcount. cbn [Strategy.get].
  rewrite List.map_app, List.map_map. cbn [snd].
  rewrite IH. f_equal.
  - rewrite <- (List.map_map (fun _ : A => tt) (fun _ => opp)).
    assert (Hlen : length (firstn (Z.to_nat (Z.min k (len bots))) bots)
                   = Z.to_nat (Z.min k (len bots))).
    { apply firstn_length_le. unfold Py.len. lia. }
    revert Hlen. generalize (firstn (Z.to_nat (Z.min k (len bots))) bots).
    generalize (Z.to_nat (Z.min k (len bots))).
    intros n l <-. induction l as [| x l IHl]; [reflexivity |].
    cbn. f_equal. exact IHl.
  - unfold Py.len. rewrite rotate_length. reflexivity.
Qed.

Lemma distribute_bots {A : Type} (opps : list Opportunity) :
  Forall well_formed opps ->
  forall (bots : list A) (j : nat),
    (j < length (snd (distribute_coordination_tasks opps bots)))%nat ->
    nth_error (map fst (snd (distribute_coordination_tasks opps bots))) j =
    nth_error bots (j mod length bots).
Proof.
  induction 1 as [| opp rest (Hty & k & Hcount & Hk) _ IH]; intros bots j Hj;
    [cbn in Hj; lia |].
  rewrite (distribute_cons opp rest bots k Hty Hcount Hk) in Hj |- *.
  cbn [snd] in Hj |- *.
  set (c := Z.to_nat (Z.min k (len bots))) in *.
  assert (Hc : (c <= length bots)%nat) by (unfold c, Py.len; lia).
  assert (Hsel : length (firstn c bots) = c) by (apply firstn_length_le; exact Hc).
  rewrite List.length_app, List.length_map, Hsel in Hj.
  rewrite List.map_app, List.map_map. cbn [fst]. rewrite List.map_id.
  destruct (Nat.lt_ge_cases j c) as [Hlt | Hge].
  - rewrite nth_error_app1 by lia.
    rewrite nth_error_firstn.
    destruct (Nat.ltb_spec j c) as [_ | Habs]; [| lia].
    rewrite Nat.mod_small by lia. reflexivity.
  - rewrite nth_error_app2 by lia.
    rewrite Hsel.
    rewrite IH by lia.
    rewrite rotate_length.
    assert (Hn : (0 < length bots)%nat).
    { destruct bots as [| b bots]; [| cbn; lia].
      exfalso. rewrite firstn_nil, skipn_nil in Hj. cbn [app] in Hj.
      rewrite distribute_no_bots in Hj. cbn in Hc, Hj. lia. }
    rewrite rotate_nth_error by (try exact Hc; apply Nat.mod_upper_bound; lia).
    rewrite Nat.Div0.add_mod_idemp_l. do 2 f_equal. lia.
Qed.

(** X29.  Coordination signals are dealt round-robin.  The call ends in a
    [KeyError] exactly when some opportunity lacks its ['type'] or its
    ['bot_count'], and normally otherwise.  When every opportunity carries a
    ['type'] and a non-negative ['bot_count'], each opportunity is sent, in
    the order given, to [min(bot_count, number of bots)] bots, and across all
    opportunities the [j]-th signal goes to the bot at index
    [j mod number of bots]: the bots are taken in one cyclic pass that
    carries on from one opportunity to the next. *)
Theorem distribution_is_round_robin {A : Type} (opportunities : list Opportunity)
    (available_bots : list A) :
  let result := fst (distribute_coordination_tasks opportunities available_bots) in
  let signals := snd (distribute_coordination_tasks opportunities available_bots) in
  (result = Py.Raise Py.KeyError <-> Exists lacks_key opportunities) /\
  (result = Py.Ok tt <-> ~ Exists lacks_key opportunities) /\
  (Forall well_formed opportunities ->
   result = Py.Ok tt /\
   map snd signals =
     flat_map (fun o => repeat o (Z.to_nat (Z.min (Strategy.get (bot_count o) 0)
                                                  (len available_bots))))
              opportunities /\
   (forall j, (j < length signals)%nat ->
      nth_error (map fst signals) j =
      nth_error available_bots (j mod length available_bots))).
Proof.
  intros result signals. subst result signals.
  destruct (distribute_outcome opportunities available_bots) as [Hraise Hok].
  assert (Hdec : Exists lacks_key opportunities \/ ~ Exists lacks_key opportunities).
  { clear. induction opportunities as [| o rest [IH | IH]].
    - right. intros H. inversion H.
    - left. right. exact IH.
    - destruct (Strategy.objective_type (opportunity o)) eqn:Ety.
      2:{ left. left. left. exact Ety. }
      destruct (bot_count o) eqn:Ek.
      2:{ left. left. right. exact Ek. }
      right. intros H. inversion H as [x l Hh | x l Hh]; subst.
      + destruct Hh as [Hh | Hh]; congruence.
      + contradiction. }
  split; [| split].
  - split; [| exact Hraise].
    intros Hres. destruct Hdec as [H | H]; [exact H |].
    rewrite (Hok H) in Hres. discriminate.
  - split; [| exact Hok].
    intros Hres. intros H. rewrite (Hraise H) in Hres. discriminate.
  - intros Hwf. split; [| split].
    + apply Hok. intros H. apply List.Exists_exists in H.
      destruct H as (o & Hin & Hlack).
      rewrite List.Forall_forall in Hwf.
      destruct (Hwf o Hin) as (Hty & k & Hcount & _).
      destruct Hlack; congruence.
    + apply distribute_opportunities. exact Hwf.
    + intros j Hj. apply distribute_bots; assumption.
Qed.

Lemma distribution_is_round_robin_witness :
  let opps := [mkOpportunity (Strategy.mkObjective (Some "amplify_trending") None None None)
                             (Some 2);
               mkOpportunity (Strategy.mkObjective (Some "campaign_push") None None None)
                             (Some 3)] in
  Forall well_formed opps /\
  fst (distribute_coordination_tasks opps ["a"; "b"; "c"]) = Py.Ok tt /\
  map fst (snd (distribute_coordination_tasks opps ["a"; "b"; "c"]))
    = ["a"; "b"; "c"; "a"; "b"] /\
  nth_error (map fst (snd (distribute_coordination_tasks opps ["a"; "b"; "c"]))) 3 =
  nth_error ["a"; "b"; "c"] (3 mod 3).
Proof.
  intros opps.
  assert (Hwf : Forall well_formed opps).
  { repeat constructor; try discriminate; eexists; (split; [reflexivity | lia]). }
  split; [exact Hwf |].
  destruct (distribution_is_round_robin opps ["a"; "b"; "c"]) as (_ & _ & H).
  destruct (H Hwf) as (Hok & _ & Hbots).
  split; [exact Hok |]. split; [reflexivity |].
  apply (Hbots 3%nat). vm_compute. lia.
Defined.

(** Once the retry count has reached [max_retries] the loop test fails. *)
Lemma retry_loop_exhausted (fuel : nat) (is_running start_raises : Z -> bool)
    (clock : Q) :
  retry_loop fuel is_running start_raises 3 clock = (3, clock).
Proof.
  destruct fuel as [| fuel]; [reflexivity |].
  cbn [retry_loop]. change (3 <? 3) with false.
  rewrite andb_false_r. reflexivity.
Qed.

(** X30.  Supervision of one bot.  The retry loop runs its body at most three
    times, so any larger bound gives the same result.  The bot is dropped from
    [active_bots] and [accounts_banned] grows by exactly one precisely when
    the campaign is running and [bot.start()] raises at each of the three
    attempts; otherwise both are left as they were.  The waits are 60 seconds
    after the first failure and 120 after the second (linear, not exponential)
    and none after the third. *)
Theorem supervision_gives_up_after_three_failures
    (is_running start_raises : Z -> bool) (bot_id : string) (clock : Q)
    (active_bots : gset string) (accounts_banned : Z) (more : nat) :
  let fails k := is_running k && start_raises k in
  let gave_up := fails 0 && fails 1 && fails 2 in
  let '(active_bots', accounts_banned', clock') :=
    run_bot_with_error_handling is_running start_raises bot_id clock
                                active_bots accounts_banned in
  retry_loop (3 + more) is_running start_raises 0 clock =
    retry_loop 3 is_running start_raises 0 clock /\
  active_bots' = (if gave_up then active_bots ∖ {[bot_id]} else active_bots) /\
  accounts_banned' = (if gave_up then accounts_banned + 1 else accounts_banned) /\
  (clock' == clock + (if fails 0%Z then 60 + (if fails 1%Z then 120 else 0) else 0))%Q.
Proof.
  intros fails gave_up. subst gave_up fails.
  unfold run_bot_with_error_handling.
  change (3 + more)%nat with (S (S (S more))).
  cbn [retry_loop].
  change (0 <? 3) with true. change (0 + 1) with 1.
  change (1 <? 3) with true. change (1 + 1) with 2.
  change (2 <? 3) with true. change (2 + 1) with 3.
  change (3 <? 3) with false.
  change (60 * 1) with 60. change (60 * 2) with 120.
  rewrite !andb_true_r.
  destruct (is_running 0); cbn [andb];
    [destruct (start_raises 0) |]; cbn [andb];
    try (change (0 >=? 3) with false; cbv iota;
         repeat split; ring).
  destruct (is_running 1); cbn [andb];
    [destruct (start_raises 1) |]; cbn [andb];
    try (change (1 >=? 3) with false; cbv iota;
         repeat split; ring).
  destruct (is_running 2); cbn [andb];
    [destruct (start_raises 2) |]; cbn [andb];
    try (change (2 >=? 3) with false; cbv iota;
         repeat split; ring).
  rewrite !retry_loop_exhausted. change (3 >=? 3) with true. cbv iota.
  repeat split. ring.
Qed.

End ManagerExtra.
